(** * TrueTag backend: the tag lifecycle, verification and credential workflows

    A shallow embedding of the handlers of [app_package/routers] that write
    to the database (auth.py, users.py, products.py, tags.py, verify.py) and
    of [scripts/bulk_minter.py], over a relational store, and the properties
    of these handlers; with them the login handler, the token functions of
    [oauth2.py], the chain service of [services/blockchain_service.py], the
    code generator of [utils.py] and the URL rewrite of [database.py].

    Conventions.
    - A table is the list of its rows in the order the database scans them;
      [first()] is the head of the filtered list, [limit(n)] is [firstn].
      An UPDATE is written at the place of the row; where PostgreSQL returns
      an updated row in a later scan is not modelled.
    - A path or query parameter that a statement compares with an INTEGER
      column is taken in the range of that type ([int32]): the driver refuses
      any other value before the statement is sent, and the request fails.
    - Python [int] is [Z]; a nullable column is an [option]; [str] is [string].
    - A timestamp is a number of seconds (Z); [timedelta(hours=1)] is 3600.
    - A handler is a computation in the monad [M] over a database session: it
      may read and write the session, [commit], [rollback], and raise.  When
      the request ends the session is closed and only what was committed
      remains ([run_request]). *)

From Stdlib Require Import ZArith List Ascii String Bool Lia DecimalString.
Import ListNotations.

Local Open Scope string_scope.
Local Open Scope Z_scope.
Local Open Scope list_scope.

(* ------------------------------------------------------------------------- *)
(** ** models/ : the six tables *)

Module User.
Record t := mk {
  id : Z;
  email : string;
  password : string;
  role : string;
  name : option string;
  created_at : Z
}.
Definition set_password (p : string) (u : t) : t :=
  mk (id u) (email u) p (role u) (name u) (created_at u).
Definition set_email (e : string) (u : t) : t :=
  mk (id u) e (password u) (role u) (name u) (created_at u).
Definition set_name (n : string) (u : t) : t :=
  mk (id u) (email u) (password u) (role u) (Some n) (created_at u).
Definition set_role (r : string) (u : t) : t :=
  mk (id u) (email u) (password u) r (name u) (created_at u).
End User.

Module Product.
Record t := mk {
  id : Z;
  name : string;
  description : option string;
  manufacturer_id : option Z;
  category : string;
  meta_data : option string;
  image_url : string;
  status : string;
  created_at : Z
}.
Definition set_status (st : string) (p : t) : t :=
  mk (id p) (name p) (description p) (manufacturer_id p) (category p)
     (meta_data p) (image_url p) st (created_at p).
Definition set_image_url (u : string) (p : t) : t :=
  mk (id p) (name p) (description p) (manufacturer_id p) (category p)
     (meta_data p) u (status p) (created_at p).
Definition set_name (n : string) (p : t) : t :=
  mk (id p) n (description p) (manufacturer_id p) (category p)
     (meta_data p) (image_url p) (status p) (created_at p).
Definition set_description (x : string) (p : t) : t :=
  mk (id p) (name p) (Some x) (manufacturer_id p) (category p)
     (meta_data p) (image_url p) (status p) (created_at p).
Definition set_category (c : string) (p : t) : t :=
  mk (id p) (name p) (description p) (manufacturer_id p) c
     (meta_data p) (image_url p) (status p) (created_at p).
Definition set_meta_data (m : string) (p : t) : t :=
  mk (id p) (name p) (description p) (manufacturer_id p) (category p)
     (Some m) (image_url p) (status p) (created_at p).
End Product.

Module Batch.
Record t := mk {
  id : Z;
  product_id : option Z;
  manufacturer_id : Z;
  count : Z;
  status : string;
  mint_type : string;
  blockchain_tx_hash : option string;
  created_at : Z
}.
Definition set_status (st : string) (b : t) : t :=
  mk (id b) (product_id b) (manufacturer_id b) (count b) st (mint_type b)
     (blockchain_tx_hash b) (created_at b).
Definition set_blockchain_tx_hash (h : string) (b : t) : t :=
  mk (id b) (product_id b) (manufacturer_id b) (count b) (status b)
     (mint_type b) (Some h) (created_at b).
End Batch.

Module Tag.
Record t := mk {
  id : Z;
  tag_code : string;
  token_id : string;
  blockchain_tx_hash : option string;
  status : string;
  product_id : option Z;
  batch_id : Z;
  created_at : Z
}.
(** [.values(product_id=..., status=...)] of a bulk UPDATE. *)
Definition set_values (pid : Z) (st : string) (g : t) : t :=
  mk (id g) (tag_code g) (token_id g) (blockchain_tx_hash g) st (Some pid)
     (batch_id g) (created_at g).
End Tag.

Module Scan.
Record t := mk {
  id : Z;
  tag_id : option Z;
  user_id : option Z;
  location : option string;
  verification_result : string;
  timestamp : Z
}.
End Scan.

Module PasswordResetToken.
Record t := mk {
  id : Z;
  user_id : Z;
  token : string;
  expires_at : Z
}.
End PasswordResetToken.

(** The persisted state: one list of rows per table. *)
Record Store := mkStore {
  users : list User.t;
  products : list Product.t;
  batches : list Batch.t;
  tags : list Tag.t;
  scans : list Scan.t;
  password_reset_tokens : list PasswordResetToken.t
}.

Definition empty_store : Store := mkStore [] [] [] [] [] [].

Definition with_users (f : list User.t -> list User.t) (s : Store) : Store :=
  mkStore (f (users s)) (products s) (batches s) (tags s) (scans s)
          (password_reset_tokens s).
Definition with_products (f : list Product.t -> list Product.t) (s : Store) : Store :=
  mkStore (users s) (f (products s)) (batches s) (tags s) (scans s)
          (password_reset_tokens s).
Definition with_batches (f : list Batch.t -> list Batch.t) (s : Store) : Store :=
  mkStore (users s) (products s) (f (batches s)) (tags s) (scans s)
          (password_reset_tokens s).
Definition with_tags (f : list Tag.t -> list Tag.t) (s : Store) : Store :=
  mkStore (users s) (products s) (batches s) (f (tags s)) (scans s)
          (password_reset_tokens s).
Definition with_scans (f : list Scan.t -> list Scan.t) (s : Store) : Store :=
  mkStore (users s) (products s) (batches s) (tags s) (f (scans s))
          (password_reset_tokens s).
Definition with_password_reset_tokens
    (f : list PasswordResetToken.t -> list PasswordResetToken.t) (s : Store) : Store :=
  mkStore (users s) (products s) (batches s) (tags s) (scans s)
          (f (password_reset_tokens s)).

(** Integer primary keys are assigned by the database: a key above every
    key of the table. *)
Definition next_id (ids : list Z) : Z := 1 + fold_right Z.max 0 ids.

(** The values of an INTEGER column, and of a parameter bound to one. *)
Definition int32 (z : Z) : Prop := -2147483648 <= z <= 2147483647.

(** Membership of a string in a list, as [tag_code.in_(codes)] and the
    uniqueness checks need it. *)
Definition mem_string (x : string) (l : list string) : bool :=
  existsb (String.eqb x) l.

Fixpoint distinct (l : list string) : bool :=
  match l with
  | [] => true
  | x :: r => negb (mem_string x r) && distinct r
  end.

Fixpoint distinctZ (l : list Z) : bool :=
  match l with
  | [] => true
  | x :: r => negb (existsb (Z.eqb x) r) && distinctZ r
  end.

(** [a == b] on a nullable integer column: NULL matches nothing. *)
Definition opt_eqb (o : option Z) (z : Z) : bool :=
  match o with
  | Some y => Z.eqb y z
  | None => false
  end.

(* ------------------------------------------------------------------------- *)
(** ** database.py : the session, and what a handler can raise *)

Inductive exn :=
| HTTPException (status_code : Z) (detail : string)
| AttributeError (msg : string)
| IntegrityError (msg : string)
| DBAPIError (msg : string)
| RuntimeError (msg : string)
| ValidationError (msg : string).

(** [str(e)] *)
Definition str (e : exn) : string :=
  match e with
  | HTTPException _ d => d
  | AttributeError m | IntegrityError m | DBAPIError m | RuntimeError m
  | ValidationError m => m
  end.

Inductive result (A : Type) :=
| Return (a : A)
| Raise (e : exn).
Arguments Return {A} a.
Arguments Raise {A} e.

(** The status code the framework answers with: an [HTTPException] carries
    its own, any other exception that leaves the handler is a 500. *)
Definition status_code_of {A} (ok : Z) (r : result A) : Z :=
  match r with
  | Return _ => ok
  | Raise (HTTPException c _) => c
  | Raise _ => 500
  end.

(** A session holds the committed state of the database and the state its
    open transaction sees. *)
Record Session := mkSession {
  committed : Store;
  pending : Store
}.

Definition M (A : Type) : Type := Session -> Session * result A.

Definition ret {A} (a : A) : M A := fun ss => (ss, Return a).

Definition bind {A B} (m : M A) (k : A -> M B) : M B :=
  fun ss =>
    match m ss with
    | (ss', Return a) => k a ss'
    | (ss', Raise e) => (ss', Raise e)
    end.

Definition raise {A} (e : exn) : M A := fun ss => (ss, Raise e).

(** A call to a collaborator outside the database: its value, or the
    exception it raises. *)
Definition await {A} (r : result A) : M A := fun ss => (ss, r).

(** [try: m  except Exception as e: h e] *)
Definition try_except {A} (m : M A) (h : exn -> M A) : M A :=
  fun ss =>
    match m ss with
    | (ss', Return a) => (ss', Return a)
    | (ss', Raise e) => h e ss'
    end.

Declare Scope session_scope.
Delimit Scope session_scope with session.
Notation "x <- m ;; k" := (bind m (fun x => k))
  (at level 61, m at next level, right associativity) : session_scope.
Notation "m ;; k" := (bind m (fun _ => k))
  (at level 61, right associativity) : session_scope.
Local Open Scope session_scope.

(** [db.execute(select ...)]: a read of the open transaction. *)
Definition execute {A} (q : Store -> A) : M A :=
  fun ss => (ss, Return (q (pending ss))).

(** A write (INSERT, UPDATE, DELETE) inside the open transaction. *)
Definition write (f : Store -> Store) : M unit :=
  fun ss => (mkSession (committed ss) (f (pending ss)), Return tt).

(** [db.commit()] *)
Definition commit : M unit :=
  fun ss => (mkSession (pending ss) (pending ss), Return tt).

(** [db.rollback()] *)
Definition rollback : M unit :=
  fun ss => (mkSession (committed ss) (committed ss), Return tt).

(** One request: [get_db] opens a session on the database, the handler runs,
    the session is closed.  What was not committed is lost. *)
Definition run_request {A} (h : M A) (s : Store) : Store * result A :=
  let (ss, r) := h (mkSession s s) in (committed ss, r).

(** Unfolding of the session monad, for the proofs below. *)
Ltac unfold_session :=
  unfold run_request, bind, ret, raise, await, try_except, execute, write,
    commit, rollback in *;
  cbn [committed pending fst snd] in *.

(* ------------------------------------------------------------------------- *)
(** ** schemas/ : request and response bodies *)

Module UserCreate.
(** [UserBase] declares [role] with default "manufacturer"; a client may
    send any other value in the body. *)
Record t := mk {
  email : string;
  name : option string;
  role : string;
  password : string
}.
Definition set_role (r : string) (u : t) : t :=
  mk (email u) (name u) r (password u).
End UserCreate.

Module UserResponse.
Record t := mk {
  email : string;
  name : option string;
  role : string;
  id : Z;
  created_at : Z
}.
Definition from_orm (u : User.t) : t :=
  mk (User.email u) (User.name u) (User.role u) (User.id u) (User.created_at u).
End UserResponse.

Module PasswordResetRequest.
Record t := mk { email : string }.
End PasswordResetRequest.

Module PasswordReset.
Record t := mk { token : string; new_password : string }.
End PasswordReset.

(** A JSON body [{"detail": ...}]. *)
Record Detail := mkDetail { detail : string }.

(* ------------------------------------------------------------------------- *)
(** ** routers/auth.py *)

Module Auth.
Section Handlers.

(** [utils.hash_password]: the password hashing collaborator. *)
Variable hash_password : string -> string.

(** [db.add(user)]: INSERT of a user row, the key assigned by the database. *)
Definition add_user (row : Z -> User.t) : M User.t :=
  uid <- execute (fun s => next_id (map User.id (users s))) ;;
  write (with_users (fun l => l ++ [row uid])) ;;
  ret (row uid).

(** [db.add(reset_record)]: INSERT into password_reset_tokens.  The column
    [token] is declared [unique=True]: the database refuses a second row
    with a token it already holds. *)
Definition add_password_reset_token (row : Z -> PasswordResetToken.t)
  : M PasswordResetToken.t :=
  rid <- execute (fun s => next_id (map PasswordResetToken.id (password_reset_tokens s))) ;;
  dup <- execute (fun s =>
           mem_string (PasswordResetToken.token (row rid))
                      (map PasswordResetToken.token (password_reset_tokens s))) ;;
  if dup : bool then raise (IntegrityError "duplicate key value violates unique constraint")
  else
    write (with_password_reset_tokens (fun l => l ++ [row rid])) ;;
    ret (row rid).

(** POST /auth/register.  [now] is the server clock ([created_at] has
    [server_default=func.now()]). *)
Definition register_user (user_in : UserCreate.t) (now : Z) : M UserResponse.t :=
  q <- execute (fun s =>
         find (fun u => (User.email u =? UserCreate.email user_in)%string) (users s)) ;;
  match q with
  | Some _ => raise (HTTPException 400 "Email already registered")
  | None =>
      let hashed := hash_password (UserCreate.password user_in) in
      user <- add_user (fun uid =>
                User.mk uid (UserCreate.email user_in) hashed "manufacturer"
                        (UserCreate.name user_in) now) ;;
      commit ;;
      ret (UserResponse.from_orm user)
  end.

Definition generic_reset_response : Detail :=
  mkDetail "If an account exists, a reset link will be sent".

(** POST /auth/password-reset-request.  [token] is the value drawn by
    [secrets.token_urlsafe(32)], [now] is [datetime.now(timezone.utc)]. *)
Definition request_password_reset (payload : PasswordResetRequest.t)
    (now : Z) (token : string) : M Detail :=
  user <- execute (fun s =>
            find (fun u => (User.email u =? PasswordResetRequest.email payload)%string)
                 (users s)) ;;
  match user with
  | None => ret generic_reset_response
  | Some user =>
      let expires_at := now + 3600 in
      add_password_reset_token (fun rid =>
        PasswordResetToken.mk rid (User.id user) token expires_at) ;;
      commit ;;
      ret generic_reset_response
  end.

(** POST /auth/password-reset. *)
Definition reset_password (payload : PasswordReset.t) (now : Z) : M Detail :=
  token_rec <- execute (fun s =>
                 find (fun r => (PasswordResetToken.token r =? PasswordReset.token payload)%string)
                      (password_reset_tokens s)) ;;
  match token_rec with
  | None => raise (HTTPException 400 "Invalid or expired token")
  | Some token_rec =>
      if PasswordResetToken.expires_at token_rec <? now
      then raise (HTTPException 400 "Invalid or expired token")
      else
        user <- execute (fun s =>
                  find (fun u => User.id u =? PasswordResetToken.user_id token_rec)
                       (users s)) ;;
        match user with
        | None => raise (HTTPException 400 "Associated user not found")
        | Some user =>
            (* user.password = ...: UPDATE users ... WHERE id = user.id *)
            write (with_users (map (fun u =>
                     if User.id u =? User.id user
                     then User.set_password
                            (hash_password (PasswordReset.new_password payload)) u
                     else u))) ;;
            (* db.delete(token_rec): DELETE ... WHERE id = token_rec.id *)
            write (with_password_reset_tokens (filter (fun r =>
                     negb (PasswordResetToken.id r =? PasswordResetToken.id token_rec)))) ;;
            commit ;;
            ret (mkDetail "Password reset successfully")
        end
  end.

End Handlers.
End Auth.

(* ------------------------------------------------------------------------- *)
(** ** schemas/ for products, tags and verification *)

(** [str(n)] of a Python [int], as the f-strings of the handlers print it. *)
Definition str_of_int (n : Z) : string := NilZero.string_of_int (Z.to_int n).

Module ProductResponse.
Record t := mk {
  name : string;
  description : option string;
  category : string;
  meta_data : option string;
  status : string;
  id : Z;
  manufacturer_id : option Z;
  image_url : string;
  created_at : Z
}.
Definition from_orm (p : Product.t) : t :=
  mk (Product.name p) (Product.description p) (Product.category p)
     (Product.meta_data p) (Product.status p) (Product.id p)
     (Product.manufacturer_id p) (Product.image_url p) (Product.created_at p).
End ProductResponse.

Module TagGenerationRequest.
Record t := mk {
  product_id : option Z;
  count : Z;
  mint_type : string
}.
End TagGenerationRequest.

Module BatchResponse.
Record t := mk {
  id : Z;
  product_id : option Z;
  count : Z;
  status : string;
  mint_type : string;
  blockchain_tx_hash : option string;
  created_at : Z
}.
Definition from_orm (b : Batch.t) : t :=
  mk (Batch.id b) (Batch.product_id b) (Batch.count b) (Batch.status b)
     (Batch.mint_type b) (Batch.blockchain_tx_hash b) (Batch.created_at b).
End BatchResponse.

Module BatchAssignmentResponse.
Record t := mk {
  message : string;
  assigned_tag_codes : list string
}.
End BatchAssignmentResponse.

Module VerificationResponse.
(** schemas/scan.py, "Response schema for the public verify endpoint": the
    class the constructor call of routers/verify.py fits.  Only
    [product_description] has a default.  (schemas/verification.py declares a
    class of the same name with the required fields [scan_id] and
    [scan_timestamp], which neither handler passes.) *)
Record t := mk {
  tag_id : Z;
  tag_code : string;
  verification_result : string;
  product_name : string;
  product_description : option string;
  product_category : string;
  product_image_url : string;
  timestamp : Z
}.
End VerificationResponse.

(* ------------------------------------------------------------------------- *)
(** ** routers/products.py : list, get and soft delete *)

Module Products.

Definition is_manufacturer (u : User.t) : bool :=
  (User.role u =? "manufacturer")%string.

(** [Product.id == id, Product.manufacturer_id == current_user.id] *)
Definition owned_by (pid : Z) (current_user : User.t) (p : Product.t) : bool :=
  (Product.id p =? pid) && opt_eqb (Product.manufacturer_id p) (User.id current_user).

(** [if status: query = query.where(Product.status == status)]: a filter that
    is absent or the empty string adds no predicate. *)
Definition optional_filter (f : option string) (column : string) : bool :=
  match f with
  | None => true
  | Some v => if (v =? "")%string then true else (column =? v)%string
  end.

(** GET /products *)
Definition list_products (status category : option string) (current_user : User.t)
  : M (list ProductResponse.t) :=
  if negb (is_manufacturer current_user)
  then
    (* [status.HTTP_403_FORBIDDEN]: here [status] is the query parameter, not
       the module of fastapi, and has no such attribute *)
    raise (AttributeError
             match status with
             | None => "'NoneType' object has no attribute 'HTTP_403_FORBIDDEN'"
             | Some _ => "'str' object has no attribute 'HTTP_403_FORBIDDEN'"
             end)
  else
    products <- execute (fun s =>
      filter (fun p =>
                opt_eqb (Product.manufacturer_id p) (User.id current_user)
                && optional_filter status (Product.status p)
                && optional_filter category (Product.category p))
             (products s)) ;;
    ret (map ProductResponse.from_orm products).

(** GET /products/{id} *)
Definition get_product (id : Z) (current_user : User.t) : M ProductResponse.t :=
  if negb (is_manufacturer current_user)
  then raise (HTTPException 403 "Only manufacturers can view products")
  else
    product <- execute (fun s => find (owned_by id current_user) (products s)) ;;
    match product with
    | None => raise (HTTPException 404 "Product not found or not owned")
    | Some product => ret (ProductResponse.from_orm product)
    end.

(** DELETE /products/{id} *)
Definition delete_product (id : Z) (current_user : User.t) : M unit :=
  if negb (is_manufacturer current_user)
  then raise (HTTPException 403 "Only manufacturers can delete products")
  else
    product <- execute (fun s => find (owned_by id current_user) (products s)) ;;
    match product with
    | None => raise (HTTPException 404 "Product not found or not owned")
    | Some product =>
        (* product.status = "inactive": UPDATE products ... WHERE id = product.id *)
        write (with_products (map (fun p =>
                 if Product.id p =? Product.id product
                 then Product.set_status "inactive" p else p))) ;;
        commit
    end.

(** An uploaded file, as far as the handlers look at it. *)
Record UploadFile := mkUploadFile {
  filename : string;
  content_type : string
}.

(** [filename.split('.')[-1]] *)
Fixpoint last_segment (s current : string) : string :=
  match s with
  | EmptyString => current
  | String c r =>
      if Ascii.eqb c "."%char then last_segment r ""
      else last_segment r (current ++ String c "")%string
  end.

Section Writes.

(** [uuid.uuid4()] for the name of the stored image, and
    [ProductMetadata.parse_raw], which gives the parsed metadata or raises.
    The image itself is written to the static directory, not to the
    database. *)
Variable uuid4 : nat -> string.
Variable parse_raw : string -> result string.

Definition allowed_image (image : UploadFile) : bool :=
  mem_string (content_type image) ["image/png"; "image/jpeg"].

Definition image_filename (image : UploadFile) : string :=
  (uuid4 0 ++ "." ++ last_segment (filename image) "")%string.

(** [db.add(db_product)] *)
Definition add_product (row : Z -> Product.t) : M Product.t :=
  pid <- execute (fun s => next_id (map Product.id (products s))) ;;
  write (with_products (fun l => l ++ [row pid])) ;;
  ret (row pid).

(** Attribute assignment on a product object: an UPDATE of its row. *)
Definition update_row (pid : Z) (f : Product.t -> Product.t) : M unit :=
  write (with_products (map (fun p => if Product.id p =? pid then f p else p))).

(** POST /products *)
Definition create_product (name : string) (description : option string)
    (category : string) (meta_data : option string) (image : UploadFile)
    (current_user : User.t) (now : Z) : M ProductResponse.t :=
  if negb (is_manufacturer current_user)
  then raise (HTTPException 403 "Only manufacturers can create products")
  else if negb (allowed_image image)
  then raise (HTTPException 400 "Only PNG or JPEG images allowed")
  else
    parsed <- try_except
                (match meta_data with
                 | None => ret None
                 | Some raw =>
                     if (raw =? "")%string then ret None
                     else m <- await (parse_raw raw) ;; ret (Some m)
                 end)
                (fun e => raise (HTTPException 400 ("Invalid product data: " ++ str e)%string)) ;;
    db_product <- add_product (fun pid =>
                    Product.mk pid name description (Some (User.id current_user))
                               category parsed
                               ("/static/" ++ image_filename image)%string
                               "active" now) ;;
    commit ;;
    ret (ProductResponse.from_orm db_product).

(** [if x is not None: setattr(db_product, key, x)] *)
Definition set_if_given {A} (x : option A) (set : A -> Product.t -> Product.t)
    (pid : Z) : M unit :=
  match x with
  | None => ret tt
  | Some v => update_row pid (set v)
  end.

(** PUT /products/{id} *)
Definition update_product (id : Z) (name description category meta_data : option string)
    (image : option UploadFile) (current_user : User.t) : M ProductResponse.t :=
  if negb (is_manufacturer current_user)
  then raise (HTTPException 403 "Only manufacturers can update products")
  else
    q <- execute (fun s => find (owned_by id current_user) (products s)) ;;
    match q with
    | None => raise (HTTPException 404 "Product not found or not owned")
    | Some db_product =>
        let pid := Product.id db_product in
        match image with
        | None => ret tt
        | Some image =>
            if negb (allowed_image image)
            then raise (HTTPException 400 "Only PNG or JPEG images allowed")
            else update_row pid
                   (Product.set_image_url ("/static/" ++ image_filename image)%string)
        end ;;
        parsed <- match meta_data with
                  | None => ret None
                  | Some raw => m <- await (parse_raw raw) ;; ret (Some m)
                  end ;;
        set_if_given name Product.set_name pid ;;
        set_if_given description Product.set_description pid ;;
        set_if_given category Product.set_category pid ;;
        set_if_given parsed Product.set_meta_data pid ;;
        commit ;;
        row <- execute (fun s => find (fun p => Product.id p =? pid) (products s)) ;;
        match row with
        | Some p => ret (ProductResponse.from_orm p)
        | None => raise (DBAPIError "Could not refresh instance")
        end
    end.

End Writes.
End Products.

(* ------------------------------------------------------------------------- *)
(** ** routers/tags.py : minting, assignment, verification against the chain *)

(** What [contract.functions.ownerOf(int(tag.token_id)).call()] does: it
    returns the owner address, or the contract rejects the call, or anything
    else goes wrong ([int()] of a token id that is no number included). *)
Inductive owner_of_outcome :=
| Owner (address : string)
| ContractLogicError
| OtherException.

Module Tags.
Section Handlers.

(** [uuid4()]: the [i]-th identifier drawn while the request runs. *)
Variable uuid4 : nat -> string.

(** [blockchain_service.mint_warehouse_batch] and [mint_tags_in_bulk]: the
    transaction hash, or the exception the service raises. *)
Variable mint_warehouse_batch : list string -> result string.
Variable mint_tags_in_bulk : list string -> option Z -> result string.

(** The module-level [contract] ([None] when the connection failed at
    import), the [ownerOf] call, and
    [w3.to_checksum_address(settings.ADMIN_WALLET)] ([None]: it raises). *)
Variable contract : bool.
Variable owner_of : string -> owner_of_outcome.
Variable expected_owner : option string.

(** [oauth2.get_current_admin] *)
Definition get_current_admin (user : User.t) : M User.t :=
  if negb (User.role user =? "admin")%string
  then raise (HTTPException 403 "Admins only.")
  else ret user.

(** [db.add(batch); db.flush()]: INSERT of the batch row in the open
    transaction; [product_id] and [manufacturer_id] are foreign keys. *)
Definition add_batch (row : Z -> Batch.t) : M Batch.t :=
  bid <- execute (fun s => next_id (map Batch.id (batches s))) ;;
  fk <- execute (fun s =>
          match Batch.product_id (row bid) with
          | None => true
          | Some p => existsb (fun q => Product.id q =? p) (products s)
          end
          && existsb (fun u => User.id u =? Batch.manufacturer_id (row bid)) (users s)) ;;
  if fk : bool
  then write (with_batches (fun l => l ++ [row bid])) ;; ret (row bid)
  else raise (IntegrityError "violates foreign key constraint").

(** Attribute assignment on a batch object: an UPDATE of its row, if the
    open transaction has one. *)
Definition update_batch (bid : Z) (f : Batch.t -> Batch.t) : M unit :=
  write (with_batches (map (fun b => if Batch.id b =? bid then f b else b))).

Fixpoint number_rows (first : Z) (rows : list (Z -> Tag.t)) : list Tag.t :=
  match rows with
  | [] => []
  | r :: rs => r first :: number_rows (first + 1) rs
  end.

(** [db.add_all(tags)]: INSERT of the tag rows.  [tag_code] and [token_id]
    are declared [unique=True]. *)
Definition add_all (rows : list (Z -> Tag.t)) : M unit :=
  first <- execute (fun s => next_id (map Tag.id (tags s))) ;;
  ok <- execute (fun s =>
          let l := tags s ++ number_rows first rows in
          distinct (map Tag.tag_code l) && distinct (map Tag.token_id l)) ;;
  if ok : bool
  then write (with_tags (fun l => l ++ number_rows first rows))
  else raise (IntegrityError "duplicate key value violates unique constraint").

(** [db.refresh(batch)] *)
Definition refresh (bid : Z) : M Batch.t :=
  b <- execute (fun s => find (fun b => Batch.id b =? bid) (batches s)) ;;
  match b with
  | Some b => ret b
  | None => raise (DBAPIError "Could not refresh instance")
  end.

(** [[f(uuid4()) for _ in range(count)]], the draws numbered from [from]. *)
Definition draws (from : nat) (count : Z) : list string :=
  map uuid4 (seq from (Z.to_nat count)).

(** POST /tags/mint/warehouse *)
Definition mint_warehouse_tags (request : TagGenerationRequest.t)
    (user : User.t) (now : Z) : M BatchResponse.t :=
  current_user <- get_current_admin user ;;
  if negb (TagGenerationRequest.mint_type request =? "warehouse")%string
  then raise (HTTPException 400 "mint_type must be 'warehouse' for this endpoint.")
  else
    let count := TagGenerationRequest.count request in
    let tag_codes := draws 0 count in
    batch <- add_batch (fun bid =>
               Batch.mk bid None (User.id current_user) count "pending"
                        "warehouse" None now) ;;
    try_except
      (tx_hash <- await (mint_warehouse_batch tag_codes) ;;
       update_batch (Batch.id batch)
         (fun b => Batch.set_status "minted" (Batch.set_blockchain_tx_hash tx_hash b)) ;;
       add_all (map (fun ct : string * string => fun tid =>
                  Tag.mk tid (fst ct) ("TOKEN_" ++ snd ct)%string (Some tx_hash)
                         "unused" None (Batch.id batch) now)
                  (combine tag_codes (draws (List.length tag_codes) count))) ;;
       commit ;;
       batch <- refresh (Batch.id batch) ;;
       ret (BatchResponse.from_orm batch))
      (fun e =>
         rollback ;;
         update_batch (Batch.id batch) (Batch.set_status "failed") ;;
         raise (HTTPException 500 ("Minting failed: " ++ str e)%string)).

(** [not request.product_id] *)
Definition falsy (o : option Z) : bool :=
  match o with
  | None => true
  | Some z => z =? 0
  end.

(** POST /tags/mint/direct *)
Definition mint_direct_tags (request : TagGenerationRequest.t)
    (user : User.t) (now : Z) : M BatchResponse.t :=
  current_user <- get_current_admin user ;;
  let product_id := TagGenerationRequest.product_id request in
  if negb (TagGenerationRequest.mint_type request =? "direct")%string
     || falsy product_id
  then raise (HTTPException 400 "mint_type must be 'direct' and product_id is required.")
  else
    let count := TagGenerationRequest.count request in
    let tag_codes := draws 0 count in
    batch <- add_batch (fun bid =>
               Batch.mk bid product_id (User.id current_user) count
                        "pending" "direct" None now) ;;
    try_except
      (tx_hash <- await (mint_tags_in_bulk tag_codes product_id) ;;
       update_batch (Batch.id batch)
         (fun b => Batch.set_status "minted" (Batch.set_blockchain_tx_hash tx_hash b)) ;;
       add_all (map (fun ct : string * string => fun tid =>
                  Tag.mk tid (fst ct) ("TOKEN_" ++ snd ct)%string (Some tx_hash)
                         "active" product_id (Batch.id batch) now)
                  (combine tag_codes (draws (List.length tag_codes) count))) ;;
       commit ;;
       batch <- refresh (Batch.id batch) ;;
       ret (BatchResponse.from_orm batch))
      (fun e =>
         rollback ;;
         update_batch (Batch.id batch) (Batch.set_status "failed") ;;
         raise (HTTPException 500 ("Direct minting failed: " ++ str e)%string)).

(** [select(Tag).where(Tag.status == "unused").limit(count)].  PostgreSQL,
    the engine database.py connects to, rejects a negative LIMIT. *)
Definition select_unused (count : Z) : M (list Tag.t) :=
  if count <? 0
  then raise (DBAPIError "LIMIT must not be negative")
  else execute (fun s =>
         firstn (Z.to_nat count)
                (filter (fun g => (Tag.status g =? "unused")%string) (tags s))).

(** POST /tags/generate *)
Definition assign_tags_to_product (product_id count : Z) (current_user : User.t)
  : M BatchAssignmentResponse.t :=
  if negb (User.role current_user =? "manufacturer")%string
  then raise (HTTPException 403 "Only manufacturers can generate tags.")
  else
    product <- execute (fun s =>
                 find (Products.owned_by product_id current_user) (products s)) ;;
    match product with
    | None => raise (HTTPException 404 "Product not found or not owned by manufacturer.")
    | Some product =>
        available_tags <- select_unused count ;;
        let len := Z.of_nat (List.length available_tags) in
        if len <? count
        then raise (HTTPException 400
               ("Not enough tags available. Only " ++ str_of_int len
                ++ " tags are in stock. Please contact TrueTag admin.")%string)
        else
          let assigned_tag_codes := map Tag.tag_code available_tags in
          write (with_tags (map (fun g =>
                   if mem_string (Tag.tag_code g) assigned_tag_codes
                   then Tag.set_values (Product.id product) "active" g
                   else g))) ;;
          commit ;;
          ret (BatchAssignmentResponse.mk
                 ("Successfully assigned " ++ str_of_int len
                  ++ " tags to product '" ++ Product.name product
                  ++ "' (ID: " ++ str_of_int product_id ++ ").")%string
                 assigned_tag_codes)
    end.

(** [tag.product]: the row the foreign key [product_id] points to. *)
Definition product_of (s : Store) (g : Tag.t) : option Product.t :=
  match Tag.product_id g with
  | None => None
  | Some pid => find (fun p => Product.id p =? pid) (products s)
  end.

(** [select(Tag).where(Tag.tag_code == tag_code)
      .options(joinedload(Tag.product))]: the first tag with that code,
    loaded together with its product. *)
Definition select_tag (tag_code : string) (s : Store)
  : option (Tag.t * option Product.t) :=
  match find (fun g => (Tag.tag_code g =? tag_code)%string) (tags s) with
  | None => None
  | Some g => Some (g, product_of s g)
  end.

(** [db.add(scan)] *)
Definition add_scan (row : Z -> Scan.t) : M Scan.t :=
  sid <- execute (fun s => next_id (map Scan.id (scans s))) ;;
  write (with_scans (fun l => l ++ [row sid])) ;;
  ret (row sid).

(** Steps 2 and 3 of the handler: the status in the database, then the
    owner on the chain. *)
Definition check_status (g : Tag.t) : string :=
  if mem_string (Tag.status g) ["unused"; "flagged"] then "invalid" else "valid".

Definition check_on_chain (g : Tag.t) (verification_result : string) : string :=
  if (verification_result =? "valid")%string && contract
  then match owner_of (Tag.token_id g) with
       | Owner token_owner =>
           match expected_owner with
           | Some expected =>
               if negb (token_owner =? expected)%string
               then "tampered" else verification_result
           | None => "blockchain_error"
           end
       | ContractLogicError => "invalid"
       | OtherException => "blockchain_error"
       end
  else verification_result.

(** GET /tags/verify/{tag_code} *)
Definition verify_tag (tag_code : string) (location : option string) (now : Z)
  : M VerificationResponse.t :=
  q <- execute (select_tag tag_code) ;;
  match q with
  | None => raise (HTTPException 404 "Tag not found.")
  | Some (tag, product) =>
      let verification_result := check_on_chain tag (check_status tag) in
      scan <- add_scan (fun sid =>
                Scan.mk sid (Some (Tag.id tag)) None location verification_result now) ;;
      commit ;;
      match product with
      | None => raise (AttributeError "'NoneType' object has no attribute 'name'")
      | Some _ =>
          (* schemas.VerificationResponse(tag_id=, tag_code=,
             verification_result=, product_name=, product_image_url=): the
             required fields product_category and timestamp are not passed,
             and the model refuses to be built *)
          raise (ValidationError "2 validation errors for VerificationResponse")
      end
  end.

End Handlers.
End Tags.

(* ------------------------------------------------------------------------- *)
(** ** routers/verify.py : the public verification endpoint *)

Module Verify.

(** Step 3: first scan of an active tag, later scan of an active tag,
    anything else. *)
Definition determine (existing_scan : option Scan.t) (g : Tag.t) : string :=
  let active := (Tag.status g =? "active")%string in
  match existing_scan with
  | None => if active then "valid" else "invalid"
  | Some _ => if active then "duplicate" else "invalid"
  end.

(** GET /verify/{tag_code} *)
Definition verify_tag (tag_code : string) (location : option string) (now : Z)
  : M VerificationResponse.t :=
  q <- execute (Tags.select_tag tag_code) ;;
  match q with
  | None => raise (HTTPException 404 "Tag not found")
  | Some (tag, product) =>
      existing_scan <- execute (fun s =>
                         find (fun c => opt_eqb (Scan.tag_id c) (Tag.id tag)) (scans s)) ;;
      let verification_result := determine existing_scan tag in
      scan <- Tags.add_scan (fun sid =>
                Scan.mk sid (Some (Tag.id tag)) None location verification_result now) ;;
      commit ;;
      match product with
      | None => raise (HTTPException 500 "Associated product not found.")
      | Some product =>
          ret (VerificationResponse.mk
                 (Tag.id tag) (Tag.tag_code tag) verification_result
                 (Product.name product) (Product.description product)
                 (Product.category product) (Product.image_url product)
                 (Scan.timestamp scan))
      end
  end.

(** The calls of a list, one after the other, each with its location and
    time; the answers in order. *)
Fixpoint verify_each (tag_code : string) (calls : list (option string * Z)) (s : Store)
  : Store * list (result VerificationResponse.t) :=
  match calls with
  | [] => (s, [])
  | (location, now) :: rest =>
      let (s1, r) := run_request (verify_tag tag_code location now) s in
      let (s2, rs) := verify_each tag_code rest s1 in
      (s2, r :: rs)
  end.

End Verify.

(* ------------------------------------------------------------------------- *)
(** ** routers/users.py : profile and role updates *)

Module UserUpdate.
Record t := mk { email : option string; name : option string }.
End UserUpdate.

Module RoleUpdate.
Record t := mk { role : string }.
End RoleUpdate.

Module Users.

(** Attribute assignment on a user object: an UPDATE of its row. *)
Definition update_row (uid : Z) (f : User.t -> User.t) : M unit :=
  write (with_users (map (fun u => if User.id u =? uid then f u else u))).

(** [db.refresh(user)] *)
Definition refresh (uid : Z) : M User.t :=
  row <- execute (fun s => find (fun u => User.id u =? uid) (users s)) ;;
  match row with
  | Some u => ret u
  | None => raise (DBAPIError "Could not refresh instance")
  end.

(** PUT /users/me *)
Definition update_current_user_profile (update : UserUpdate.t) (current_user : User.t)
  : M UserResponse.t :=
  match UserUpdate.email update with
  | Some e =>
      if negb (e =? "")%string && negb (e =? User.email current_user)%string
      then
        q <- execute (fun s => find (fun u => (User.email u =? e)%string) (users s)) ;;
        match q with
        | Some _ => raise (HTTPException 400 "Email already taken")
        | None => update_row (User.id current_user) (User.set_email e)
        end
      else ret tt
  | None => ret tt
  end ;;
  match UserUpdate.name update with
  | Some n => update_row (User.id current_user) (User.set_name n)
  | None => ret tt
  end ;;
  commit ;;
  u <- refresh (User.id current_user) ;;
  ret (UserResponse.from_orm u).

(** PUT /users/{id}/role *)
Definition update_user_role (id : Z) (role_update : RoleUpdate.t) (current_user : User.t)
  : M UserResponse.t :=
  if negb (User.role current_user =? "admin")%string
  then raise (HTTPException 403 "Only admins can update roles")
  else if negb (mem_string (RoleUpdate.role role_update) ["manufacturer"; "admin"])
  then raise (HTTPException 400 "Invalid role")
  else
    q <- execute (fun s => find (fun u => User.id u =? id) (users s)) ;;
    match q with
    | None => raise (HTTPException 404 "User not found")
    | Some user =>
        update_row (User.id user) (User.set_role (RoleUpdate.role role_update)) ;;
        commit ;;
        u <- refresh (User.id user) ;;
        ret (UserResponse.from_orm u)
    end.

End Users.

(* ------------------------------------------------------------------------- *)
(** ** scripts/bulk_minter.py *)

Module BulkMinter.
Section Script.

Variable uuid4 : nat -> string.
Variable mint_tags_in_bulk : list string -> option Z -> result string.

Definition bulk_mint_and_store (count manufacturer_id : Z) (now : Z) : M unit :=
  let tag_codes := Tags.draws uuid4 0 count in
  batch_record <- Tags.add_batch (fun bid =>
                    Batch.mk bid None manufacturer_id count "pending" "warehouse"
                             None now) ;;
  try_except
    (tx_hash <- await (mint_tags_in_bulk tag_codes (Some (Batch.id batch_record))) ;;
     Tags.update_batch (Batch.id batch_record)
       (fun b => Batch.set_status "minted" (Batch.set_blockchain_tx_hash tx_hash b)) ;;
     Tags.add_all (map (fun ct : string * string => fun tid =>
                     Tag.mk tid (fst ct) ("TOKEN_" ++ snd ct)%string (Some tx_hash)
                            "unused" None (Batch.id batch_record) now)
                     (combine tag_codes
                              (Tags.draws uuid4 (List.length tag_codes) count))) ;;
     commit)
    (fun e =>
       rollback ;;
       Tags.update_batch (Batch.id batch_record) (Batch.set_status "failed") ;;
       raise e).

End Script.
End BulkMinter.


(* ------------------------------------------------------------------------- *)
(** ** Constraints the schema declares, as checks on a store *)

(** password_reset_tokens: [id] is the primary key, [token] is unique,
    [user_id] is a foreign key to users. *)
Definition reset_tokens_consistent (s : Store) : bool :=
  distinctZ (map PasswordResetToken.id (password_reset_tokens s))
  && distinct (map PasswordResetToken.token (password_reset_tokens s))
  && forallb (fun r =>
                existsb (fun u => User.id u =? PasswordResetToken.user_id r) (users s))
             (password_reset_tokens s).

(** A token value no row holds yet. *)
Definition token_is_fresh (token : string) (s : Store) : bool :=
  negb (mem_string token (map PasswordResetToken.token (password_reset_tokens s))).

(** A row with this token exists and is not expired at [now]: the handler
    rejects a row when [expires_at < now]. *)
Definition token_usable (token : string) (now : Z) (s : Store) : Prop :=
  exists r, In r (password_reset_tokens s)
            /\ PasswordResetToken.token r = token
            /\ now <= PasswordResetToken.expires_at r.

(** products: [id] is the primary key. *)
Definition products_consistent (s : Store) : bool :=
  distinctZ (map Product.id (products s)).

(** tags: [tag_code] is unique. *)
Definition tags_consistent (s : Store) : bool :=
  distinct (map Tag.tag_code (tags s)).

(** tags.batch_id is a foreign key to batches. *)
Definition tag_batches_exist (s : Store) : bool :=
  forallb (fun g => existsb (fun b => Batch.id b =? Tag.batch_id g) (batches s)) (tags s).

(* ------------------------------------------------------------------------- *)
(** ** A small database, for the examples *)

Module Sample.

Definition hash (p : string) : string := ("bcrypt$" ++ p)%string.

Definition alice : User.t :=
  User.mk 1 "alice@example.com" (hash "secret") "manufacturer" (Some "Alice") 10.
Definition root : User.t :=
  User.mk 2 "root@example.com" (hash "toor") "admin" None 11.

Definition lamp : Product.t :=
  Product.mk 1 "Lamp" None (Some 1) "home" None "/static/lamp.png" "active" 20.

Definition pool : Batch.t :=
  Batch.mk 1 None 2 3 "minted" "warehouse" (Some "0xabc") 30.

Definition tag1 : Tag.t :=
  Tag.mk 1 "code-1" "TOKEN_1" (Some "0xabc") "unused" None 1 30.
Definition tag2 : Tag.t :=
  Tag.mk 2 "code-2" "TOKEN_2" (Some "0xabc") "unused" None 1 30.
Definition tag3 : Tag.t :=
  Tag.mk 3 "code-3" "TOKEN_3" (Some "0xabc") "active" (Some 1) 1 30.

Definition reset : PasswordResetToken.t :=
  PasswordResetToken.mk 1 1 "reset-token" 5000.

Definition db : Store :=
  mkStore [alice; root] [lamp] [pool] [tag1; tag2; tag3] [] [reset].

(** The identifiers a request draws: "uuid-0", "uuid-1", ... *)
Definition uuid4 (i : nat) : string :=
  ("uuid-" ++ NilZero.string_of_uint (Nat.to_uint i))%string.

(** A chain that is down, and one that answers. *)
Definition mint_fails (_ : list string) : result string :=
  Raise (RuntimeError "Warehouse minting failed: connection refused").
Definition mint_ok (_ : list string) : result string := Return "0xdef".
Definition mint_direct_fails (_ : list string) (_ : option Z) : result string :=
  Raise (RuntimeError "Direct minting failed: connection refused").
Definition mint_direct_ok (_ : list string) (_ : option Z) : result string :=
  Return "0xfed".

Definition owner_of (token_id : string) : owner_of_outcome :=
  if (token_id =? "TOKEN_3")%string then Owner "0xAdmin" else OtherException.

End Sample.

(* ------------------------------------------------------------------------- *)
(** ** The scan ledger, as the verification handlers see it *)

(** Has a scan of this tag been recorded? *)
Definition scanned (s : Store) (g : Tag.t) : bool :=
  existsb (fun c => opt_eqb (Scan.tag_id c) (Tag.id g)) (scans s).

(** The results the public endpoint records for [n] calls in a row on an
    active tag: "valid" if no scan was recorded before the first call, then
    "duplicate". *)
Definition active_results (seen : bool) (n : nat) : list string :=
  match n with
  | O => []
  | S m => (if seen then "duplicate" else "valid") :: repeat "duplicate" m
  end.

(* ------------------------------------------------------------------------- *)
(** ** main.py : the service as a whole

    Every handler of the routers that writes to the database, the read
    handlers of products, and the minting script.  The handlers left out
    (login, GET /users/me, the dashboard) issue SELECT statements only. *)

(** What the handlers call outside the database. *)
Record Collaborators := mkCollaborators {
  hash_password : string -> string;
  uuid4 : nat -> string;
  mint_warehouse_batch : list string -> result string;
  mint_tags_in_bulk : list string -> option Z -> result string;
  contract : bool;
  owner_of : string -> owner_of_outcome;
  expected_owner : option string;
  parse_raw : string -> result string
}.

Inductive request :=
| Register (user_in : UserCreate.t) (now : Z)
| PasswordResetRequested (payload : PasswordResetRequest.t) (now : Z) (token : string)
| PasswordResetDone (payload : PasswordReset.t) (now : Z)
| ListProducts (status category : option string) (current_user : User.t)
| GetProduct (id : Z) (current_user : User.t)
| CreateProduct (name : string) (description : option string) (category : string)
                (meta_data : option string) (image : Products.UploadFile)
                (current_user : User.t) (now : Z)
| UpdateProduct (id : Z) (name description category meta_data : option string)
                (image : option Products.UploadFile) (current_user : User.t)
| DeleteProduct (id : Z) (current_user : User.t)
| UpdateProfile (update : UserUpdate.t) (current_user : User.t)
| UpdateRole (id : Z) (role_update : RoleUpdate.t) (current_user : User.t)
| BulkMint (count manufacturer_id : Z) (now : Z)
| MintWarehouse (body : TagGenerationRequest.t) (user : User.t) (now : Z)
| MintDirect (body : TagGenerationRequest.t) (user : User.t) (now : Z)
| AssignTags (product_id count : Z) (current_user : User.t)
| VerifyOnChain (tag_code : string) (location : option string) (now : Z)
| VerifyPublic (tag_code : string) (location : option string) (now : Z).

(** The database after a request, and the status code of the answer. *)
Definition answer {A} (ok : Z) (out : Store * result A) : Store * Z :=
  (fst out, status_code_of ok (snd out)).

Definition serve (env : Collaborators) (r : request) (s : Store) : Store * Z :=
  match r with
  | Register user_in now =>
      answer 201 (run_request (Auth.register_user (hash_password env) user_in now) s)
  | PasswordResetRequested payload now token =>
      answer 202 (run_request (Auth.request_password_reset payload now token) s)
  | PasswordResetDone payload now =>
      answer 200 (run_request (Auth.reset_password (hash_password env) payload now) s)
  | ListProducts status category current_user =>
      answer 200 (run_request (Products.list_products status category current_user) s)
  | GetProduct id current_user =>
      answer 200 (run_request (Products.get_product id current_user) s)
  | CreateProduct name description category meta_data image current_user now =>
      answer 201 (run_request
                    (Products.create_product (uuid4 env) (parse_raw env) name description
                       category meta_data image current_user now) s)
  | UpdateProduct id name description category meta_data image current_user =>
      answer 200 (run_request
                    (Products.update_product (uuid4 env) (parse_raw env) id name
                       description category meta_data image current_user) s)
  | DeleteProduct id current_user =>
      answer 204 (run_request (Products.delete_product id current_user) s)
  | UpdateProfile update current_user =>
      answer 200 (run_request (Users.update_current_user_profile update current_user) s)
  | UpdateRole id role_update current_user =>
      answer 200 (run_request (Users.update_user_role id role_update current_user) s)
  | BulkMint count manufacturer_id now =>
      answer 0 (run_request
                  (BulkMinter.bulk_mint_and_store (uuid4 env) (mint_tags_in_bulk env)
                     count manufacturer_id now) s)
  | MintWarehouse body user now =>
      answer 200 (run_request
                    (Tags.mint_warehouse_tags (uuid4 env) (mint_warehouse_batch env)
                       body user now) s)
  | MintDirect body user now =>
      answer 200 (run_request
                    (Tags.mint_direct_tags (uuid4 env) (mint_tags_in_bulk env)
                       body user now) s)
  | AssignTags product_id count current_user =>
      answer 200 (run_request (Tags.assign_tags_to_product product_id count current_user) s)
  | VerifyOnChain tag_code location now =>
      answer 200 (run_request
                    (Tags.verify_tag (contract env) (owner_of env) (expected_owner env)
                       tag_code location now) s)
  | VerifyPublic tag_code location now =>
      answer 200 (run_request (Verify.verify_tag tag_code location now) s)
  end.

(** A sequence of requests, served one after the other. *)
Definition serve_all (env : Collaborators) (rs : list request) (s : Store) : Store :=
  fold_left (fun s r => fst (serve env r s)) rs s.

(** A sequence of requests, each with the collaborators it meets: what it
    draws, and what the chain answers while it runs. *)
Definition serve_each (rs : list (Collaborators * request)) (s : Store) : Store :=
  fold_left (fun s er => fst (serve (fst er) (snd er) s)) rs s.

(** The collaborators of the examples: the chain accepts every mint and
    knows the owner of one token. *)
Definition sample_env : Collaborators :=
  mkCollaborators Sample.hash Sample.uuid4 Sample.mint_ok Sample.mint_direct_ok
                  true Sample.owner_of (Some "0xAdmin") (fun raw => Return raw).

(** The end-to-end scenario: starting with the administrator alone, a
    manufacturer registers and creates a product, the administrator mints
    five warehouse tags, the manufacturer takes three of them, and one of the
    three is scanned twice at the public endpoint. *)
Definition scenario_start : Store := mkStore [Sample.root] [] [] [] [] [].

Definition scenario_manufacturer : User.t :=
  User.mk 3 "carol@example.com" (Sample.hash "pw") "manufacturer" (Some "Carol") 10.

Definition scenario : list request :=
  [ Register (UserCreate.mk "carol@example.com" (Some "Carol") "manufacturer" "pw") 10;
    CreateProduct "Kettle" None "home" None
                  (Products.mkUploadFile "kettle.front.png" "image/png")
                  scenario_manufacturer 20;
    MintWarehouse (TagGenerationRequest.mk None 5 "warehouse") Sample.root 30;
    AssignTags 1 3 scenario_manufacturer;
    VerifyPublic "uuid-0" None 40;
    VerifyPublic "uuid-0" (Some "Lagos") 41 ].

(* ------------------------------------------------------------------------- *)
(** ** Vocabulary of the properties *)

(** The pool: the rows [select_unused] draws from. *)
Definition unused (s : Store) : list Tag.t :=
  filter (fun g => (Tag.status g =? "unused")%string) (tags s).

(** The UPDATE of [assign_tags_to_product], for the codes of the selected
    rows. *)
Definition assign (pid : Z) (selected : list Tag.t) (g : Tag.t) : Tag.t :=
  if mem_string (Tag.tag_code g) (map Tag.tag_code selected)
  then Tag.set_values pid "active" g else g.

(** The row a public verification of tag [g] appends. *)
Definition public_scan (s : Store) (g : Tag.t) (location : option string) (now : Z)
  : Scan.t :=
  Scan.mk (next_id (map Scan.id (scans s))) (Some (Tag.id g)) None location
          (Verify.determine
             (find (fun c => opt_eqb (Scan.tag_id c) (Tag.id g)) (scans s)) g)
          now.

(** [l'] is [l] with rows appended: no row of [l] was changed or removed. *)
Definition extends (l l' : list Scan.t) : Prop := exists rows, l' = l ++ rows.

(** A computation keeps the ledger when, from a session whose transaction
    has only appended scans, it leaves the committed scans extended and again
    a transaction that has only appended. *)
Definition keeps {A} (m : M A) : Prop :=
  forall ss,
    extends (scans (committed ss)) (scans (pending ss)) ->
    extends (scans (committed ss)) (scans (committed (fst (m ss))))
    /\ extends (scans (committed (fst (m ss)))) (scans (pending (fst (m ss)))).

(** The row a verification of tag [g] against the chain appends. *)
Definition chain_scan (env : Collaborators) (s : Store) (g : Tag.t)
    (location : option string) (now : Z) : Scan.t :=
  Scan.mk (next_id (map Scan.id (scans s))) (Some (Tag.id g)) None location
          (Tags.check_on_chain (contract env) (owner_of env) (expected_owner env) g
             (Tags.check_status g))
          now.

(** The tag rows a mint materializes: one per code drawn, numbered from
    [first], all of batch [bid]. *)
Definition minted_rows (uuid4 : nat -> string) (count : Z) (tx_hash status : string)
    (product_id : option Z) (bid now first : Z) : list Tag.t :=
  Tags.number_rows first
    (map (fun ct : string * string => fun tid =>
            Tag.mk tid (fst ct) ("TOKEN_" ++ snd ct)%string (Some tx_hash)
                   status product_id bid now)
         (combine (Tags.draws uuid4 0 count)
                  (Tags.draws uuid4 (List.length (Tags.draws uuid4 0 count)) count))).

(** The codes and token ids of the new rows collide neither with each other
    nor with a stored row. *)
Definition rows_insertable (s : Store) (rows : list Tag.t) : bool :=
  distinct (map Tag.tag_code (tags s ++ rows))
  && distinct (map Tag.token_id (tags s ++ rows)).

(** The tags of a batch. *)
Definition tags_of_batch (bid : Z) (s : Store) : list Tag.t :=
  filter (fun g => Tag.batch_id g =? bid) (tags s).

(** The constraints of the schema that the properties rely on, together. *)
Definition consistent (s : Store) : bool :=
  products_consistent s && tags_consistent s && reset_tokens_consistent s.

(** A computation preserves the constraints when it takes a session whose
    committed state and open transaction both satisfy them to such a
    session. *)
Definition consistent_session (ss : Session) : Prop :=
  consistent (committed ss) = true /\ consistent (pending ss) = true.

Definition preserves {A} (m : M A) : Prop :=
  forall ss, consistent_session ss -> consistent_session (fst (m ss)).

(* ------------------------------------------------------------------------- *)
(** ** oauth2.py : access tokens and the current user *)

Module OAuth2.

(** A value of a token payload as [TokenData(id=...)] sees it: one that
    validates to an integer, or one it refuses. *)
Inductive value :=
| Int (z : Z)
| Other.

(** A payload: a dict, as the list of its items. *)
Definition payload : Type := list (string * value).

(** [d.get(key)] *)
Fixpoint get (key : string) (d : payload) : option value :=
  match d with
  | [] => None
  | (k, v) :: r => if (k =? key)%string then Some v else get key r
  end.

(** [d.update({key: v})]: the item is replaced where it is, or added last. *)
Fixpoint update (key : string) (v : value) (d : payload) : payload :=
  match d with
  | [] => [(key, v)]
  | (k, w) :: r =>
      if (k =? key)%string then (k, v) :: r else (k, w) :: update key v r
  end.

Section Tokens.

(** [settings.ACCESS_TOKEN_EXPIRE_MINUTES], and [jwt.encode] and [jwt.decode]
    with the server secret.  [decode] reads the clock, since it refuses an
    expired token; [None] stands for its [JWTError]. *)
Variable ACCESS_TOKEN_EXPIRE_MINUTES : Z.
Variable encode : payload -> string.
Variable decode : string -> Z -> option payload.

Definition create_access_token (data : payload) (now : Z) : string :=
  let to_encode := data in
  let expire := now + 60 * ACCESS_TOKEN_EXPIRE_MINUTES in
  encode (update "exp" (Int expire) to_encode).

Definition credentials_exception : exn :=
  HTTPException 401 "Could not validate credentials".

(** The function under the [@cache] decorator: what a call computes when the
    cache holds no answer for it. *)
Definition get_current_user (token : string) (now : Z) : M User.t :=
  match decode token now with
  | None => raise credentials_exception
  | Some payload =>
      match get "user_id" payload with
      | None => raise credentials_exception
      | Some Other => raise credentials_exception
      | Some (Int user_id) =>
          user <- execute (fun s => find (fun u => User.id u =? user_id) (users s)) ;;
          match user with
          | None => raise credentials_exception
          | Some user => ret user
          end
      end
  end.

(** [get_current_admin] calls [get_current_user] through its cache: this is
    the call when the cache holds no answer for it. *)
Definition get_current_admin (token : string) (now : Z) : M User.t :=
  user <- get_current_user token now ;;
  if negb (User.role user =? "admin")%string
  then raise (HTTPException 403 "Admins only.")
  else ret user.

End Tokens.
End OAuth2.

(* ------------------------------------------------------------------------- *)
(** ** routers/auth.py : login *)

Module OAuth2PasswordRequestForm.
Record t := mk { username : string; password : string }.
End OAuth2PasswordRequestForm.

Module Token.
Record t := mk { access_token : string; token_type : string }.
End Token.

Module Login.
Section Handler.

(** [utils.verify_password], and the parameters of oauth2.py. *)
Variable verify_password : string -> string -> bool.
Variable ACCESS_TOKEN_EXPIRE_MINUTES : Z.
Variable encode : OAuth2.payload -> string.

(** POST /auth/login *)
Definition login_user (form_data : OAuth2PasswordRequestForm.t) (now : Z) : M Token.t :=
  user <- execute (fun s =>
            find (fun u => (User.email u =? OAuth2PasswordRequestForm.username form_data)%string)
                 (users s)) ;;
  match user with
  | None => raise (HTTPException 401 "Invalid credentials")
  | Some user =>
      if negb (verify_password (OAuth2PasswordRequestForm.password form_data)
                               (User.password user))
      then raise (HTTPException 401 "Invalid credentials")
      else
        let access_token :=
          OAuth2.create_access_token ACCESS_TOKEN_EXPIRE_MINUTES encode
            [("user_id", OAuth2.Int (User.id user))] now in
        ret (Token.mk access_token "bearer")
  end.

End Handler.
End Login.

(* ------------------------------------------------------------------------- *)
(** ** utils.py : codes *)

Module Utils.

(** [string.ascii_letters + string.digits] *)
Definition alphabet : string :=
  "abcdefghijklmnopqrstuvwxyzABCDEFGHIJKLMNOPQRSTUVWXYZ0123456789".

(** [secrets.choice(alphabet)], for the number [r] the generator draws. *)
Definition choice (r : nat) : ascii :=
  match String.get (r mod String.length alphabet) alphabet with
  | Some c => c
  | None => "a"%char
  end.

(** [''.join(secrets.choice(alphabet) for _ in range(length))]; [draw i] is
    the [i]-th number drawn. *)
Definition generate_unique_code (draw : nat -> nat) (length : Z) : string :=
  fold_right (fun i s => String (choice (draw i)) s) EmptyString
             (seq 0 (Z.to_nat length)).

End Utils.

(* ------------------------------------------------------------------------- *)
(** ** database.py : the driver in the database URL *)

Module Database.

(** [s[n:]] *)
Fixpoint drop (n : nat) (s : string) : string :=
  match n, s with
  | O, _ => s
  | S m, EmptyString => EmptyString
  | S m, String _ r => drop m r
  end.

(** [s.replace(old, new, 1)]: the leftmost occurrence of [old] is replaced. *)
Fixpoint replace_first (old new s : string) : string :=
  if String.prefix old s then (new ++ drop (String.length old) s)%string
  else match s with
       | EmptyString => EmptyString
       | String c r => String c (replace_first old new r)
       end.

(** The URL the engine is created with. *)
Definition db_url (url : string) : string :=
  if String.prefix "postgresql://" url
  then replace_first "postgresql://" "postgresql+asyncpg://" url
  else url.

End Database.

(* ------------------------------------------------------------------------- *)
(** ** services/blockchain_service.py *)

Module BlockchainService.

(** The calls a method makes on the chain, each giving a value or raising:
    building the transaction (which reads the nonce and the gas price),
    signing it, sending it, and waiting for the receipt.  A receipt is its
    status field. *)
Record Web3 := mkWeb3 {
  build_mintWarehouseBatch : list string -> result string;
  build_mintBatch : list string -> option Z -> result string;
  build_assignTagsToManufacturer : list Z -> Z -> result string;
  sign_transaction : string -> result string;
  send_raw_transaction : string -> result string;
  wait_for_transaction_receipt : string -> result Z;
  hex : string -> string
}.

(** The pure part of the session monad: a value or an exception. *)
Definition and_then {A B} (r : result A) (k : A -> result B) : result B :=
  match r with
  | Return a => k a
  | Raise e => Raise e
  end.

(** [try: r  except Exception as e: raise RuntimeError(f"{what}: {e}")] *)
Definition reraise {A} (what : string) (r : result A) : result A :=
  match r with
  | Return a => Return a
  | Raise e => Raise (RuntimeError (what ++ ": " ++ str e)%string)
  end.

(** The four steps every method shares once the transaction is built. *)
Definition transact (w3 : Web3) (tx : result string) : result string :=
  and_then tx (fun tx =>
  and_then (sign_transaction w3 tx) (fun signed_tx =>
  and_then (send_raw_transaction w3 signed_tx) (fun tx_hash =>
  and_then (wait_for_transaction_receipt w3 tx_hash) (fun receipt =>
  Return (hex w3 tx_hash))))).

Definition mint_warehouse_batch (w3 : Web3) (tag_codes : list string) : result string :=
  reraise "Warehouse minting failed"
          (transact w3 (build_mintWarehouseBatch w3 tag_codes)).

Definition mint_tags_in_bulk (w3 : Web3) (tag_codes : list string)
    (manufacturer_id : option Z) : result string :=
  reraise "Direct minting failed"
          (transact w3 (build_mintBatch w3 tag_codes manufacturer_id)).

Definition assign_tags_to_manufacturer (w3 : Web3) (tag_ids : list Z)
    (manufacturer_id : Z) : result string :=
  reraise "Reassignment failed"
          (transact w3 (build_assignTagsToManufacturer w3 tag_ids manufacturer_id)).

End BlockchainService.

(** [setattr] of a field that was given, for a field that was not: the row
    as it is. *)
Definition opt_set {A} (x : option A) (set : A -> Product.t -> Product.t)
    (p : Product.t) : Product.t :=
  match x with
  | Some v => set v p
  | None => p
  end.

(** The row [update_product] leaves, from the fields given; [image_url] is
    the URL of the new image, if one was uploaded, and [parsed] the metadata
    as parsed. *)
Definition updated_product (name description category parsed image_url : option string)
    (p : Product.t) : Product.t :=
  opt_set parsed Product.set_meta_data
    (opt_set category Product.set_category
       (opt_set description Product.set_description
          (opt_set name Product.set_name
             (opt_set image_url Product.set_image_url p)))).

(** The metadata field of an update and what [parse_raw] makes of it. *)
Definition parsed_as (parse_raw : string -> result string)
    (meta_data parsed : option string) : Prop :=
  match meta_data, parsed with
  | None, None => True
  | Some raw, Some m => parse_raw raw = Return m
  | _, _ => False
  end.

(** The upload of an update is absent or of an allowed type. *)
Definition image_accepted (image : option Products.UploadFile) : Prop :=
  match image with
  | None => True
  | Some image => Products.allowed_image image = true
  end.

(** A string without a dot. *)
Fixpoint no_dot (s : string) : bool :=
  match s with
  | EmptyString => true
  | String c r => negb (Ascii.eqb c "."%char) && no_dot r
  end.

(** Two nodes for the examples: one that refuses the connection when the
    transaction is sent, and one that mines every transaction and reports
    status 0 in the receipt. *)
Module SampleChain.

Definition unreachable : BlockchainService.Web3 :=
  BlockchainService.mkWeb3
    (fun _ => Return "tx") (fun _ _ => Return "tx") (fun _ _ => Return "tx")
    (fun tx => Return ("signed:" ++ tx)%string)
    (fun _ => Raise (RuntimeError "Connection refused"))
    (fun _ => Return 1)
    (fun h => ("0x" ++ h)%string).

Definition reverting : BlockchainService.Web3 :=
  BlockchainService.mkWeb3
    (fun _ => Return "tx") (fun _ _ => Return "tx") (fun _ _ => Return "tx")
    (fun tx => Return ("signed:" ++ tx)%string)
    (fun _ => Return "beef")
    (fun _ => Return 0)
    (fun h => ("0x" ++ h)%string).

End SampleChain.

(* ------------------------------------------------------------------------- *)
(** ** What a sequence of requests keeps *)

(** A table [l'] keeps the rows of [l]: it starts with one row for each row
    of [l], in the same order and related to it by [R], and every row after
    them satisfies [Q]. *)
Definition keeps_rows {A} (R : A -> A -> Prop) (Q : A -> Prop) (l l' : list A) : Prop :=
  exists kept new, l' = kept ++ new /\ Forall2 R l kept /\ Forall Q new.

(** A product row and a later state of it: whatever was edited, it is the
    same product of the same manufacturer, and it is not active again once
    it was deleted. *)
Definition same_product (p p' : Product.t) : Prop :=
  Product.id p' = Product.id p
  /\ Product.manufacturer_id p' = Product.manufacturer_id p
  /\ Product.created_at p' = Product.created_at p
  /\ (Product.status p = "inactive" -> Product.status p' = "inactive").

Definition products_kept (s s' : Store) : Prop :=
  keeps_rows same_product (fun _ => True) (products s) (products s').

(** An account and a later state of it, with the role it had; an account
    that was added since is a manufacturer. *)
Definition same_account (u u' : User.t) : Prop :=
  User.id u' = User.id u
  /\ User.role u' = User.role u
  /\ User.created_at u' = User.created_at u.

Definition accounts_kept (s s' : Store) : Prop :=
  keeps_rows same_account (fun u => User.role u = "manufacturer") (users s) (users s').

(** A request that is not a role update sent by an admin. *)
Definition changes_no_role (r : request) : Prop :=
  match r with
  | UpdateRole _ _ current_user => User.role current_user <> "admin"
  | _ => True
  end.

(** A tag row and a later state of it: the same tag of the same batch, and
    the very same row if it had left the pool. *)
Definition same_tag (g g' : Tag.t) : Prop :=
  Tag.id g' = Tag.id g
  /\ Tag.tag_code g' = Tag.tag_code g
  /\ Tag.token_id g' = Tag.token_id g
  /\ Tag.batch_id g' = Tag.batch_id g
  /\ ((Tag.status g =? "unused")%string = false -> g' = g).

Definition tags_kept (s s' : Store) : Prop :=
  keeps_rows same_tag (fun _ => True) (tags s) (tags s').

(** A computation maintains a property of the database when it takes a
    session whose committed state and open transaction both have it to such
    a session. *)
Definition maintains (P : Store -> Prop) {A} (m : M A) : Prop :=
  forall ss, P (committed ss) -> P (pending ss) ->
             P (committed (fst (m ss))) /\ P (pending (fst (m ss))).

(** users: [id] is the primary key and [email] is declared [unique=True]. *)
Definition accounts_unique (s : Store) : bool :=
  distinctZ (map User.id (users s)) && distinct (map User.email (users s)).
(* ========================================================================= *)
(** * Properties *)

(** ** Lists, keys and uniqueness *)

Lemma mem_string_In (x : string) (l : list string) :
  mem_string x l = true <-> In x l.
Proof.
  unfold mem_string. rewrite existsb_exists. split.
  - intros [y [Hy E]]. apply String.eqb_eq in E. now subst.
  - intros H. exists x. split; [assumption | apply String.eqb_refl].
Qed.

Lemma mem_string_false (x : string) (l : list string) :
  mem_string x l = false <-> ~ In x l.
Proof.
  rewrite <- mem_string_In. destruct (mem_string x l); split; congruence.
Qed.

Lemma distinct_NoDup (l : list string) : distinct l = true <-> NoDup l.
Proof.
  induction l as [|x r IH]; simpl.
  - split; [constructor | reflexivity].
  - rewrite andb_true_iff, negb_true_iff, mem_string_false, IH. split.
    + intros [H1 H2]. now constructor.
    + intros H. inversion H; subst. now split.
Qed.

Lemma distinctZ_NoDup (l : list Z) : distinctZ l = true <-> NoDup l.
Proof.
  induction l as [|x r IH]; simpl.
  - split; [constructor | reflexivity].
  - rewrite andb_true_iff, negb_true_iff, IH. split.
    + intros [H1 H2]. constructor; [|assumption].
      intros Hin. assert (existsb (Z.eqb x) r = true) as E.
      { apply existsb_exists. exists x. split; [assumption | apply Z.eqb_refl]. }
      congruence.
    + intros H. inversion H as [|? ? Hn Hd]; subst. split; [|assumption].
      destruct (existsb (Z.eqb x) r) eqn:E; [|reflexivity].
      apply existsb_exists in E. destruct E as [y [Hy E]].
      apply Z.eqb_eq in E. subst. contradiction.
Qed.

(** Two rows of a table with a unique column agree on it only if they are
    the same row. *)
Lemma unique_column {A B} (f : A -> B) (l : list A) (a b : A) :
  NoDup (map f l) -> In a l -> In b l -> f a = f b -> a = b.
Proof.
  induction l as [|x r IH]; simpl; [contradiction|].
  intros Hnd Ha Hb E. inversion Hnd as [|? ? Hn Hr]; subst.
  destruct Ha as [Ha|Ha], Hb as [Hb|Hb]; subst.
  - reflexivity.
  - exfalso. apply Hn. rewrite E. now apply in_map.
  - exfalso. apply Hn. rewrite <- E. now apply in_map.
  - now apply IH.
Qed.

Lemma find_In_pred {A} (f : A -> bool) (l : list A) :
  (exists a, In a l /\ f a = true) -> exists a, find f l = Some a.
Proof.
  intros [a [Ha Hf]]. destruct (find f l) eqn:E.
  - now exists a0.
  - pose proof (find_none _ _ E a Ha). congruence.
Qed.

(** The key the database assigns is above every key in the table. *)
Lemma next_id_above (ids : list Z) (x : Z) : In x ids -> x < next_id ids.
Proof.
  unfold next_id. induction ids as [|y r IH]; cbn [In fold_right]; [contradiction|].
  intros [->|H]; [lia|]. specialize (IH H). lia.
Qed.

Lemma update_last_row {A} (key : A -> Z) (f : A -> A) (l : list A) (x : A) (k : Z) :
  key x = k ->
  (forall y, In y l -> key y <> k) ->
  map (fun y => if key y =? k then f y else y) (l ++ [x]) = l ++ [f x].
Proof.
  intros Hx H. rewrite map_app. cbn [map]. rewrite Hx, Z.eqb_refl. f_equal.
  rewrite <- (map_id l) at 2. apply map_ext_in. intros y Hy.
  destruct (Z.eqb_spec (key y) k) as [E|_]; [now apply H in E | reflexivity].
Qed.

(** ** routers/auth.py *)

Module AuthSpec.
Section Facts.

Variable hash_password : string -> string.

(** What registration does when the email is free. *)
Lemma register_user_fresh (user_in : UserCreate.t) (now : Z) (s : Store) :
  find (fun u => (User.email u =? UserCreate.email user_in)%string) (users s) = None ->
  let u := User.mk (next_id (map User.id (users s))) (UserCreate.email user_in)
                   (hash_password (UserCreate.password user_in)) "manufacturer"
                   (UserCreate.name user_in) now in
  run_request (Auth.register_user hash_password user_in now) s
  = (with_users (fun l => l ++ [u]) s, Return (UserResponse.from_orm u)).
Proof.
  intros H. unfold Auth.register_user, Auth.add_user. unfold_session.
  rewrite H. reflexivity.
Qed.

Lemma register_user_taken (user_in : UserCreate.t) (now : Z) (s : Store) (u : User.t) :
  find (fun u => (User.email u =? UserCreate.email user_in)%string) (users s) = Some u ->
  run_request (Auth.register_user hash_password user_in now) s
  = (s, Raise (HTTPException 400 "Email already registered")).
Proof.
  intros H. unfold Auth.register_user. unfold_session. rewrite H. reflexivity.
Qed.

(** C5. A registration that succeeds creates a user whose role is
    "manufacturer", whatever role the request body carried: the same request
    with any other role value gives the same store and the same response. *)
Theorem register_user_role_fixed
    (user_in : UserCreate.t) (now : Z) (s s' : Store) (resp : UserResponse.t) :
  run_request (Auth.register_user hash_password user_in now) s = (s', Return resp) ->
  (exists u, users s' = users s ++ [u]
             /\ User.role u = "manufacturer"
             /\ User.email u = UserCreate.email user_in
             /\ resp = UserResponse.from_orm u)
  /\ UserResponse.role resp = "manufacturer"
  /\ forall supplied : string,
       run_request (Auth.register_user hash_password (UserCreate.set_role supplied user_in) now) s
       = (s', Return resp).
Proof.
  intros H.
  destruct (find (fun u => (User.email u =? UserCreate.email user_in)%string) (users s))
    as [u0|] eqn:E.
  - rewrite (register_user_taken _ _ _ _ E) in H. discriminate.
  - pose proof (register_user_fresh user_in now s E) as F. cbv zeta in F.
    rewrite F in H. injection H as <- <-. repeat split.
    + eexists. repeat split; reflexivity.
    + intros supplied.
      apply (register_user_fresh (UserCreate.set_role supplied user_in)). exact E.
Qed.

(** C6. Registering with an email that a user already has fails with 400
    "Email already registered", and the store is the one before the call. *)
Theorem register_existing_email_conflict
    (user_in : UserCreate.t) (now : Z) (s : Store) :
  (exists u, In u (users s) /\ User.email u = UserCreate.email user_in) ->
  run_request (Auth.register_user hash_password user_in now) s
  = (s, Raise (HTTPException 400 "Email already registered")).
Proof.
  intros [u [Hin He]].
  destruct (find_In_pred (fun u => (User.email u =? UserCreate.email user_in)%string)
              (users s)) as [u0 E].
  { exists u. split; [assumption|]. apply String.eqb_eq. assumption. }
  exact (register_user_taken _ _ _ _ E).
Qed.


Lemma request_password_reset_known
    (payload : PasswordResetRequest.t) (now : Z) (token : string) (s : Store) (u : User.t) :
  find (fun u => (User.email u =? PasswordResetRequest.email payload)%string) (users s) = Some u ->
  token_is_fresh token s = true ->
  run_request (Auth.request_password_reset payload now token) s
  = (with_password_reset_tokens (fun l => l ++
       [PasswordResetToken.mk (next_id (map PasswordResetToken.id (password_reset_tokens s)))
                              (User.id u) token (now + 3600)]) s,
     Return Auth.generic_reset_response).
Proof.
  intros H F. unfold token_is_fresh in F. apply negb_true_iff in F.
  unfold Auth.request_password_reset, Auth.add_password_reset_token. unfold_session.
  rewrite H. cbn [committed pending PasswordResetToken.token]. rewrite F. reflexivity.
Qed.


(** The three ways a reset ends. *)
Lemma reset_password_no_token (payload : PasswordReset.t) (now : Z) (s : Store) :
  find (fun r => (PasswordResetToken.token r =? PasswordReset.token payload)%string)
       (password_reset_tokens s) = None ->
  run_request (Auth.reset_password hash_password payload now) s
  = (s, Raise (HTTPException 400 "Invalid or expired token")).
Proof.
  intros H. unfold Auth.reset_password. unfold_session. rewrite H. reflexivity.
Qed.

Lemma reset_password_expired (payload : PasswordReset.t) (now : Z) (s : Store)
    (r : PasswordResetToken.t) :
  find (fun r => (PasswordResetToken.token r =? PasswordReset.token payload)%string)
       (password_reset_tokens s) = Some r ->
  PasswordResetToken.expires_at r < now ->
  run_request (Auth.reset_password hash_password payload now) s
  = (s, Raise (HTTPException 400 "Invalid or expired token")).
Proof.
  intros H X. apply Z.ltb_lt in X.
  unfold Auth.reset_password. unfold_session. rewrite H, X. reflexivity.
Qed.

Lemma reset_password_accepted (payload : PasswordReset.t) (now : Z) (s : Store)
    (r : PasswordResetToken.t) (u : User.t) :
  find (fun r => (PasswordResetToken.token r =? PasswordReset.token payload)%string)
       (password_reset_tokens s) = Some r ->
  now <= PasswordResetToken.expires_at r ->
  find (fun u => User.id u =? PasswordResetToken.user_id r) (users s) = Some u ->
  run_request (Auth.reset_password hash_password payload now) s
  = (mkStore
       (map (fun v => if User.id v =? User.id u
                      then User.set_password
                             (hash_password (PasswordReset.new_password payload)) v
                      else v) (users s))
       (products s) (batches s) (tags s) (scans s)
       (filter (fun r' => negb (PasswordResetToken.id r' =? PasswordResetToken.id r))
               (password_reset_tokens s)),
     Return (mkDetail "Password reset successfully")).
Proof.
  intros H X U. apply Z.ltb_ge in X.
  unfold Auth.reset_password. unfold_session. rewrite H, X.
  cbn [committed pending]. rewrite U. reflexivity.
Qed.

(** Under the unique index, the row [find] returns is the only one with the
    token. *)
Lemma token_row_unique (s : Store) (r r' : PasswordResetToken.t) :
  reset_tokens_consistent s = true ->
  In r (password_reset_tokens s) -> In r' (password_reset_tokens s) ->
  PasswordResetToken.token r = PasswordResetToken.token r' -> r = r'.
Proof.
  unfold reset_tokens_consistent. rewrite !andb_true_iff.
  intros [[_ D] _]. apply distinct_NoDup in D. now apply unique_column.
Qed.

Lemma token_row_key (s : Store) (r r' : PasswordResetToken.t) :
  reset_tokens_consistent s = true ->
  In r (password_reset_tokens s) -> In r' (password_reset_tokens s) ->
  PasswordResetToken.id r = PasswordResetToken.id r' -> r = r'.
Proof.
  unfold reset_tokens_consistent. rewrite !andb_true_iff.
  intros [[D _] _]. apply distinctZ_NoDup in D. now apply unique_column.
Qed.

Lemma token_row_user (s : Store) (r : PasswordResetToken.t) :
  reset_tokens_consistent s = true ->
  In r (password_reset_tokens s) ->
  exists u, find (fun u => User.id u =? PasswordResetToken.user_id r) (users s) = Some u.
Proof.
  unfold reset_tokens_consistent. rewrite !andb_true_iff.
  intros [_ F] Hin. rewrite forallb_forall in F. specialize (F r Hin).
  apply existsb_exists in F. now apply find_In_pred.
Qed.

(** C8. On a store that satisfies the declared constraints of the token
    table, a password reset succeeds exactly when a row with the token exists
    and is not expired at the time of the call.  On success the account the
    token belongs to exists and is then stored with the hash of the new
    password, and with its id, email, role, name and creation time as they
    were; every other account is there as it was, and no further one; the
    token row, and only that row, is gone; the other tables are as they
    were; and a later call with the same token fails.  In every other case
    the call fails with 400 and the store is unchanged. *)
Theorem reset_password_single_use (payload : PasswordReset.t) (now : Z) (s : Store) :
  reset_tokens_consistent s = true ->
  let out := run_request (Auth.reset_password hash_password payload now) s in
  let hashed := hash_password (PasswordReset.new_password payload) in
  ((exists d, snd out = Return d) <-> token_usable (PasswordReset.token payload) now s)
  /\ (forall d, snd out = Return d ->
        exists r,
          In r (password_reset_tokens s)
          /\ PasswordResetToken.token r = PasswordReset.token payload
          /\ (exists u, In u (users s) /\ User.id u = PasswordResetToken.user_id r)
          /\ (forall u, In u (users s) -> User.id u = PasswordResetToken.user_id r ->
                exists u', In u' (users (fst out))
                           /\ User.password u' = hashed
                           /\ User.id u' = User.id u
                           /\ User.email u' = User.email u
                           /\ User.role u' = User.role u
                           /\ User.name u' = User.name u
                           /\ User.created_at u' = User.created_at u)
          /\ (forall u, In u (users s) -> User.id u <> PasswordResetToken.user_id r ->
                In u (users (fst out)))
          /\ (forall u', In u' (users (fst out)) ->
                (In u' (users s) /\ User.id u' <> PasswordResetToken.user_id r)
                \/ (User.id u' = PasswordResetToken.user_id r
                    /\ User.password u' = hashed))
          /\ List.length (users (fst out)) = List.length (users s)
          /\ (forall r', In r' (password_reset_tokens (fst out))
                         <-> In r' (password_reset_tokens s) /\ r' <> r)
          /\ products (fst out) = products s /\ batches (fst out) = batches s
          /\ tags (fst out) = tags s /\ scans (fst out) = scans s
          /\ forall later : Z,
               run_request (Auth.reset_password hash_password payload later) (fst out)
               = (fst out, Raise (HTTPException 400 "Invalid or expired token")))
  /\ ((forall d, snd out <> Return d) ->
        fst out = s /\ exists msg, snd out = Raise (HTTPException 400 msg)).
Proof.
  intros WF out hashed. unfold token_usable.
  destruct (find (fun r => (PasswordResetToken.token r =? PasswordReset.token payload)%string)
              (password_reset_tokens s)) as [r|] eqn:E.
  - pose proof (find_some _ _ E) as [Hin Htok]. apply String.eqb_eq in Htok.
    destruct (Z_lt_le_dec (PasswordResetToken.expires_at r) now) as [X|X].
    + (* expired *)
      unfold out. rewrite (reset_password_expired _ _ _ _ E X). cbn [fst snd].
      split; [split|split].
      * intros [d Hd]. discriminate.
      * intros [r' [Hin' [Htok' Hle]]].
        assert (r = r') by (apply (token_row_unique s); congruence). subst. lia.
      * intros d Hd. discriminate.
      * intros _. split; [reflexivity|]. now eexists.
    + (* accepted *)
      destruct (token_row_user s r WF Hin) as [u U].
      pose proof (find_some _ _ U) as [Huin Hu]. apply Z.eqb_eq in Hu.
      unfold out. rewrite (reset_password_accepted _ _ _ _ _ E X U). cbn [fst snd].
      split; [split|split].
      * intros _. exists r. now repeat split.
      * intros _. now eexists.
      * intros d _. exists r. split; [assumption|]. split; [assumption|].
        cbn [users products batches tags scans password_reset_tokens].
        fold hashed. rewrite Hu.
        split; [now exists u|]. split.
        { intros v Hv Hid. exists (User.set_password hashed v). split.
          - apply in_map_iff. exists v. split; [|assumption].
            now rewrite Hid, Z.eqb_refl.
          - now repeat split. }
        split.
        { intros v Hv Hid. apply in_map_iff. exists v. split; [|assumption].
          apply Z.eqb_neq in Hid. now rewrite Hid. }
        split.
        { intros v' Hv'. apply in_map_iff in Hv'. destruct Hv' as [v [<- Hv]].
          destruct (Z.eqb_spec (User.id v) (PasswordResetToken.user_id r)) as [Hid|Hid].
          - right. now split.
          - left. now split. }
        split; [apply length_map|].
        assert (forall r',
                  In r' (filter (fun r' => negb (PasswordResetToken.id r'
                                                 =? PasswordResetToken.id r))
                                (password_reset_tokens s))
                  <-> In r' (password_reset_tokens s) /\ r' <> r) as K.
        { intros r'. rewrite filter_In, negb_true_iff, Z.eqb_neq. split.
          - intros [H1 H2]. split; [assumption|]. intros ->. now apply H2.
          - intros [H1 H2]. split; [assumption|]. intros Hid. apply H2.
            now apply (token_row_key s). }
        split; [exact K|]. repeat (split; [reflexivity|]).
        intros later. apply reset_password_no_token.
        cbn [password_reset_tokens].
        match goal with |- ?f = None => destruct f as [r'|] eqn:E' end; [|reflexivity].
        pose proof (find_some _ _ E') as [Hin' Htok']. apply String.eqb_eq in Htok'.
        apply K in Hin'. destruct Hin' as [Hin' Hne]. exfalso. apply Hne.
        apply (token_row_unique s); congruence.
      * intros Hno. exfalso. now apply (Hno (mkDetail "Password reset successfully")).
  - unfold out. rewrite (reset_password_no_token _ _ _ E). cbn [fst snd].
    split; [split|split].
    + intros [d Hd]. discriminate.
    + intros [r [Hin [Htok _]]]. pose proof (find_none _ _ E r Hin) as N.
      cbn beta in N. rewrite Htok, String.eqb_refl in N. discriminate.
    + intros d Hd. discriminate.
    + intros _. split; [reflexivity|]. now eexists.
Qed.

End Facts.

(** On the sample database a new email registers, and another role sent in
    the body changes neither the store nor the response. *)
Lemma register_user_role_fixed_witness :
  run_request
    (Auth.register_user Sample.hash
       (UserCreate.mk "bob@example.com" None "superuser" "pw") 40) Sample.db
  = (with_users (fun l => l ++ [User.mk 3 "bob@example.com" (Sample.hash "pw")
                                        "manufacturer" None 40]) Sample.db,
     Return (UserResponse.mk "bob@example.com" None "manufacturer" 3 40)).
Proof.
  exact (proj2 (proj2
    (register_user_role_fixed Sample.hash
       (UserCreate.mk "bob@example.com" None "admin" "pw") 40 Sample.db
       (with_users (fun l => l ++ [User.mk 3 "bob@example.com" (Sample.hash "pw")
                                           "manufacturer" None 40]) Sample.db)
       (UserResponse.mk "bob@example.com" None "manufacturer" 3 40)
       eq_refl)) "superuser").
Defined.

Lemma register_existing_email_conflict_witness :
  run_request
    (Auth.register_user Sample.hash
       (UserCreate.mk "alice@example.com" None "manufacturer" "pw") 40) Sample.db
  = (Sample.db, Raise (HTTPException 400 "Email already registered")).
Proof.
  apply (register_existing_email_conflict Sample.hash
           (UserCreate.mk "alice@example.com" None "manufacturer" "pw") 40 Sample.db).
  exists Sample.alice. split; [simpl; left; reflexivity | reflexivity].
Defined.


(** On the sample database, whose one token belongs to the first account:
    a reset with that token before it expires leaves the account stored with
    the hash of the new password, and no token. *)
Lemma reset_password_single_use_witness :
  (exists u',
     In u' (users (fst (run_request
                          (Auth.reset_password Sample.hash
                             (PasswordReset.mk "reset-token" "new-secret") 100)
                          Sample.db)))
     /\ User.password u' = "bcrypt$new-secret"
     /\ User.id u' = 1 /\ User.email u' = "alice@example.com"
     /\ User.role u' = "manufacturer" /\ User.name u' = Some "Alice"
     /\ User.created_at u' = 10)
  /\ ~ In Sample.reset
         (password_reset_tokens
            (fst (run_request
                    (Auth.reset_password Sample.hash
                       (PasswordReset.mk "reset-token" "new-secret") 100)
                    Sample.db))).
Proof.
  destruct (proj1 (proj2 (reset_password_single_use Sample.hash
                            (PasswordReset.mk "reset-token" "new-secret") 100 Sample.db
                            eq_refl))
                  (mkDetail "Password reset successfully") eq_refl)
    as [r [Hr [_ [_ [Hset [_ [_ [_ [Hgone _]]]]]]]]].
  destruct Hr as [<-|[]]. split.
  - exact (Hset Sample.alice (or_introl eq_refl) eq_refl).
  - intros Hin. apply Hgone in Hin. destruct Hin as [_ Hne]. now apply Hne.
Defined.

End AuthSpec.

(** ** routers/products.py *)

(** With a unique key, an UPDATE by key rewrites one row and leaves the rows
    before and after it as they were. *)
Lemma update_by_key {A} (key : A -> Z) (f : A -> A) (l : list A) (p : A) :
  NoDup (map key l) -> In p l ->
  exists before after,
    l = before ++ p :: after
    /\ map (fun q => if key q =? key p then f q else q) l = before ++ f p :: after
    /\ (forall q, In q before -> key q <> key p)
    /\ (forall q, In q after -> key q <> key p).
Proof.
  intros Hnd Hin. destruct (in_split _ _ Hin) as [before [after ->]].
  rewrite map_app in Hnd. cbn [map] in Hnd.
  pose proof (NoDup_remove_2 _ _ _ Hnd) as Hout.
  assert (forall q, In q before -> key q <> key p) as Hb.
  { intros q Hq E. apply Hout. apply in_or_app. left. rewrite <- E. now apply in_map. }
  assert (forall q, In q after -> key q <> key p) as Ha.
  { intros q Hq E. apply Hout. apply in_or_app. right. rewrite <- E. now apply in_map. }
  exists before, after. split; [reflexivity|]. split; [|now split].
  rewrite map_app. cbn [map]. rewrite Z.eqb_refl. f_equal; [|f_equal].
  - rewrite <- (map_id before) at 2. apply map_ext_in. intros q Hq.
    destruct (Z.eqb_spec (key q) (key p)) as [E|_]; [now apply Hb in E | reflexivity].
  - rewrite <- (map_id after) at 2. apply map_ext_in. intros q Hq.
    destruct (Z.eqb_spec (key q) (key p)) as [E|_]; [now apply Ha in E | reflexivity].
Qed.

Lemma find_skip {A} (f : A -> bool) (before : list A) (p : A) (after : list A) :
  (forall q, In q before -> f q = false) -> f p = true ->
  find f (before ++ p :: after) = Some p.
Proof.
  intros Hb Hp. induction before as [|x r IH]; cbn [app find].
  - now rewrite Hp.
  - rewrite (Hb x (or_introl eq_refl)). apply IH. intros q Hq. apply Hb. now right.
Qed.

Module ProductsSpec.

Lemma delete_product_found (id : Z) (current_user : User.t) (s : Store) (p : Product.t) :
  Products.is_manufacturer current_user = true ->
  find (Products.owned_by id current_user) (products s) = Some p ->
  run_request (Products.delete_product id current_user) s
  = (with_products (map (fun q => if Product.id q =? Product.id p
                                  then Product.set_status "inactive" q else q)) s,
     Return tt).
Proof.
  intros R F. unfold Products.delete_product. rewrite R. cbn [negb].
  unfold_session. rewrite F. reflexivity.
Qed.

Lemma get_product_found (id : Z) (current_user : User.t) (s : Store) (p : Product.t) :
  Products.is_manufacturer current_user = true ->
  find (Products.owned_by id current_user) (products s) = Some p ->
  run_request (Products.get_product id current_user) s
  = (s, Return (ProductResponse.from_orm p)).
Proof.
  intros R F. unfold Products.get_product. rewrite R. cbn [negb].
  unfold_session. rewrite F. reflexivity.
Qed.

Lemma list_products_rows (status category : option string) (current_user : User.t)
    (s : Store) :
  Products.is_manufacturer current_user = true ->
  run_request (Products.list_products status category current_user) s
  = (s, Return (map ProductResponse.from_orm
                  (filter (fun p =>
                     opt_eqb (Product.manufacturer_id p) (User.id current_user)
                     && Products.optional_filter status (Product.status p)
                     && Products.optional_filter category (Product.category p))
                     (products s)))).
Proof.
  intros R. unfold Products.list_products. rewrite R. reflexivity.
Qed.

(** C7, as the code has it.  Deleting a product the caller owns answers
    normally, sets the status of that row to "inactive" and changes no other
    row and no other table.  The owner still gets the row from
    GET /products/{id}.  A list filtered to status "active" leaves it out; the
    list without filters has no status predicate and returns it. *)
Theorem delete_product_is_soft
    (id : Z) (current_user : User.t) (s : Store) (p : Product.t) :
  products_consistent s = true ->
  Products.is_manufacturer current_user = true ->
  In p (products s) ->
  Product.id p = id ->
  Product.manufacturer_id p = Some (User.id current_user) ->
  let out := run_request (Products.delete_product id current_user) s in
  let gone := Product.set_status "inactive" p in
  snd out = Return tt
  /\ (exists before after,
        products s = before ++ p :: after
        /\ fst out = with_products (fun _ => before ++ gone :: after) s)
  /\ run_request (Products.get_product id current_user) (fst out)
     = (fst out, Return (ProductResponse.from_orm gone))
  /\ (forall category, exists rows,
        snd (run_request (Products.list_products (Some "active") category current_user)
               (fst out)) = Return rows
        /\ forall r, In r rows -> ProductResponse.id r <> id)
  /\ (exists rows,
        snd (run_request (Products.list_products None None current_user) (fst out))
        = Return rows
        /\ In (ProductResponse.from_orm gone) rows).
Proof.
  intros WF R Hin Hid Hown out gone.
  unfold products_consistent in WF. apply distinctZ_NoDup in WF.
  destruct (update_by_key Product.id (Product.set_status "inactive") _ _ WF Hin)
    as [before [after [Hsplit [Hmap [Hb Ha]]]]].
  assert (Products.owned_by id current_user p = true) as Hp.
  { unfold Products.owned_by. rewrite Hid, Z.eqb_refl, Hown. cbn. apply Z.eqb_refl. }
  assert (forall q, In q before -> Products.owned_by id current_user q = false) as Hb'.
  { intros q Hq. unfold Products.owned_by.
    destruct (Z.eqb_spec (Product.id q) id) as [E|_]; [|reflexivity].
    exfalso. apply (Hb q Hq). congruence. }
  assert (find (Products.owned_by id current_user) (products s) = Some p) as F.
  { rewrite Hsplit. now apply find_skip. }
  assert (fst out = with_products (fun _ => before ++ gone :: after) s) as Hout.
  { unfold out. rewrite (delete_product_found _ _ _ _ R F). cbn [fst].
    unfold with_products. now rewrite Hmap. }
  split; [unfold out; now rewrite (delete_product_found _ _ _ _ R F)|].
  split; [now exists before, after|].
  rewrite Hout.
  assert (Products.owned_by id current_user gone = true) as Hg by exact Hp.
  split; [|split].
  - apply get_product_found; [assumption|]. cbn [with_products products].
    now apply find_skip.
  - intros category. eexists. rewrite list_products_rows by assumption.
    split; [reflexivity|]. cbn [with_products products].
    intros r Hr E. apply in_map_iff in Hr. destruct Hr as [q [<- Hq]].
    apply filter_In in Hq. destruct Hq as [Hq Hf].
    cbn [ProductResponse.from_orm ProductResponse.id] in E.
    apply in_app_or in Hq. destruct Hq as [Hq|[<-|Hq]].
    + apply (Hb q Hq). congruence.
    + rewrite !andb_true_iff in Hf. destruct Hf as [[_ Hst] _]. discriminate.
    + apply (Ha q Hq). congruence.
  - eexists. rewrite list_products_rows by assumption. split; [reflexivity|].
    apply in_map. apply filter_In. cbn [with_products products]. split.
    + apply in_or_app. right. now left.
    + cbn [Products.optional_filter]. rewrite !andb_true_r.
      unfold gone. cbn [Product.set_status Product.manufacturer_id].
      rewrite Hown. cbn. apply Z.eqb_refl.
Qed.

Lemma delete_product_is_soft_witness :
  run_request (Products.get_product 1 Sample.alice)
    (fst (run_request (Products.delete_product 1 Sample.alice) Sample.db))
  = (fst (run_request (Products.delete_product 1 Sample.alice) Sample.db),
     Return (ProductResponse.from_orm (Product.set_status "inactive" Sample.lamp))).
Proof.
  exact (proj1 (proj2 (proj2
    (delete_product_is_soft 1 Sample.alice Sample.db Sample.lamp
       eq_refl eq_refl (or_introl eq_refl) eq_refl eq_refl)))).
Defined.

(** C7 as the spec words it fails on the sample database: after the delete,
    the list without a status filter is not free of inactive products, it
    returns the deleted one. *)
Lemma default_list_keeps_deleted_product :
  let s' := fst (run_request (Products.delete_product 1 Sample.alice) Sample.db) in
  ~ (forall rows,
       snd (run_request (Products.list_products None None Sample.alice) s') = Return rows ->
       forall r, In r rows -> ProductResponse.status r <> "inactive").
Proof.
  intros s' H.
  apply (H [ProductResponse.mk "Lamp" None "home" None "inactive" 1 (Some 1)
                               "/static/lamp.png" 20]
           eq_refl
           (ProductResponse.mk "Lamp" None "home" None "inactive" 1 (Some 1)
                               "/static/lamp.png" 20)).
  - now left.
  - reflexivity.
Qed.

End ProductsSpec.

(** ** routers/tags.py : assignment from the pool *)

Lemma firstn_incl {A} (n : nat) (l : list A) (x : A) :
  In x (firstn n l) -> In x l.
Proof.
  intros H. rewrite <- (firstn_skipn n l). apply in_or_app. now left.
Qed.

(** A unique column stays unique in any selection of the rows. *)
Lemma unique_column_filter {Row Key} (key : Row -> Key) (keep : Row -> bool) :
  forall rows : list Row,
    NoDup (map key rows) -> NoDup (map key (filter keep rows)).
Proof.
  intros rows. induction rows as [|x r IH]; cbn [map filter]; intros H; [constructor|].
  inversion H as [|? ? Hn Hr]; subst. destruct (keep x); cbn [map].
  - constructor; [|now apply IH]. intros Hin. apply Hn.
    apply in_map_iff in Hin. destruct Hin as [y [E Hy]].
    apply filter_In in Hy. rewrite <- E. apply in_map. tauto.
  - now apply IH.
Qed.

(** [limit(n)] returns fewer than [n] rows exactly when fewer than [n] rows
    match. *)
Lemma limit_short {A} (count : Z) (l : list A) :
  0 <= count ->
  (Z.of_nat (List.length (firstn (Z.to_nat count) l)) <? count) = true
  <-> Z.of_nat (List.length l) < count.
Proof.
  intros Hc. rewrite Z.ltb_lt, length_firstn. lia.
Qed.

(** Selecting by the codes of the first [n] rows of a table with unique codes
    selects these rows and no other. *)
Lemma select_by_codes_of_prefix {A} (code : A -> string) (l : list A) :
  NoDup (map code l) ->
  forall n, filter (fun x => mem_string (code x) (map code (firstn n l))) l = firstn n l.
Proof.
  induction l as [|x r IH]; intros Hnd n.
  - now destruct n.
  - inversion Hnd as [|? ? Hn Hr]; subst. destruct n as [|n].
    + cbn [firstn map]. apply filter_false.
    + cbn [firstn map filter].
      assert (mem_string (code x) (code x :: map code (firstn n r)) = true) as Hx
        by (apply mem_string_In; now left).
      rewrite Hx. f_equal.
      etransitivity; [|exact (IH Hr n)]. apply filter_ext_in. intros y Hy.
      unfold mem_string. cbn [existsb].
      destruct (String.eqb_spec (code y) (code x)) as [E|_]; [|reflexivity].
      exfalso. apply Hn. rewrite <- E. now apply in_map.
Qed.

Module TagsSpec.

Section Assignment.

Variables (product_id count : Z) (current_user : User.t) (s : Store) (product : Product.t).
Hypothesis caller_is_manufacturer : User.role current_user = "manufacturer".
Hypothesis caller_owns_product :
  find (Products.owned_by product_id current_user) (products s) = Some product.

Lemma assign_tags_short :
  Z.of_nat (List.length (unused s)) < count ->
  fst (run_request (Tags.assign_tags_to_product product_id count current_user) s) = s
  /\ exists msg,
       snd (run_request (Tags.assign_tags_to_product product_id count current_user) s)
       = Raise (HTTPException 400 msg).
Proof.
  intros Hlt. assert (0 <= count) as Hc by lia.
  apply (limit_short count (unused s) Hc) in Hlt.
  unfold Tags.assign_tags_to_product, Tags.select_unused.
  rewrite caller_is_manufacturer, String.eqb_refl.
  cbn [negb]. unfold_session. rewrite caller_owns_product.
  destruct (Z.ltb_spec count 0) as [?|_]; [lia|]. cbn [committed pending].
  fold (unused s). rewrite Hlt. cbn [fst snd]. split; [reflexivity|]. now eexists.
Qed.

Lemma assign_tags_enough :
  0 <= count <= Z.of_nat (List.length (unused s)) ->
  run_request (Tags.assign_tags_to_product product_id count current_user) s
  = (with_tags (map (assign (Product.id product) (firstn (Z.to_nat count) (unused s)))) s,
     Return (BatchAssignmentResponse.mk
               ("Successfully assigned "
                ++ str_of_int (Z.of_nat (List.length (firstn (Z.to_nat count) (unused s))))
                ++ " tags to product '" ++ Product.name product
                ++ "' (ID: " ++ str_of_int product_id ++ ").")%string
               (map Tag.tag_code (firstn (Z.to_nat count) (unused s))))).
Proof.
  intros [Hc Hle].
  assert ((Z.of_nat (List.length (firstn (Z.to_nat count) (unused s))) <? count) = false) as Hge.
  { destruct (Z.ltb_spec (Z.of_nat (List.length (firstn (Z.to_nat count) (unused s)))) count)
      as [Hlt|_]; [|reflexivity].
    apply Z.ltb_lt, (limit_short count (unused s) Hc) in Hlt. lia. }
  unfold Tags.assign_tags_to_product, Tags.select_unused.
  rewrite caller_is_manufacturer, String.eqb_refl.
  cbn [negb]. unfold_session. rewrite caller_owns_product.
  destruct (Z.ltb_spec count 0) as [?|_]; [lia|]. cbn [committed pending].
  fold (unused s). rewrite Hge. reflexivity.
Qed.

Lemma assign_tags_negative :
  count < 0 ->
  run_request (Tags.assign_tags_to_product product_id count current_user) s
  = (s, Raise (DBAPIError "LIMIT must not be negative")).
Proof.
  intros Hn. unfold Tags.assign_tags_to_product, Tags.select_unused.
  rewrite caller_is_manufacturer, String.eqb_refl.
  cbn [negb]. unfold_session. rewrite caller_owns_product.
  destruct (Z.ltb_spec count 0) as [_|?]; [reflexivity|lia].
Qed.

End Assignment.

Lemma filter_both {A} (p q : A -> bool) (l : list A) :
  filter (fun x => p x && q x) l = filter q (filter p l).
Proof.
  induction l as [|x r IH]; [reflexivity|]. cbn [filter].
  destruct (p x); cbn [andb filter]; [destruct (q x)|]; now rewrite IH.
Qed.

(** The rows the UPDATE touches are the selected ones. *)
Lemma assign_touches_selected (s : Store) (n : nat) (g : Tag.t) :
  tags_consistent s = true -> In g (tags s) ->
  mem_string (Tag.tag_code g) (map Tag.tag_code (firstn n (unused s))) = true
  <-> In g (firstn n (unused s)).
Proof.
  unfold tags_consistent. intros WF Hg. apply distinct_NoDup in WF.
  rewrite mem_string_In, in_map_iff. split.
  - intros [g' [E Hg']]. assert (g' = g) as <-; [|assumption].
    apply (unique_column Tag.tag_code (tags s)); try assumption.
    apply firstn_incl in Hg'. unfold unused in Hg'. apply filter_In in Hg'. tauto.
  - intros H. now exists g.
Qed.

(** After the UPDATE the pool has lost exactly the selected rows. *)
Lemma unused_after_assign (s : Store) (pid : Z) (n : nat) :
  tags_consistent s = true ->
  (List.length (filter (fun g => (Tag.status g =? "unused")%string)
                       (map (assign pid (firstn n (unused s))) (tags s)))
   + List.length (firstn n (unused s)) = List.length (unused s))%nat.
Proof.
  unfold tags_consistent. intros WF. apply distinct_NoDup in WF.
  rewrite filter_map_swap, length_map.
  rewrite (filter_ext _ (fun g => (Tag.status g =? "unused")%string
             && negb (mem_string (Tag.tag_code g)
                                 (map Tag.tag_code (firstn n (unused s)))))).
  2:{ intros g. unfold assign.
      destruct (mem_string (Tag.tag_code g) (map Tag.tag_code (firstn n (unused s)))).
      - cbn. now rewrite andb_false_r.
      - now rewrite andb_true_r. }
  rewrite filter_both. fold (unused s).
  assert (NoDup (map Tag.tag_code (unused s))) as HN
    by (unfold unused; now apply unique_column_filter).
  pose proof (filter_length
                (fun g => mem_string (Tag.tag_code g)
                            (map Tag.tag_code (firstn n (unused s)))) (unused s)) as L.
  rewrite (select_by_codes_of_prefix Tag.tag_code (unused s) HN n) in L.
  lia.
Qed.

(** C1. A manufacturer who owns the product asks for [count] tags, with a
    product id and a count in the range of a query parameter.  If the pool
    of unused tags is smaller than [count], the call fails with 400 and the
    store is unchanged.  If [0 <= count] and the pool is large enough, the
    first [count] unused tags are selected and the answer lists their codes;
    for each of them the tags table then holds a row with status "active"
    and the product's id that agrees with it in every other column; every
    other tag row is there as it was, and no further row; every other table
    is as it was; the pool shrinks by exactly [count].  A negative [count]
    is refused by the database: the call fails with 500 and changes
    nothing. *)
Theorem assign_tags_all_or_nothing
    (product_id count : Z) (current_user : User.t) (s : Store) (product : Product.t) :
  User.role current_user = "manufacturer" ->
  find (Products.owned_by product_id current_user) (products s) = Some product ->
  tags_consistent s = true ->
  int32 product_id -> int32 count ->
  let available := Z.of_nat (List.length (unused s)) in
  let out := run_request (Tags.assign_tags_to_product product_id count current_user) s in
  (available < count ->
     fst out = s /\ exists msg, snd out = Raise (HTTPException 400 msg))
  /\ (0 <= count <= available ->
       let selected := firstn (Z.to_nat count) (unused s) in
       Z.of_nat (List.length selected) = count
       /\ (forall g, In g selected -> In g (tags s) /\ Tag.status g = "unused")
       /\ (exists msg,
             snd out = Return (BatchAssignmentResponse.mk msg (map Tag.tag_code selected)))
       /\ (forall g, In g selected ->
             exists g', In g' (tags (fst out))
                        /\ Tag.status g' = "active"
                        /\ Tag.product_id g' = Some product_id
                        /\ Tag.id g' = Tag.id g
                        /\ Tag.tag_code g' = Tag.tag_code g
                        /\ Tag.token_id g' = Tag.token_id g
                        /\ Tag.blockchain_tx_hash g' = Tag.blockchain_tx_hash g
                        /\ Tag.batch_id g' = Tag.batch_id g
                        /\ Tag.created_at g' = Tag.created_at g)
       /\ (forall g, In g (tags s) -> ~ In g selected -> In g (tags (fst out)))
       /\ (forall g', In g' (tags (fst out)) ->
             (In g' (tags s) /\ ~ In g' selected)
             \/ (exists g, In g selected
                           /\ Tag.tag_code g' = Tag.tag_code g
                           /\ Tag.status g' = "active"
                           /\ Tag.product_id g' = Some product_id))
       /\ List.length (tags (fst out)) = List.length (tags s)
       /\ Z.of_nat (List.length (unused (fst out))) = available - count
       /\ users (fst out) = users s /\ products (fst out) = products s
       /\ batches (fst out) = batches s /\ scans (fst out) = scans s
       /\ password_reset_tokens (fst out) = password_reset_tokens s)
  /\ (count < 0 -> fst out = s /\ status_code_of 200 (snd out) = 500).
Proof.
  intros R F WF _ _ available out. split; [|split].
  - intros Hlt. exact (assign_tags_short product_id count current_user s product R F Hlt).
  - intros Hc selected.
    assert (Z.of_nat (List.length selected) = count) as Hlen.
    { unfold selected. rewrite length_firstn. unfold available in Hc. lia. }
    assert (Product.id product = product_id) as Hpid.
    { apply find_some in F. destruct F as [_ F]. unfold Products.owned_by in F.
      apply andb_true_iff in F. destruct F as [F _]. now apply Z.eqb_eq. }
    assert (forall g, In g selected -> In g (tags s) /\ Tag.status g = "unused") as Hsel.
    { intros g Hg. unfold selected in Hg. apply firstn_incl in Hg.
      unfold unused in Hg. apply filter_In in Hg. destruct Hg as [Hg Hs].
      split; [assumption|]. now apply String.eqb_eq. }
    unfold out. rewrite (assign_tags_enough product_id count current_user s product R F Hc).
    cbn [fst snd]. fold selected. rewrite Hpid.
    cbn [with_tags tags users products batches scans password_reset_tokens].
    split; [exact Hlen|]. split; [exact Hsel|]. split; [now eexists|]. split.
    { intros g Hg. exists (assign product_id selected g). split.
      - apply in_map. now apply Hsel.
      - unfold assign.
        assert (mem_string (Tag.tag_code g) (map Tag.tag_code selected) = true) as ->
          by (apply mem_string_In; now apply in_map).
        now repeat split. }
    split.
    { intros g Hg Hn. apply in_map_iff. exists g. split; [|assumption].
      unfold assign.
      destruct (mem_string (Tag.tag_code g) (map Tag.tag_code selected)) eqn:E;
        [|reflexivity].
      exfalso. apply Hn. now apply (assign_touches_selected s (Z.to_nat count) g WF Hg). }
    split.
    { intros g' Hg'. apply in_map_iff in Hg'. destruct Hg' as [g [<- Hg]].
      unfold assign.
      destruct (mem_string (Tag.tag_code g) (map Tag.tag_code selected)) eqn:E.
      - right. exists g. split; [|now repeat split].
        now apply (assign_touches_selected s (Z.to_nat count) g WF Hg).
      - left. split; [assumption|]. intros Hin.
        apply (assign_touches_selected s (Z.to_nat count) g WF Hg) in Hin.
        unfold selected in E. congruence. }
    split; [apply length_map|]. split; [|now repeat split].
    pose proof (unused_after_assign s product_id (Z.to_nat count) WF) as K.
    fold selected in K. unfold unused at 1. cbn [with_tags tags].
    unfold available. lia.
  - intros Hn. unfold out.
    rewrite (assign_tags_negative product_id count current_user s product R F Hn).
    now split.
Qed.

(** On the sample database, whose pool holds two tags: a request for two
    takes both, a request for three takes none. *)
Example assign_two_of_pool :
  let out := run_request (Tags.assign_tags_to_product 1 2 Sample.alice) Sample.db in
  map (fun g => (Tag.tag_code g, Tag.status g, Tag.product_id g)) (tags (fst out))
  = [("code-1", "active", Some 1); ("code-2", "active", Some 1);
     ("code-3", "active", Some 1)]
  /\ snd out = Return (BatchAssignmentResponse.mk
                         "Successfully assigned 2 tags to product 'Lamp' (ID: 1)."
                         ["code-1"; "code-2"]).
Proof. vm_compute. split; reflexivity. Qed.

(** On the sample database, whose pool holds the tags 1 and 2: after a
    request for two the table holds tag 1 as an active tag of product 1, and
    a request for three is refused and takes none. *)
Lemma assign_tags_all_or_nothing_witness :
  (exists g',
     In g' (tags (fst (run_request (Tags.assign_tags_to_product 1 2 Sample.alice)
                                   Sample.db)))
     /\ Tag.status g' = "active" /\ Tag.product_id g' = Some 1
     /\ Tag.id g' = 1 /\ Tag.tag_code g' = "code-1" /\ Tag.token_id g' = "TOKEN_1"
     /\ Tag.blockchain_tx_hash g' = Some "0xabc" /\ Tag.batch_id g' = 1
     /\ Tag.created_at g' = 30)
  /\ fst (run_request (Tags.assign_tags_to_product 1 3 Sample.alice) Sample.db)
     = Sample.db.
Proof.
  split.
  - refine (proj1 (proj2 (proj2 (proj2
             (proj1 (proj2
                (assign_tags_all_or_nothing 1 2 Sample.alice Sample.db Sample.lamp
                   eq_refl eq_refl eq_refl _ _)) _)))) Sample.tag1 _).
    + unfold int32. lia.
    + unfold int32. lia.
    + cbn. lia.
    + now left.
  - refine (proj1 (proj1
             (assign_tags_all_or_nothing 1 3 Sample.alice Sample.db Sample.lamp
                eq_refl eq_refl eq_refl _ _) _)).
    + unfold int32. lia.
    + unfold int32. lia.
    + cbn. lia.
Defined.

(** C1 as the spec words it fails on the sample database: for a count of -1
    the pool is not smaller than the count, and yet the call does not
    succeed. *)
Lemma negative_count_is_not_assigned :
  ~ (forall count,
       ~ Z.of_nat (List.length (unused Sample.db)) < count ->
       exists resp,
         snd (run_request (Tags.assign_tags_to_product 1 count Sample.alice) Sample.db)
         = Return resp).
Proof.
  intros H. destruct (H (-1)) as [resp E]; [cbn; lia | discriminate E].
Qed.

(** *** Minting *)

Section Minting.

Variable uuid4 : nat -> string.
Variable mint_warehouse_batch : list string -> result string.
Variable mint_tags_in_bulk : list string -> option Z -> result string.

(** When the call to the chain raises, nothing of the request is committed:
    the session is rolled back, which discards the batch row that was only
    flushed, and the status "failed" is set after that, on an object that has
    no row any more, and is never committed. *)
Lemma mint_warehouse_failure_rolls_back
    (request : TagGenerationRequest.t) (user : User.t) (now : Z) (s : Store) (e : exn) :
  User.role user = "admin" ->
  TagGenerationRequest.mint_type request = "warehouse" ->
  mint_warehouse_batch (Tags.draws uuid4 0 (TagGenerationRequest.count request)) = Raise e ->
  let out := run_request
               (Tags.mint_warehouse_tags uuid4 mint_warehouse_batch request user now) s in
  fst out = s /\ status_code_of 200 (snd out) = 500.
Proof.
  intros R T E out. unfold out, Tags.mint_warehouse_tags, Tags.get_current_admin,
    Tags.add_batch, await, Tags.update_batch.
  rewrite R, T, !String.eqb_refl. cbn [negb]. unfold_session.
  cbn [Batch.product_id Batch.manufacturer_id andb].
  destruct (existsb (fun u => User.id u =? User.id user) (users s)).
  - cbn [committed pending Batch.id]. rewrite E. now split.
  - now split.
Qed.

Lemma mint_direct_failure_rolls_back
    (request : TagGenerationRequest.t) (user : User.t) (now : Z) (s : Store) (e : exn) :
  User.role user = "admin" ->
  mint_tags_in_bulk (Tags.draws uuid4 0 (TagGenerationRequest.count request))
                    (TagGenerationRequest.product_id request) = Raise e ->
  let out := run_request
               (Tags.mint_direct_tags uuid4 mint_tags_in_bulk request user now) s in
  fst out = s /\ exists c, status_code_of 200 (snd out) = c /\ (c = 400 \/ c = 500).
Proof.
  intros R E out. unfold out, Tags.mint_direct_tags, Tags.get_current_admin,
    Tags.add_batch, await, Tags.update_batch.
  rewrite R, String.eqb_refl. cbn [negb]. unfold_session.
  destruct (negb (TagGenerationRequest.mint_type request =? "direct")%string
            || Tags.falsy (TagGenerationRequest.product_id request)).
  - split; [reflexivity|]. exists 400. now split; [|left].
  - cbn [Batch.product_id Batch.manufacturer_id].
    match goal with |- context [if ?c then _ else _] => destruct c end.
    + cbn [committed pending Batch.id]. rewrite E.
      split; [reflexivity|]. exists 500. now split; [|right].
    + split; [reflexivity|]. exists 500. now split; [|right].
Qed.

Lemma number_rows_length (rows : list (Z -> Tag.t)) :
  forall first, List.length (Tags.number_rows first rows) = List.length rows.
Proof.
  induction rows as [|r rs IH]; intros first; cbn [Tags.number_rows List.length];
    [reflexivity | now rewrite IH].
Qed.

Lemma number_rows_Forall (P : Tag.t -> Prop) (rows : list (Z -> Tag.t)) :
  Forall (fun r => forall tid, P (r tid)) rows ->
  forall first, Forall P (Tags.number_rows first rows).
Proof.
  induction 1 as [|r rs Hr _ IH]; intros first; cbn [Tags.number_rows]; constructor;
    [apply Hr | apply IH].
Qed.

Lemma minted_rows_length (count : Z) tx status product_id bid now first :
  Z.of_nat (List.length (minted_rows uuid4 count tx status product_id bid now first))
  = Z.max 0 count.
Proof.
  unfold minted_rows, Tags.draws.
  rewrite number_rows_length, length_map, length_combine, !length_map, !length_seq.
  lia.
Qed.

Lemma minted_rows_shape (count : Z) tx status product_id bid now first :
  Forall (fun g => Tag.batch_id g = bid /\ Tag.status g = status
                   /\ Tag.product_id g = product_id)
         (minted_rows uuid4 count tx status product_id bid now first).
Proof.
  unfold minted_rows. apply number_rows_Forall, Forall_forall.
  intros r Hr tid. apply in_map_iff in Hr. destruct Hr as [ct [<- _]]. now cbn.
Qed.

(** What a warehouse mint commits when the chain accepts it. *)
Lemma mint_warehouse_committed
    (request : TagGenerationRequest.t) (user : User.t) (now : Z) (s : Store) (tx : string) :
  User.role user = "admin" ->
  TagGenerationRequest.mint_type request = "warehouse" ->
  existsb (fun u => User.id u =? User.id user) (users s) = true ->
  mint_warehouse_batch (Tags.draws uuid4 0 (TagGenerationRequest.count request)) = Return tx ->
  let count := TagGenerationRequest.count request in
  let bid := next_id (map Batch.id (batches s)) in
  let batch := Batch.mk bid None (User.id user) count "minted" "warehouse" (Some tx) now in
  let rows := minted_rows uuid4 count tx "unused" None bid now
                          (next_id (map Tag.id (tags s))) in
  rows_insertable s rows = true ->
  run_request (Tags.mint_warehouse_tags uuid4 mint_warehouse_batch request user now) s
  = (mkStore (users s) (products s) (batches s ++ [batch]) (tags s ++ rows) (scans s)
             (password_reset_tokens s),
     Return (BatchResponse.from_orm batch)).
Proof.
  intros R T U E count bid batch rows I.
  assert (forall b, In b (batches s) -> Batch.id b <> bid) as Hold.
  { intros b Hb. pose proof (next_id_above (map Batch.id (batches s)) (Batch.id b)
                               (in_map _ _ _ Hb)). fold bid in H. lia. }
  unfold Tags.mint_warehouse_tags, Tags.get_current_admin,
    Tags.add_batch, Tags.update_batch, Tags.add_all, Tags.refresh.
  rewrite R, T, !String.eqb_refl. cbn [negb]. unfold_session.
  cbn [Batch.product_id Batch.manufacturer_id andb]. rewrite U.
  cbn [committed pending Batch.id]. rewrite E.
  cbn [committed pending Batch.id with_batches batches tags].
  fold count bid. fold (minted_rows uuid4 count tx "unused" None bid now
                                    (next_id (map Tag.id (tags s)))).
  fold rows. unfold rows_insertable in I. rewrite I.
  unfold with_tags, with_batches.
  cbn [committed pending batches tags users products scans password_reset_tokens].
  set (pend := Batch.mk bid None (User.id user) count "pending" "warehouse" None now).
  rewrite (update_last_row Batch.id
             (fun b => Batch.set_status "minted" (Batch.set_blockchain_tx_hash tx b))
             (batches s) pend bid eq_refl Hold).
  change (Batch.set_status "minted" (Batch.set_blockchain_tx_hash tx pend)) with batch.
  rewrite (find_skip (fun b => Batch.id b =? bid) (batches s) batch []).
  - reflexivity.
  - intros b Hb. apply Z.eqb_neq. now apply Hold.
  - apply Z.eqb_refl.
Qed.

(** What a direct mint commits when the chain accepts it. *)
Lemma mint_direct_committed
    (request : TagGenerationRequest.t) (user : User.t) (now : Z) (s : Store) (tx : string)
    (pid : Z) :
  User.role user = "admin" ->
  TagGenerationRequest.mint_type request = "direct" ->
  TagGenerationRequest.product_id request = Some pid -> pid <> 0 ->
  existsb (fun q => Product.id q =? pid) (products s) = true ->
  existsb (fun u => User.id u =? User.id user) (users s) = true ->
  mint_tags_in_bulk (Tags.draws uuid4 0 (TagGenerationRequest.count request)) (Some pid)
  = Return tx ->
  let count := TagGenerationRequest.count request in
  let bid := next_id (map Batch.id (batches s)) in
  let batch := Batch.mk bid (Some pid) (User.id user) count "minted" "direct" (Some tx) now in
  let rows := minted_rows uuid4 count tx "active" (Some pid) bid now
                          (next_id (map Tag.id (tags s))) in
  rows_insertable s rows = true ->
  run_request (Tags.mint_direct_tags uuid4 mint_tags_in_bulk request user now) s
  = (mkStore (users s) (products s) (batches s ++ [batch]) (tags s ++ rows) (scans s)
             (password_reset_tokens s),
     Return (BatchResponse.from_orm batch)).
Proof.
  intros R T P N Q U E count bid batch rows I.
  assert (forall b, In b (batches s) -> Batch.id b <> bid) as Hold.
  { intros b Hb. pose proof (next_id_above (map Batch.id (batches s)) (Batch.id b)
                               (in_map _ _ _ Hb)). fold bid in H. lia. }
  unfold Tags.mint_direct_tags, Tags.get_current_admin,
    Tags.add_batch, Tags.update_batch, Tags.add_all, Tags.refresh.
  rewrite R, T, P, !String.eqb_refl. cbn [negb orb Tags.falsy].
  destruct (Z.eqb_spec pid 0) as [?|_]; [contradiction|]. unfold_session.
  cbn [Batch.product_id Batch.manufacturer_id]. rewrite Q, U. cbn [andb].
  cbn [committed pending Batch.id]. rewrite E.
  cbn [committed pending Batch.id with_batches batches tags].
  fold count bid. fold (minted_rows uuid4 count tx "active" (Some pid) bid now
                                    (next_id (map Tag.id (tags s)))).
  fold rows. unfold rows_insertable in I. rewrite I.
  unfold with_tags, with_batches.
  cbn [committed pending batches tags users products scans password_reset_tokens].
  set (pend := Batch.mk bid (Some pid) (User.id user) count "pending" "direct" None now).
  rewrite (update_last_row Batch.id
             (fun b => Batch.set_status "minted" (Batch.set_blockchain_tx_hash tx b))
             (batches s) pend bid eq_refl Hold).
  change (Batch.set_status "minted" (Batch.set_blockchain_tx_hash tx pend)) with batch.
  rewrite (find_skip (fun b => Batch.id b =? bid) (batches s) batch []).
  - reflexivity.
  - intros b Hb. apply Z.eqb_neq. now apply Hold.
  - apply Z.eqb_refl.
Qed.

(** No stored tag belongs to the batch that is about to be created. *)
Lemma new_batch_has_no_tags (s : Store) :
  tag_batches_exist s = true ->
  tags_of_batch (next_id (map Batch.id (batches s))) s = [].
Proof.
  unfold tag_batches_exist, tags_of_batch. intros FK.
  rewrite forallb_forall in FK.
  rewrite <- (filter_false (tags s)). apply filter_ext_in. intros g Hg.
  apply Z.eqb_neq. specialize (FK g Hg). apply existsb_exists in FK.
  destruct FK as [b [Hb E]]. apply Z.eqb_eq in E. rewrite <- E.
  pose proof (next_id_above (map Batch.id (batches s)) (Batch.id b) (in_map _ _ _ Hb)).
  lia.
Qed.

(** The successful half of the minting workflow: with a non-negative count,
    codes that are new, and a chain that accepts the call, the batch is
    committed with status "minted" together with [count] tag rows of that
    batch. *)
Lemma mint_success_materializes
    (s : Store) (count : Z) (tx status : string) (product_id : option Z) (now : Z)
    (batch : Batch.t) :
  0 <= count ->
  tag_batches_exist s = true ->
  Batch.id batch = next_id (map Batch.id (batches s)) ->
  let rows := minted_rows uuid4 count tx status product_id (Batch.id batch) now
                          (next_id (map Tag.id (tags s))) in
  let s' := mkStore (users s) (products s) (batches s ++ [batch]) (tags s ++ rows)
                    (scans s) (password_reset_tokens s) in
  In batch (batches s')
  /\ tags_of_batch (Batch.id batch) s' = rows
  /\ Z.of_nat (List.length (tags_of_batch (Batch.id batch) s')) = count.
Proof.
  intros Hc FK Hid rows s'.
  assert (tags_of_batch (Batch.id batch) s' = rows) as K.
  { unfold tags_of_batch, s'. cbn [tags]. rewrite filter_app.
    pose proof (new_batch_has_no_tags s FK) as Hnone.
    unfold tags_of_batch in Hnone. rewrite <- Hid in Hnone. rewrite Hnone.
    cbn [app]. rewrite <- (filter_true rows) at 2. apply filter_ext_in.
    intros g Hg.
    pose proof (minted_rows_shape count tx status product_id (Batch.id batch) now
                  (next_id (map Tag.id (tags s)))) as Sh.
    rewrite Forall_forall in Sh. destruct (Sh g Hg) as [-> _]. apply Z.eqb_refl. }
  split; [|split].
  - unfold s'. cbn [batches]. apply in_or_app. right. now left.
  - exact K.
  - rewrite K. unfold rows. rewrite minted_rows_length. lia.
Qed.

End Minting.

(** C2, the failing half, on the sample database: the chain is down, the
    administrator mints two tags.  The request answers 500, and the database
    afterwards is the one before: it holds no batch row for the request, so
    none with status "failed". *)
Theorem mint_failure_persists_no_failed_batch :
  let request := TagGenerationRequest.mk None 2 "warehouse" in
  let direct := TagGenerationRequest.mk (Some 1) 2 "direct" in
  let out := run_request
               (Tags.mint_warehouse_tags Sample.uuid4 Sample.mint_fails
                  request Sample.root 50) Sample.db in
  let out' := run_request
                (Tags.mint_direct_tags Sample.uuid4 Sample.mint_direct_fails
                   direct Sample.root 50) Sample.db in
  snd out = Raise (HTTPException 500
                     "Minting failed: Warehouse minting failed: connection refused")
  /\ fst out = Sample.db
  /\ filter (fun b => (Batch.status b =? "failed")%string) (batches (fst out)) = []
  /\ snd out' = Raise (HTTPException 500
                         "Direct minting failed: Direct minting failed: connection refused")
  /\ fst out' = Sample.db
  /\ filter (fun b => (Batch.status b =? "failed")%string) (batches (fst out')) = [].
Proof. vm_compute. repeat split. Qed.

End TagsSpec.

(** ** routers/verify.py : the public endpoint *)

Lemma find_existsb {A} (f : A -> bool) (l : list A) :
  existsb f l = match find f l with Some _ => true | None => false end.
Proof.
  induction l as [|x r IH]; [reflexivity|]. cbn [existsb find].
  destruct (f x); [reflexivity | exact IH].
Qed.

Module VerifySpec.

Lemma verify_tag_found (tag_code : string) (location : option string) (now : Z)
    (s : Store) (g : Tag.t) :
  find (fun g => (Tag.tag_code g =? tag_code)%string) (tags s) = Some g ->
  run_request (Verify.verify_tag tag_code location now) s
  = (with_scans (fun l => l ++ [public_scan s g location now]) s,
     match Tags.product_of s g with
     | None => Raise (HTTPException 500 "Associated product not found.")
     | Some product =>
         Return (VerificationResponse.mk
                   (Tag.id g) (Tag.tag_code g)
                   (Scan.verification_result (public_scan s g location now))
                   (Product.name product) (Product.description product)
                   (Product.category product) (Product.image_url product) now)
     end).
Proof.
  intros F. unfold Verify.verify_tag, Tags.add_scan, Tags.select_tag. unfold_session.
  rewrite F. cbn [committed pending].
  destruct (Tags.product_of s g); reflexivity.
Qed.

Lemma verify_tag_missing (tag_code : string) (location : option string) (now : Z)
    (s : Store) :
  find (fun g => (Tag.tag_code g =? tag_code)%string) (tags s) = None ->
  run_request (Verify.verify_tag tag_code location now) s
  = (s, Raise (HTTPException 404 "Tag not found")).
Proof.
  intros F. unfold Verify.verify_tag, Tags.select_tag. unfold_session.
  rewrite F. reflexivity.
Qed.

(** The result of one public scan, by the status of the tag and by whether a
    scan of it is on record. *)
Lemma public_scan_result (s : Store) (g : Tag.t) (location : option string) (now : Z) :
  Scan.verification_result (public_scan s g location now)
  = if (Tag.status g =? "active")%string
    then (if scanned s g then "duplicate" else "valid")
    else "invalid".
Proof.
  unfold public_scan, scanned, Verify.determine. cbn [Scan.verification_result].
  rewrite find_existsb.
  destruct (find _ (scans s)); destruct (Tag.status g =? "active")%string; reflexivity.
Qed.

(** Once the scan is appended, the tag counts as scanned. *)
Lemma scanned_after (s : Store) (g : Tag.t) (c : Scan.t) :
  Scan.tag_id c = Some (Tag.id g) ->
  scanned (with_scans (fun l => l ++ [c]) s) g = true.
Proof.
  intros E. unfold scanned. cbn [with_scans scans].
  rewrite existsb_app. cbn [existsb]. rewrite E. cbn [opt_eqb].
  rewrite Z.eqb_refl. now rewrite orb_true_r.
Qed.

Lemma active_results_seen (n : nat) : active_results true n = repeat "duplicate" n.
Proof. now destruct n. Qed.

(** The rows a sequence of public scans of one tag records. *)
Lemma verify_each_records (tag_code : string) (g : Tag.t)
    (calls : list (option string * Z)) :
  forall s : Store,
    find (fun g => (Tag.tag_code g =? tag_code)%string) (tags s) = Some g ->
    exists rows,
      scans (fst (Verify.verify_each tag_code calls s)) = scans s ++ rows
      /\ tags (fst (Verify.verify_each tag_code calls s)) = tags s
      /\ Forall (fun c => Scan.tag_id c = Some (Tag.id g)) rows
      /\ map Scan.verification_result rows
         = if (Tag.status g =? "active")%string
           then active_results (scanned s g) (List.length calls)
           else repeat "invalid" (List.length calls).
Proof.
  induction calls as [|[location now] rest IH]; intros s F.
  - exists []. cbn. rewrite app_nil_r. repeat split; [constructor|].
    now destruct (Tag.status g =? "active")%string.
  - cbn [Verify.verify_each]. rewrite (verify_tag_found _ _ _ _ _ F).
    set (c := public_scan s g location now).
    set (s1 := with_scans (fun l => l ++ [c]) s).
    assert (find (fun g => (Tag.tag_code g =? tag_code)%string) (tags s1) = Some g) as F1
      by exact F.
    destruct (IH s1 F1) as [rows [Hs [Ht [Hall Hres]]]].
    destruct (Verify.verify_each tag_code rest s1) as [s2 rs] eqn:E.
    cbn [fst] in *. exists (c :: rows). split; [|split; [|split]].
    + rewrite Hs. unfold s1. cbn [with_scans scans]. now rewrite <- app_assoc.
    + rewrite Ht. reflexivity.
    + constructor; [reflexivity | assumption].
    + cbn [map List.length]. rewrite Hres. unfold c at 1.
      rewrite public_scan_result.
      unfold s1. rewrite (scanned_after s g c eq_refl), active_results_seen.
      destruct (Tag.status g =? "active")%string; reflexivity.
Qed.

(** C3. The public endpoint, for the tag a code denotes.  While the tag is
    active, a call records "valid" if no scan of the tag is on record and
    "duplicate" if one is; so of any number of calls in a row on a tag not
    scanned before, the first records "valid" and every later one
    "duplicate".  A call on a tag that is not active records "invalid".  A
    response, when the call returns one, carries the recorded result, and the
    call returns one whenever the tag has a product. *)
Theorem public_verify_valid_then_duplicate
    (tag_code : string) (s : Store) (g : Tag.t) :
  find (fun g => (Tag.tag_code g =? tag_code)%string) (tags s) = Some g ->
  (forall location now,
     let out := run_request (Verify.verify_tag tag_code location now) s in
     exists c,
       scans (fst out) = scans s ++ [c]
       /\ Scan.tag_id c = Some (Tag.id g)
       /\ (Tag.status g = "active" -> scanned s g = false ->
           Scan.verification_result c = "valid")
       /\ (Tag.status g = "active" -> scanned s g = true ->
           Scan.verification_result c = "duplicate")
       /\ (Tag.status g <> "active" -> Scan.verification_result c = "invalid")
       /\ (forall resp, snd out = Return resp ->
           VerificationResponse.verification_result resp = Scan.verification_result c)
       /\ (forall p, Tags.product_of s g = Some p -> exists resp, snd out = Return resp))
  /\ (forall calls,
        exists rows,
          scans (fst (Verify.verify_each tag_code calls s)) = scans s ++ rows
          /\ Forall (fun c => Scan.tag_id c = Some (Tag.id g)) rows
          /\ (Tag.status g = "active" -> scanned s g = false ->
              map Scan.verification_result rows
              = firstn (List.length calls)
                       ("valid" :: repeat "duplicate" (List.length calls - 1)))
          /\ (Tag.status g <> "active" ->
              map Scan.verification_result rows = repeat "invalid" (List.length calls))).
Proof.
  intros F. split.
  - intros location now out. exists (public_scan s g location now).
    unfold out. rewrite (verify_tag_found _ _ _ _ _ F). cbn [fst snd].
    rewrite public_scan_result.
    split; [reflexivity|]. split; [reflexivity|]. split; [|split; [|split; [|split]]].
    + intros A N. now rewrite A, N.
    + intros A N. now rewrite A, N.
    + intros A. destruct (String.eqb_spec (Tag.status g) "active"); [contradiction|reflexivity].
    + intros resp. destruct (Tags.product_of s g); [|discriminate].
      intros E. injection E as <-. reflexivity.
    + intros p ->. now eexists.
  - intros calls. destruct (verify_each_records tag_code g calls s F)
      as [rows [Hs [_ [Hall Hres]]]].
    exists rows. split; [exact Hs|]. split; [exact Hall|]. split.
    + intros A N. rewrite Hres, A, N, String.eqb_refl.
      destruct (List.length calls) as [|m]; [reflexivity|].
      cbn [active_results firstn]. rewrite Nat.sub_succ, Nat.sub_0_r.
      f_equal. symmetry. apply firstn_all2. now rewrite repeat_length.
    + intros A. rewrite Hres.
      destruct (String.eqb_spec (Tag.status g) "active"); [contradiction|reflexivity].
Qed.

Lemma public_verify_valid_then_duplicate_witness :
  exists rows,
    scans (fst (Verify.verify_each "code-3" [(None, 60); (Some "Lagos", 61); (None, 62)]
                  Sample.db))
    = scans Sample.db ++ rows
    /\ map Scan.verification_result rows = ["valid"; "duplicate"; "duplicate"].
Proof.
  destruct (proj2 (public_verify_valid_then_duplicate "code-3" Sample.db Sample.tag3 eq_refl)
                  [(None, 60); (Some "Lagos", 61); (None, 62)])
    as [rows [Hs [_ [Hv _]]]].
  exists rows. split; [exact Hs | exact (Hv eq_refl eq_refl)].
Defined.

End VerifySpec.

(** ** The scan ledger only grows *)

Module Ledger.

Lemma extends_refl (l : list Scan.t) : extends l l.
Proof. exists []. now rewrite app_nil_r. Qed.

Lemma extends_trans (l1 l2 l3 : list Scan.t) :
  extends l1 l2 -> extends l2 l3 -> extends l1 l3.
Proof.
  intros [r1 ->] [r2 ->]. exists (r1 ++ r2). now rewrite app_assoc.
Qed.

Lemma extends_app (l rows : list Scan.t) : extends l (l ++ rows).
Proof. now exists rows. Qed.

Lemma keeps_ret {A} (a : A) : keeps (ret a).
Proof. intros ss H. split; [apply extends_refl | exact H]. Qed.

Lemma keeps_raise {A} (e : exn) : keeps (@raise A e).
Proof. intros ss H. split; [apply extends_refl | exact H]. Qed.

Lemma keeps_await {A} (r : result A) : keeps (await r).
Proof. intros ss H. split; [apply extends_refl | exact H]. Qed.

Lemma keeps_execute {A} (q : Store -> A) : keeps (execute q).
Proof. intros ss H. split; [apply extends_refl | exact H]. Qed.

Lemma keeps_commit : keeps commit.
Proof. intros ss H. split; [exact H | apply extends_refl]. Qed.

Lemma keeps_rollback : keeps rollback.
Proof. intros ss H. split; apply extends_refl. Qed.

Lemma keeps_write (f : Store -> Store) :
  (forall s, extends (scans s) (scans (f s))) -> keeps (write f).
Proof.
  intros Hf ss H. split; [apply extends_refl|]. cbn.
  eapply extends_trans; [exact H | apply Hf].
Qed.

Lemma keeps_bind {A B} (m : M A) (k : A -> M B) :
  keeps m -> (forall a, keeps (k a)) -> keeps (bind m k).
Proof.
  intros Hm Hk ss H. unfold bind. destruct (Hm ss H) as [H1 H2].
  destruct (m ss) as [ss' [a|e]]; cbn [fst] in *.
  - destruct (Hk a ss' H2) as [H3 H4]. split; [|exact H4].
    eapply extends_trans; eassumption.
  - now split.
Qed.

Lemma keeps_try_except {A} (m : M A) (h : exn -> M A) :
  keeps m -> (forall e, keeps (h e)) -> keeps (try_except m h).
Proof.
  intros Hm Hh ss H. unfold try_except. destruct (Hm ss H) as [H1 H2].
  destruct (m ss) as [ss' [a|e]]; cbn [fst] in *.
  - now split.
  - destruct (Hh e ss' H2) as [H3 H4]. split; [|exact H4].
    eapply extends_trans; eassumption.
Qed.

Lemma keeps_run {A} (m : M A) (s : Store) :
  keeps m -> extends (scans s) (scans (fst (run_request m s))).
Proof.
  intros Hm. unfold run_request.
  destruct (Hm (mkSession s s) (extends_refl _)) as [H _].
  destruct (m (mkSession s s)) as [ss r]. exact H.
Qed.

(** Each handler is built from the steps above; the only write to the scans
    table is the append of [add_scan]. *)
Ltac keeps_step :=
  match goal with
  | |- keeps (bind _ _) => apply keeps_bind; [|intros ?]
  | |- keeps (try_except _ _) => apply keeps_try_except; [|intros ?]
  | |- keeps (ret _) => apply keeps_ret
  | |- keeps (raise _) => apply keeps_raise
  | |- keeps (await _) => apply keeps_await
  | |- keeps (execute _) => apply keeps_execute
  | |- keeps commit => apply keeps_commit
  | |- keeps rollback => apply keeps_rollback
  | |- keeps (write (with_scans (fun l => l ++ _))) =>
      apply keeps_write; intros ?; apply extends_app
  | |- keeps (write _) => apply keeps_write; intros ?; apply extends_refl
  | |- keeps (if ?c then _ else _) => destruct c
  | |- keeps (match ?x with _ => _ end) => destruct x
  | |- keeps (let _ := _ in _) => cbv zeta
  end.

Ltac keeps_auto := repeat keeps_step.

Lemma register_user_keeps h user_in now : keeps (Auth.register_user h user_in now).
Proof. unfold Auth.register_user, Auth.add_user. keeps_auto. Qed.

Lemma request_password_reset_keeps payload now token :
  keeps (Auth.request_password_reset payload now token).
Proof.
  unfold Auth.request_password_reset, Auth.add_password_reset_token. keeps_auto.
Qed.

Lemma reset_password_keeps h payload now : keeps (Auth.reset_password h payload now).
Proof. unfold Auth.reset_password. keeps_auto. Qed.

Lemma list_products_keeps status category u :
  keeps (Products.list_products status category u).
Proof. unfold Products.list_products. keeps_auto. Qed.

Lemma get_product_keeps id u : keeps (Products.get_product id u).
Proof. unfold Products.get_product. keeps_auto. Qed.

Lemma delete_product_keeps id u : keeps (Products.delete_product id u).
Proof. unfold Products.delete_product. keeps_auto. Qed.

Lemma create_product_keeps uuid parse name description category meta image u now :
  keeps (Products.create_product uuid parse name description category meta image u now).
Proof.
  unfold Products.create_product, Products.add_product.
  keeps_auto.
Qed.

Lemma set_if_given_keeps {A} (x : option A) set pid :
  keeps (Products.set_if_given x set pid).
Proof. unfold Products.set_if_given, Products.update_row. keeps_auto. Qed.

Lemma update_product_keeps uuid parse id name description category meta image u :
  keeps (Products.update_product uuid parse id name description category meta image u).
Proof.
  unfold Products.update_product, Products.update_row.
  keeps_auto; apply set_if_given_keeps.
Qed.

Lemma update_current_user_profile_keeps update u :
  keeps (Users.update_current_user_profile update u).
Proof.
  unfold Users.update_current_user_profile, Users.update_row, Users.refresh.
  keeps_auto.
Qed.

Lemma update_user_role_keeps id role_update u :
  keeps (Users.update_user_role id role_update u).
Proof.
  unfold Users.update_user_role, Users.update_row, Users.refresh. keeps_auto.
Qed.

Lemma bulk_mint_and_store_keeps uuid mint count manufacturer_id now :
  keeps (BulkMinter.bulk_mint_and_store uuid mint count manufacturer_id now).
Proof.
  unfold BulkMinter.bulk_mint_and_store, Tags.add_batch, Tags.update_batch, Tags.add_all.
  keeps_auto.
Qed.

Lemma mint_warehouse_tags_keeps uuid mint body u now :
  keeps (Tags.mint_warehouse_tags uuid mint body u now).
Proof.
  unfold Tags.mint_warehouse_tags, Tags.get_current_admin, Tags.add_batch,
    Tags.update_batch, Tags.add_all, Tags.refresh.
  keeps_auto.
Qed.

Lemma mint_direct_tags_keeps uuid mint body u now :
  keeps (Tags.mint_direct_tags uuid mint body u now).
Proof.
  unfold Tags.mint_direct_tags, Tags.get_current_admin, Tags.add_batch,
    Tags.update_batch, Tags.add_all, Tags.refresh.
  keeps_auto.
Qed.

Lemma assign_tags_to_product_keeps pid count u :
  keeps (Tags.assign_tags_to_product pid count u).
Proof. unfold Tags.assign_tags_to_product, Tags.select_unused. keeps_auto. Qed.

Lemma tags_verify_tag_keeps c o e code location now :
  keeps (Tags.verify_tag c o e code location now).
Proof. unfold Tags.verify_tag, Tags.add_scan. keeps_auto. Qed.

Lemma verify_tag_keeps code location now : keeps (Verify.verify_tag code location now).
Proof. unfold Verify.verify_tag, Tags.add_scan. keeps_auto. Qed.

Lemma serve_extends (env : Collaborators) (r : request) (s : Store) :
  extends (scans s) (scans (fst (serve env r s))).
Proof.
  destruct r; cbn [serve answer fst]; apply keeps_run.
  - apply register_user_keeps.
  - apply request_password_reset_keeps.
  - apply reset_password_keeps.
  - apply list_products_keeps.
  - apply get_product_keeps.
  - apply create_product_keeps.
  - apply update_product_keeps.
  - apply delete_product_keeps.
  - apply update_current_user_profile_keeps.
  - apply update_user_role_keeps.
  - apply bulk_mint_and_store_keeps.
  - apply mint_warehouse_tags_keeps.
  - apply mint_direct_tags_keeps.
  - apply assign_tags_to_product_keeps.
  - apply tags_verify_tag_keeps.
  - apply verify_tag_keeps.
Qed.

Lemma serve_all_extends (env : Collaborators) (rs : list request) :
  forall s, extends (scans s) (scans (serve_all env rs s)).
Proof.
  induction rs as [|r rs IH]; intros s; cbn [serve_all fold_left].
  - apply extends_refl.
  - eapply extends_trans; [apply serve_extends | apply IH].
Qed.

Lemma serve_each_extends (rs : list (Collaborators * request)) :
  forall s, extends (scans s) (scans (serve_each rs s)).
Proof.
  induction rs as [|[env r] rs IH]; intros s; cbn [serve_each fold_left fst snd].
  - apply extends_refl.
  - eapply extends_trans; [apply serve_extends | apply IH].
Qed.

End Ledger.

(** ** Both verification endpoints and the scan ledger *)

Module VerificationSpec.

Lemma tags_verify_tag_found (env : Collaborators) (tag_code : string)
    (location : option string) (now : Z) (s : Store) (g : Tag.t) :
  find (fun g => (Tag.tag_code g =? tag_code)%string) (tags s) = Some g ->
  run_request
    (Tags.verify_tag (contract env) (owner_of env) (expected_owner env)
       tag_code location now) s
  = (with_scans (fun l => l ++ [chain_scan env s g location now]) s,
     match Tags.product_of s g with
     | None => Raise (AttributeError "'NoneType' object has no attribute 'name'")
     | Some _ => Raise (ValidationError "2 validation errors for VerificationResponse")
     end).
Proof.
  intros F. unfold Tags.verify_tag, Tags.add_scan, Tags.select_tag. unfold_session.
  rewrite F. cbn [committed pending].
  destruct (Tags.product_of s g); reflexivity.
Qed.

Lemma tags_verify_tag_missing (env : Collaborators) (tag_code : string)
    (location : option string) (now : Z) (s : Store) :
  find (fun g => (Tag.tag_code g =? tag_code)%string) (tags s) = None ->
  run_request
    (Tags.verify_tag (contract env) (owner_of env) (expected_owner env)
       tag_code location now) s
  = (s, Raise (HTTPException 404 "Tag not found.")).
Proof.
  intros F. unfold Tags.verify_tag, Tags.select_tag. unfold_session.
  rewrite F. reflexivity.
Qed.

(** The results the two endpoints can record. *)
Lemma chain_result_values (env : Collaborators) (s : Store) (g : Tag.t)
    (location : option string) (now : Z) :
  In (Scan.verification_result (chain_scan env s g location now))
     ["valid"; "invalid"; "tampered"; "blockchain_error"].
Proof.
  unfold chain_scan, Tags.check_on_chain, Tags.check_status.
  cbn [Scan.verification_result].
  destruct (mem_string (Tag.status g) ["unused"; "flagged"]).
  - cbn. tauto.
  - rewrite String.eqb_refl. cbn [andb].
    destruct (contract env); [|cbn; tauto].
    destruct (owner_of env (Tag.token_id g)) as [a| |]; [|cbn; tauto|cbn; tauto].
    destruct (expected_owner env) as [e|]; [|cbn; tauto].
    destruct (negb (a =? e)%string); cbn; tauto.
Qed.

Lemma public_result_values (s : Store) (g : Tag.t) (location : option string) (now : Z) :
  In (Scan.verification_result (public_scan s g location now))
     ["valid"; "invalid"; "duplicate"].
Proof.
  rewrite VerifySpec.public_scan_result.
  destruct (Tag.status g =? "active")%string; [destruct (scanned s g)|]; cbn; tauto.
Qed.

(** C4. A call to either verification endpoint with the code of a stored tag
    appends one row to the scans table and changes no other table.  The row
    names the tag, no user, the location and the time of the call, and it
    holds the final result.  At the endpoint that asks the chain this is
    "invalid" for a tag that is "unused" or "flagged"; otherwise "valid"
    when there is no contract; otherwise what the owner lookup gives:
    "valid" for the expected owner, "tampered" for another one, "invalid"
    when the contract rejects the call, "blockchain_error" for any other
    failure.  At the public endpoint it is "invalid" for a tag that is not
    "active", otherwise "valid" when no scan of the tag is recorded and
    "duplicate" when one is; the public endpoint answers with the recorded
    result and the product of the tag, or with 500 when the tag has no
    product, the scan being recorded either way.  With a code no tag has,
    either call answers 404 and the store is unchanged.  No sequence of requests, whatever the
    collaborators of each, changes or removes a scan row: the table after is
    the table before with rows appended. *)
Theorem verification_appends_one_scan
    (env : Collaborators) (tag_code : string) (location : option string) (now : Z)
    (s : Store) :
  let on_chain :=
    run_request (Tags.verify_tag (contract env) (owner_of env) (expected_owner env)
                   tag_code location now) s in
  let public := run_request (Verify.verify_tag tag_code location now) s in
  (forall g,
     find (fun g => (Tag.tag_code g =? tag_code)%string) (tags s) = Some g ->
     (exists c,
        scans (fst on_chain) = scans s ++ [c]
        /\ Scan.tag_id c = Some (Tag.id g) /\ Scan.user_id c = None
        /\ Scan.location c = location /\ Scan.timestamp c = now
        /\ Scan.verification_result c
           = (if mem_string (Tag.status g) ["unused"; "flagged"] then "invalid"
              else if contract env
                   then match owner_of env (Tag.token_id g) with
                        | Owner token_owner =>
                            match expected_owner env with
                            | Some expected =>
                                if (token_owner =? expected)%string
                                then "valid" else "tampered"
                            | None => "blockchain_error"
                            end
                        | ContractLogicError => "invalid"
                        | OtherException => "blockchain_error"
                        end
                   else "valid")
        /\ users (fst on_chain) = users s /\ products (fst on_chain) = products s
        /\ batches (fst on_chain) = batches s /\ tags (fst on_chain) = tags s
        /\ password_reset_tokens (fst on_chain) = password_reset_tokens s)
     /\ (exists c,
          scans (fst public) = scans s ++ [c]
          /\ Scan.tag_id c = Some (Tag.id g) /\ Scan.user_id c = None
          /\ Scan.location c = location /\ Scan.timestamp c = now
          /\ Scan.verification_result c
             = (if (Tag.status g =? "active")%string
                then if scanned s g then "duplicate" else "valid"
                else "invalid")
          /\ snd public
             = match Tags.product_of s g with
               | Some product =>
                   Return (VerificationResponse.mk
                             (Tag.id g) (Tag.tag_code g) (Scan.verification_result c)
                             (Product.name product) (Product.description product)
                             (Product.category product) (Product.image_url product) now)
               | None => Raise (HTTPException 500 "Associated product not found.")
               end
          /\ users (fst public) = users s /\ products (fst public) = products s
          /\ batches (fst public) = batches s /\ tags (fst public) = tags s
          /\ password_reset_tokens (fst public) = password_reset_tokens s))
  /\ (find (fun g => (Tag.tag_code g =? tag_code)%string) (tags s) = None ->
      on_chain = (s, Raise (HTTPException 404 "Tag not found."))
      /\ public = (s, Raise (HTTPException 404 "Tag not found")))
  /\ (forall rs : list (Collaborators * request),
        extends (scans s) (scans (serve_each rs s))).
Proof.
  intros on_chain public. split; [|split].
  - intros g F. unfold on_chain, public.
    rewrite (tags_verify_tag_found env _ _ _ _ _ F), (VerifySpec.verify_tag_found _ _ _ _ _ F).
    cbn [fst snd]. split.
    + exists (chain_scan env s g location now).
      cbn [with_scans scans users products batches tags password_reset_tokens].
      split; [reflexivity|]. unfold chain_scan.
      cbn [Scan.tag_id Scan.user_id Scan.location Scan.timestamp Scan.verification_result].
      repeat (split; [reflexivity|]).
      split; [|now repeat split].
      unfold Tags.check_on_chain, Tags.check_status.
      destruct (mem_string (Tag.status g) ["unused"; "flagged"]); [reflexivity|].
      rewrite String.eqb_refl. cbn [andb].
      destruct (contract env); [|reflexivity].
      destruct (owner_of env (Tag.token_id g)) as [a| |]; try reflexivity.
      destruct (expected_owner env) as [e|]; [|reflexivity].
      now destruct (a =? e)%string.
    + exists (public_scan s g location now).
      cbn [with_scans scans users products batches tags password_reset_tokens].
      split; [reflexivity|]. unfold public_scan.
      cbn [Scan.tag_id Scan.user_id Scan.location Scan.timestamp Scan.verification_result].
      repeat (split; [reflexivity|]).
      split; [|split; [|now repeat split]].
      * unfold Verify.determine, scanned. rewrite find_existsb.
        destruct (find (fun c => opt_eqb (Scan.tag_id c) (Tag.id g)) (scans s));
          now destruct (Tag.status g =? "active")%string.
      * now destruct (Tags.product_of s g).
  - intros F. unfold on_chain, public.
    now rewrite (tags_verify_tag_missing env _ _ _ _ F), (VerifySpec.verify_tag_missing _ _ _ _ F).
  - intros rs. apply Ledger.serve_each_extends.
Qed.

(** On the sample database the tag "code-3" is an active tag of the lamp that
    no scan names and whose token the chain gives to the expected owner:
    each endpoint records one scan of it with result "valid". *)
Lemma verification_appends_one_scan_witness :
  map (fun c => (Scan.tag_id c, Scan.user_id c, Scan.location c,
                 Scan.verification_result c, Scan.timestamp c))
      (scans (fst (run_request
                     (Tags.verify_tag true Sample.owner_of (Some "0xAdmin") "code-3"
                        (Some "Lagos") 50) Sample.db)))
  = [(Some 3, None, Some "Lagos", "valid", 50)]
  /\ map (fun c => (Scan.tag_id c, Scan.user_id c, Scan.location c,
                    Scan.verification_result c, Scan.timestamp c))
         (scans (fst (run_request (Verify.verify_tag "code-3" (Some "Lagos") 50)
                                  Sample.db)))
     = [(Some 3, None, Some "Lagos", "valid", 50)].
Proof.
  destruct (proj1 (verification_appends_one_scan sample_env "code-3" (Some "Lagos") 50
                     Sample.db) Sample.tag3 eq_refl)
    as [[c [E [H1 [H2 [H3 [H4 [H5 _]]]]]]] [c' [E' [K1 [K2 [K3 [K4 [K5 _]]]]]]]].
  split.
  - change (contract sample_env) with true in E.
    change (owner_of sample_env) with Sample.owner_of in E.
    change (expected_owner sample_env) with (Some "0xAdmin") in E.
    rewrite E. cbn [map app Sample.db scans]. now rewrite H1, H2, H3, H4, H5.
  - rewrite E'. cbn [map app Sample.db scans]. now rewrite K1, K2, K3, K4, K5.
Defined.

(** C10. A stored tag without a product (a tag of the warehouse pool, say):
    a call to either endpoint with its code commits the scan row with the
    computed result, and then the request fails with status 500 and no
    response body. *)
Theorem verify_tag_without_product
    (env : Collaborators) (tag_code : string) (location : option string) (now : Z)
    (s : Store) (g : Tag.t) :
  find (fun g => (Tag.tag_code g =? tag_code)%string) (tags s) = Some g ->
  Tag.product_id g = None ->
  let on_chain :=
    run_request (Tags.verify_tag (contract env) (owner_of env) (expected_owner env)
                   tag_code location now) s in
  let public := run_request (Verify.verify_tag tag_code location now) s in
  fst on_chain = with_scans (fun l => l ++ [chain_scan env s g location now]) s
  /\ snd on_chain = Raise (AttributeError "'NoneType' object has no attribute 'name'")
  /\ status_code_of 200 (snd on_chain) = 500
  /\ fst public = with_scans (fun l => l ++ [public_scan s g location now]) s
  /\ snd public = Raise (HTTPException 500 "Associated product not found.")
  /\ status_code_of 200 (snd public) = 500.
Proof.
  intros F P on_chain public. unfold on_chain, public.
  rewrite (tags_verify_tag_found env _ _ _ _ _ F), (VerifySpec.verify_tag_found _ _ _ _ _ F).
  unfold Tags.product_of. rewrite P. cbn [fst snd status_code_of]. repeat split.
Qed.

Lemma verify_tag_without_product_witness :
  scans (fst (run_request (Verify.verify_tag "code-1" None 60) Sample.db))
  = [Scan.mk 1 (Some 1) None None "invalid" 60]
  /\ snd (run_request (Verify.verify_tag "code-1" None 60) Sample.db)
     = Raise (HTTPException 500 "Associated product not found.").
Proof.
  destruct (verify_tag_without_product sample_env "code-1" None 60 Sample.db Sample.tag1
              eq_refl eq_refl) as [_ [_ [_ [H1 [H2 _]]]]].
  split; [rewrite H1; reflexivity | exact H2].
Defined.

End VerificationSpec.

(** ** The end-to-end scenario *)

(** After the scenario three tags are active on the product, two are still
    unused, and the two public scans of the first tag are recorded as "valid"
    and then "duplicate". *)
Example scenario_outcome :
  let s := serve_all sample_env scenario scenario_start in
  map (fun g => (Tag.tag_code g, Tag.status g, Tag.product_id g)) (tags s)
  = [("uuid-0", "active", Some 1); ("uuid-1", "active", Some 1);
     ("uuid-2", "active", Some 1); ("uuid-3", "unused", None);
     ("uuid-4", "unused", None)]
  /\ map Batch.status (batches s) = ["minted"]
  /\ map (fun c => (Scan.tag_id c, Scan.verification_result c)) (scans s)
     = [(Some 1, "valid"); (Some 1, "duplicate")].
Proof. vm_compute. repeat split. Qed.

(** ** The declared constraints are invariants of the service *)

Module Constraints.

Lemma map_key_update {A} (key : A -> Z) (f : A -> A) (k : Z) (l : list A) :
  (forall x, key (f x) = key x) ->
  map key (map (fun x => if key x =? k then f x else x) l) = map key l.
Proof.
  intros Hf. rewrite map_map. apply map_ext. intros x.
  destruct (key x =? k); [apply Hf | reflexivity].
Qed.

Lemma existsb_key_update {A} (key : A -> Z) (f : A -> A) (k z : Z) (l : list A) :
  (forall x, key (f x) = key x) ->
  existsb (fun x => key x =? z) (map (fun x => if key x =? k then f x else x) l)
  = existsb (fun x => key x =? z) l.
Proof.
  intros Hf. induction l as [|x r IH]; [reflexivity|]. cbn [map existsb].
  rewrite IH. destruct (key x =? k); [now rewrite Hf | reflexivity].
Qed.

Lemma distinctZ_fresh (ids : list Z) :
  distinctZ ids = true -> distinctZ (ids ++ [next_id ids]) = true.
Proof.
  rewrite !distinctZ_NoDup. intros H.
  apply NoDup_app; [assumption | repeat constructor; now intros [] |].
  intros x Hx [E|[]]. pose proof (next_id_above ids x Hx). lia.
Qed.

Lemma distinct_filter_map {A} (f : A -> string) (p : A -> bool) (l : list A) :
  distinct (map f l) = true -> distinct (map f (filter p l)) = true.
Proof. rewrite !distinct_NoDup. apply unique_column_filter. Qed.

Lemma distinctZ_filter_map {A} (f : A -> Z) (p : A -> bool) (l : list A) :
  distinctZ (map f l) = true -> distinctZ (map f (filter p l)) = true.
Proof. rewrite !distinctZ_NoDup. apply unique_column_filter. Qed.

(** The writes of the handlers, one by one. *)

Lemma consistent_user_update (s : Store) (k : Z) (f : User.t -> User.t) :
  (forall u, User.id (f u) = User.id u) ->
  consistent s = true ->
  consistent (with_users (map (fun u => if User.id u =? k then f u else u)) s) = true.
Proof.
  intros Hf. unfold consistent, reset_tokens_consistent, products_consistent,
    tags_consistent. cbn [with_users users products tags password_reset_tokens].
  rewrite !andb_true_iff. intros [[P T] [[D1 D2] F]]. repeat split; try assumption.
  rewrite forallb_forall in *. intros r Hr.
  rewrite (existsb_key_update User.id f k _ _ Hf). now apply F.
Qed.

Lemma consistent_user_insert (s : Store) (u : User.t) :
  consistent s = true -> consistent (with_users (fun l => l ++ [u]) s) = true.
Proof.
  unfold consistent, reset_tokens_consistent, products_consistent, tags_consistent.
  cbn [with_users users products tags password_reset_tokens].
  rewrite !andb_true_iff. intros [[P T] [[D1 D2] F]]. repeat split; try assumption.
  rewrite forallb_forall in *. intros r Hr.
  rewrite existsb_app. now rewrite (F r Hr).
Qed.

Lemma consistent_product_update (s : Store) (k : Z) (f : Product.t -> Product.t) :
  (forall p, Product.id (f p) = Product.id p) ->
  consistent s = true ->
  consistent (with_products (map (fun p => if Product.id p =? k then f p else p)) s) = true.
Proof.
  intros Hf. unfold consistent, products_consistent.
  cbn [with_products products]. rewrite (map_key_update Product.id f k _ Hf).
  exact (fun H => H).
Qed.

Lemma consistent_product_insert (s : Store) (row : Z -> Product.t) :
  (forall pid, Product.id (row pid) = pid) ->
  consistent s = true ->
  consistent (with_products
                (fun l => l ++ [row (next_id (map Product.id (products s)))]) s) = true.
Proof.
  intros Hrow. unfold consistent, products_consistent.
  cbn [with_products products]. rewrite !andb_true_iff.
  intros [[P T] R]. repeat split; try assumption.
  rewrite map_app. cbn [map]. rewrite Hrow. now apply distinctZ_fresh.
Qed.

Lemma consistent_tag_assign (s : Store) (pid : Z) (codes : list string) :
  consistent s = true ->
  consistent (with_tags (map (fun g => if mem_string (Tag.tag_code g) codes
                                       then Tag.set_values pid "active" g else g)) s)
  = true.
Proof.
  unfold consistent, tags_consistent. cbn [with_tags tags].
  rewrite map_map.
  rewrite (map_ext (fun g => Tag.tag_code
                      (if mem_string (Tag.tag_code g) codes
                       then Tag.set_values pid "active" g else g))
                   Tag.tag_code); [exact (fun H => H)|].
  intros g. now destruct (mem_string (Tag.tag_code g) codes).
Qed.

Lemma consistent_token_delete (s : Store) (p : PasswordResetToken.t -> bool) :
  consistent s = true ->
  consistent (with_password_reset_tokens (filter p) s) = true.
Proof.
  unfold consistent, reset_tokens_consistent, products_consistent, tags_consistent.
  cbn [with_password_reset_tokens users products tags password_reset_tokens].
  rewrite !andb_true_iff. intros [[P T] [[D1 D2] F]]. repeat split; try assumption.
  - now apply distinctZ_filter_map.
  - now apply distinct_filter_map.
  - rewrite forallb_forall in *. intros r Hr. apply filter_In in Hr. now apply F.
Qed.

Lemma consistent_token_insert (s : Store) (u : User.t) (token : string) (expires_at : Z) :
  In u (users s) ->
  mem_string token (map PasswordResetToken.token (password_reset_tokens s)) = false ->
  consistent s = true ->
  consistent
    (with_password_reset_tokens
       (fun l => l ++ [PasswordResetToken.mk
                         (next_id (map PasswordResetToken.id (password_reset_tokens s)))
                         (User.id u) token expires_at]) s) = true.
Proof.
  intros Hu Hfresh.
  unfold consistent, reset_tokens_consistent, products_consistent, tags_consistent.
  cbn [with_password_reset_tokens users products tags password_reset_tokens].
  rewrite !andb_true_iff. intros [[P T] [[D1 D2] F]]. repeat split; try assumption.
  - rewrite map_app. cbn [map PasswordResetToken.id]. now apply distinctZ_fresh.
  - rewrite map_app. cbn [map PasswordResetToken.token].
    apply distinct_NoDup. apply distinct_NoDup in D2. apply mem_string_false in Hfresh.
    apply NoDup_app; [assumption | repeat constructor; now intros [] |].
    now intros x Hx [<-|[]].
  - rewrite forallb_app, F. cbn [forallb PasswordResetToken.user_id].
    rewrite andb_true_r. apply existsb_exists. exists u. split; [assumption|].
    apply Z.eqb_refl.
Qed.

(** The steps of a handler. *)

Lemma preserves_ret {A} (a : A) : preserves (ret a).
Proof. intros ss H. exact H. Qed.

Lemma preserves_raise {A} (e : exn) : preserves (@raise A e).
Proof. intros ss H. exact H. Qed.

Lemma preserves_await {A} (r : result A) : preserves (await r).
Proof. intros ss H. exact H. Qed.

Lemma preserves_execute {A} (q : Store -> A) : preserves (execute q).
Proof. intros ss H. exact H. Qed.

Lemma preserves_commit : preserves commit.
Proof. intros ss [_ H]. now split. Qed.

Lemma preserves_rollback : preserves rollback.
Proof. intros ss [H _]. now split. Qed.

Lemma preserves_write (f : Store -> Store) :
  (forall s, consistent s = true -> consistent (f s) = true) -> preserves (write f).
Proof. intros Hf ss [H1 H2]. split; [exact H1 | now apply Hf]. Qed.

Lemma preserves_bind {A B} (m : M A) (k : A -> M B) :
  preserves m -> (forall a, preserves (k a)) -> preserves (bind m k).
Proof.
  intros Hm Hk ss H. unfold bind. specialize (Hm ss H).
  destruct (m ss) as [ss' [a|e]]; cbn [fst] in *; [now apply Hk | exact Hm].
Qed.

Lemma preserves_try_except {A} (m : M A) (h : exn -> M A) :
  preserves m -> (forall e, preserves (h e)) -> preserves (try_except m h).
Proof.
  intros Hm Hh ss H. unfold try_except. specialize (Hm ss H).
  destruct (m ss) as [ss' [a|e]]; cbn [fst] in *; [exact Hm | now apply Hh].
Qed.

Lemma preserves_run {A} (m : M A) (s : Store) :
  preserves m -> consistent s = true -> consistent (fst (run_request m s)) = true.
Proof.
  intros Hm H. unfold run_request.
  destruct (Hm (mkSession s s) (conj H H)) as [H' _].
  destruct (m (mkSession s s)) as [ss r]. exact H'.
Qed.

(** The inserts that depend on the state they run in. *)

Lemma preserves_add_product (row : Z -> Product.t) :
  (forall pid, Product.id (row pid) = pid) -> preserves (Products.add_product row).
Proof.
  intros Hrow ss [H1 H2]. unfold Products.add_product. unfold_session.
  split; [exact H1 | now apply consistent_product_insert].
Qed.

Lemma preserves_add_all (rows : list (Z -> Tag.t)) : preserves (Tags.add_all rows).
Proof.
  intros ss [H1 H2]. unfold Tags.add_all. unfold_session.
  destruct (distinct _ && distinct _) eqn:E; cbn [fst committed pending];
    split; try assumption.
  apply andb_true_iff in E. destruct E as [E _].
  revert H2. unfold consistent, tags_consistent. cbn [with_tags tags products].
  rewrite !andb_true_iff. intros [[P _] R]. now repeat split.
Qed.

Lemma preserves_request_password_reset payload now token :
  preserves (Auth.request_password_reset payload now token).
Proof.
  intros ss [H1 H2]. unfold Auth.request_password_reset, Auth.add_password_reset_token.
  unfold_session.
  destruct (find _ (users (pending ss))) as [u|] eqn:F; [|now split].
  cbn [PasswordResetToken.token].
  destruct (mem_string token _) eqn:D; cbn [fst committed pending]; [now split|].
  apply find_some in F. destruct F as [Hu _].
  assert (consistent
            (with_password_reset_tokens
               (fun l => l ++ [PasswordResetToken.mk
                                 (next_id (map PasswordResetToken.id
                                             (password_reset_tokens (pending ss))))
                                 (User.id u) token (now + 3600)]) (pending ss)) = true)
    as K by now apply consistent_token_insert.
  now split.
Qed.

Ltac preserves_step :=
  match goal with
  | |- preserves (bind _ _) => apply preserves_bind; [|intros ?]
  | |- preserves (try_except _ _) => apply preserves_try_except; [|intros ?]
  | |- preserves (ret _) => apply preserves_ret
  | |- preserves (raise _) => apply preserves_raise
  | |- preserves (await _) => apply preserves_await
  | |- preserves (execute _) => apply preserves_execute
  | |- preserves commit => apply preserves_commit
  | |- preserves rollback => apply preserves_rollback
  | |- preserves (Products.add_product _) =>
      apply preserves_add_product; intros ?; reflexivity
  | |- preserves (Tags.add_all _) => apply preserves_add_all
  | |- preserves (write (with_users (map _))) =>
      apply preserves_write; intros ?; apply consistent_user_update; intros ?; reflexivity
  | |- preserves (write (with_users _)) =>
      apply preserves_write; intros ?; apply consistent_user_insert
  | |- preserves (write (with_products (map _))) =>
      apply preserves_write; intros ?; apply consistent_product_update;
      intros ?; reflexivity
  | |- preserves (write (with_tags (map _))) =>
      apply preserves_write; intros ?; apply consistent_tag_assign
  | |- preserves (write (with_password_reset_tokens (filter _))) =>
      apply preserves_write; intros ?; apply consistent_token_delete
  | |- preserves (write (with_batches _)) =>
      apply preserves_write; intros ? H; exact H
  | |- preserves (write (with_scans _)) =>
      apply preserves_write; intros ? H; exact H
  | |- preserves (if ?c then _ else _) => destruct c
  | |- preserves (match ?x with _ => _ end) => destruct x
  | |- preserves (let _ := _ in _) => cbv zeta
  end.

Ltac preserves_auto := repeat preserves_step.

Lemma preserves_set_if_given {A} (x : option A) (set : A -> Product.t -> Product.t) pid :
  (forall v p, Product.id (set v p) = Product.id p) ->
  preserves (Products.set_if_given x set pid).
Proof.
  intros Hset. unfold Products.set_if_given, Products.update_row.
  destruct x as [v|]; [|apply preserves_ret].
  apply preserves_write. intros s. apply consistent_product_update. apply Hset.
Qed.

(** Every request leaves a consistent database consistent. *)
Lemma serve_consistent (env : Collaborators) (r : request) (s : Store) :
  consistent s = true -> consistent (fst (serve env r s)) = true.
Proof.
  destruct r; cbn [serve answer fst]; apply preserves_run.
  - unfold Auth.register_user, Auth.add_user. preserves_auto.
  - apply preserves_request_password_reset.
  - unfold Auth.reset_password. preserves_auto.
  - unfold Products.list_products. preserves_auto.
  - unfold Products.get_product. preserves_auto.
  - unfold Products.create_product. preserves_auto.
  - unfold Products.update_product, Products.update_row.
    preserves_auto; apply preserves_set_if_given; intros; reflexivity.
  - unfold Products.delete_product. preserves_auto.
  - unfold Users.update_current_user_profile, Users.update_row, Users.refresh.
    preserves_auto.
  - unfold Users.update_user_role, Users.update_row, Users.refresh. preserves_auto.
  - unfold BulkMinter.bulk_mint_and_store, Tags.add_batch, Tags.update_batch.
    preserves_auto.
  - unfold Tags.mint_warehouse_tags, Tags.get_current_admin, Tags.add_batch,
      Tags.update_batch, Tags.refresh.
    preserves_auto.
  - unfold Tags.mint_direct_tags, Tags.get_current_admin, Tags.add_batch,
      Tags.update_batch, Tags.refresh.
    preserves_auto.
  - unfold Tags.assign_tags_to_product, Tags.select_unused. preserves_auto.
  - unfold Tags.verify_tag, Tags.add_scan. preserves_auto.
  - unfold Verify.verify_tag, Tags.add_scan. preserves_auto.
Qed.

(** So every database the service reaches from a consistent one (the empty
    one, say) satisfies the constraints the properties above assume. *)
Theorem reachable_consistent (env : Collaborators) (rs : list request) :
  forall s, consistent s = true -> consistent (serve_all env rs s) = true.
Proof.
  induction rs as [|r rs IH]; intros s H; cbn [serve_all fold_left]; [exact H|].
  apply IH. now apply serve_consistent.
Qed.

Corollary reachable_from_empty (env : Collaborators) (rs : list request) :
  consistent (serve_all env rs empty_store) = true.
Proof. now apply reachable_consistent. Qed.

End Constraints.

(* ========================================================================= *)
(** * Further properties of the handlers *)

(** ** Minting *)

Lemma map_fst_combine_same {A B} (l : list A) (l' : list B) :
  List.length l = List.length l' -> map fst (combine l l') = l.
Proof.
  revert l'. induction l as [|a r IH]; intros [|b r'] H; cbn in *;
    try reflexivity; try discriminate.
  f_equal. apply IH. now injection H.
Qed.

Lemma number_rows_column {B} (f : Tag.t -> B) (g : (Z -> Tag.t) -> B)
    (rows : list (Z -> Tag.t)) :
  (forall r tid, In r rows -> f (r tid) = g r) ->
  forall first, map f (Tags.number_rows first rows) = map g rows.
Proof.
  induction rows as [|r rs IH]; intros H first; cbn [Tags.number_rows map];
    [reflexivity|].
  rewrite (H r first (or_introl eq_refl)). f_equal. apply IH.
  intros r' tid Hr'. apply H. now right.
Qed.

Module MintingFacts.

(** The codes of the rows are the codes drawn, in order. *)
Lemma minted_rows_codes (uuid4 : nat -> string) (count : Z) tx status product_id
    bid now first :
  map Tag.tag_code (minted_rows uuid4 count tx status product_id bid now first)
  = Tags.draws uuid4 0 count.
Proof.
  unfold minted_rows.
  rewrite (number_rows_column Tag.tag_code (fun r => Tag.tag_code (r 0))).
  - rewrite map_map. cbn [Tag.tag_code].
    change (fun x : string * string => fst x) with (@fst string string).
    apply map_fst_combine_same. unfold Tags.draws. now rewrite !length_map, !length_seq.
  - intros r tid Hr. apply in_map_iff in Hr. now destruct Hr as [ct [<- _]].
Qed.

Lemma filter_all {A} (p : A -> bool) (l : list A) :
  Forall (fun x => p x = true) l -> filter p l = l.
Proof.
  induction 1 as [|x r Hx _ IH]; cbn [filter]; [reflexivity|]. now rewrite Hx, IH.
Qed.

Lemma filter_none {A} (p : A -> bool) (l : list A) :
  Forall (fun x => p x = false) l -> filter p l = [].
Proof.
  induction 1 as [|x r Hx _ IH]; cbn [filter]; [reflexivity|]. now rewrite Hx, IH.
Qed.

Lemma minted_rows_status (uuid4 : nat -> string) (count : Z) tx status product_id
    bid now first :
  Forall (fun g => (Tag.status g =? "unused")%string = (status =? "unused")%string)
         (minted_rows uuid4 count tx status product_id bid now first).
Proof.
  eapply Forall_impl; [|apply TagsSpec.minted_rows_shape].
  intros g [_ [-> _]]. reflexivity.
Qed.

(** The outcome of an accepted warehouse mint, in the form the compositions
    below use. *)
Lemma warehouse_mint_fills_pool_parts
    (uuid4 : nat -> string) (mint_warehouse_batch : list string -> result string)
    (request : TagGenerationRequest.t) (user : User.t) (now : Z) (s : Store)
    (tx : string) :
  let count := TagGenerationRequest.count request in
  let rows := minted_rows uuid4 count tx "unused" None
                          (next_id (map Batch.id (batches s))) now
                          (next_id (map Tag.id (tags s))) in
  let s1 := fst (run_request
                   (Tags.mint_warehouse_tags uuid4 mint_warehouse_batch request user now)
                   s) in
  User.role user = "admin" ->
  TagGenerationRequest.mint_type request = "warehouse" ->
  existsb (fun u => User.id u =? User.id user) (users s) = true ->
  mint_warehouse_batch (Tags.draws uuid4 0 count) = Return tx ->
  0 <= count ->
  rows_insertable s rows = true ->
  s1 = mkStore (users s) (products s)
               (batches s ++ [Batch.mk (next_id (map Batch.id (batches s))) None
                                       (User.id user) count "minted" "warehouse"
                                       (Some tx) now])
               (tags s ++ rows) (scans s) (password_reset_tokens s)
  /\ Z.of_nat (List.length rows) = count
  /\ unused s1 = unused s ++ rows.
Proof.
  intros count rows s1 R T U E Hc I. unfold s1.
  rewrite (TagsSpec.mint_warehouse_committed uuid4 mint_warehouse_batch request user
             now s tx R T U E I).
  cbn [fst]. fold count rows. split; [reflexivity|]. split.
  { unfold rows. rewrite TagsSpec.minted_rows_length. lia. }
  unfold unused. cbn [tags]. rewrite filter_app. f_equal.
  apply filter_all. exact (minted_rows_status uuid4 count tx "unused" None _ now _).
Qed.

(** X1. A warehouse mint that the chain accepts, for a non-negative count
    and codes that are new: the batch is committed with status "minted" and
    no product, together with [count] tags of that batch that carry the
    codes sent to the chain, status "unused" and no product; the pool of
    unused tags grows by exactly these rows. *)
Theorem warehouse_mint_fills_pool
    (uuid4 : nat -> string) (mint_warehouse_batch : list string -> result string)
    (request : TagGenerationRequest.t) (user : User.t) (now : Z) (s : Store)
    (tx : string) :
  let count := TagGenerationRequest.count request in
  let bid := next_id (map Batch.id (batches s)) in
  let rows := minted_rows uuid4 count tx "unused" None bid now
                          (next_id (map Tag.id (tags s))) in
  let out := run_request
               (Tags.mint_warehouse_tags uuid4 mint_warehouse_batch request user now) s in
  User.role user = "admin" ->
  TagGenerationRequest.mint_type request = "warehouse" ->
  existsb (fun u => User.id u =? User.id user) (users s) = true ->
  mint_warehouse_batch (Tags.draws uuid4 0 count) = Return tx ->
  0 <= count ->
  rows_insertable s rows = true ->
  snd out = Return (BatchResponse.mk bid None count "minted" "warehouse" (Some tx) now)
  /\ fst out
     = mkStore (users s) (products s)
               (batches s ++ [Batch.mk bid None (User.id user) count "minted"
                                       "warehouse" (Some tx) now])
               (tags s ++ rows) (scans s) (password_reset_tokens s)
  /\ Z.of_nat (List.length rows) = count
  /\ map Tag.tag_code rows = Tags.draws uuid4 0 count
  /\ Forall (fun g => Tag.batch_id g = bid /\ Tag.status g = "unused"
                      /\ Tag.product_id g = None) rows
  /\ unused (fst out) = unused s ++ rows.
Proof.
  intros count bid rows out R T U E Hc I.
  unfold out.
  rewrite (TagsSpec.mint_warehouse_committed uuid4 mint_warehouse_batch request user
             now s tx R T U E I).
  cbn [fst snd]. fold count bid rows.
  split; [reflexivity|]. split; [reflexivity|]. split.
  { unfold rows. rewrite TagsSpec.minted_rows_length. lia. }
  split; [apply minted_rows_codes|]. split; [apply TagsSpec.minted_rows_shape|].
  unfold unused. cbn [tags]. rewrite filter_app. f_equal.
  apply filter_all. exact (minted_rows_status uuid4 count tx "unused" None bid now _).
Qed.

Lemma warehouse_mint_fills_pool_witness :
  unused (fst (run_request
                 (Tags.mint_warehouse_tags Sample.uuid4 Sample.mint_ok
                    (TagGenerationRequest.mk None 2 "warehouse") Sample.root 50)
                 Sample.db))
  = unused Sample.db
    ++ minted_rows Sample.uuid4 2 "0xdef" "unused" None 2 50 4.
Proof.
  apply (warehouse_mint_fills_pool Sample.uuid4 Sample.mint_ok
           (TagGenerationRequest.mk None 2 "warehouse") Sample.root 50 Sample.db "0xdef");
    try reflexivity.
  cbn. lia.
Defined.

(** X2. A direct mint that the chain accepts: the batch is committed with
    status "minted" and the product, together with [count] tags of that
    batch, each "active" and linked to the product; none of them enters the
    pool of unused tags. *)
Theorem direct_mint_links_product
    (uuid4 : nat -> string) (mint_tags_in_bulk : list string -> option Z -> result string)
    (request : TagGenerationRequest.t) (user : User.t) (now : Z) (s : Store)
    (tx : string) (pid : Z) :
  let count := TagGenerationRequest.count request in
  let bid := next_id (map Batch.id (batches s)) in
  let rows := minted_rows uuid4 count tx "active" (Some pid) bid now
                          (next_id (map Tag.id (tags s))) in
  let out := run_request
               (Tags.mint_direct_tags uuid4 mint_tags_in_bulk request user now) s in
  User.role user = "admin" ->
  TagGenerationRequest.mint_type request = "direct" ->
  TagGenerationRequest.product_id request = Some pid -> pid <> 0 ->
  existsb (fun q => Product.id q =? pid) (products s) = true ->
  existsb (fun u => User.id u =? User.id user) (users s) = true ->
  mint_tags_in_bulk (Tags.draws uuid4 0 count) (Some pid) = Return tx ->
  0 <= count ->
  rows_insertable s rows = true ->
  snd out = Return (BatchResponse.mk bid (Some pid) count "minted" "direct" (Some tx) now)
  /\ fst out
     = mkStore (users s) (products s)
               (batches s ++ [Batch.mk bid (Some pid) (User.id user) count "minted"
                                       "direct" (Some tx) now])
               (tags s ++ rows) (scans s) (password_reset_tokens s)
  /\ Z.of_nat (List.length rows) = count
  /\ map Tag.tag_code rows = Tags.draws uuid4 0 count
  /\ Forall (fun g => Tag.batch_id g = bid /\ Tag.status g = "active"
                      /\ Tag.product_id g = Some pid) rows
  /\ unused (fst out) = unused s.
Proof.
  intros count bid rows out R T P N Q U E Hc I.
  unfold out.
  rewrite (TagsSpec.mint_direct_committed uuid4 mint_tags_in_bulk request user
             now s tx pid R T P N Q U E I).
  cbn [fst snd]. fold count bid rows.
  split; [reflexivity|]. split; [reflexivity|]. split.
  { unfold rows. rewrite TagsSpec.minted_rows_length. lia. }
  split; [apply minted_rows_codes|]. split; [apply TagsSpec.minted_rows_shape|].
  unfold unused. cbn [tags]. rewrite filter_app.
  rewrite (filter_none _ rows); [apply app_nil_r|].
  exact (minted_rows_status uuid4 count tx "active" (Some pid) bid now _).
Qed.

Lemma direct_mint_links_product_witness :
  unused (fst (run_request
                 (Tags.mint_direct_tags Sample.uuid4 Sample.mint_direct_ok
                    (TagGenerationRequest.mk (Some 1) 2 "direct") Sample.root 50)
                 Sample.db))
  = unused Sample.db.
Proof.
  apply (direct_mint_links_product Sample.uuid4 Sample.mint_direct_ok
           (TagGenerationRequest.mk (Some 1) 2 "direct") Sample.root 50 Sample.db
           "0xfed" 1);
    try reflexivity; cbn; lia.
Defined.

(** X3. What the mint endpoints refuse, before anything is written: a caller
    who is not an administrator gets 403 whatever the body; an administrator
    gets 400 from the warehouse endpoint for any other [mint_type], and from
    the direct endpoint for any other [mint_type] or a [product_id] that is
    missing or 0. *)
Theorem mint_requests_refused
    (uuid4 : nat -> string) (mint_warehouse_batch : list string -> result string)
    (mint_tags_in_bulk : list string -> option Z -> result string)
    (request : TagGenerationRequest.t) (user : User.t) (now : Z) (s : Store) :
  let warehouse := run_request
                     (Tags.mint_warehouse_tags uuid4 mint_warehouse_batch request user now)
                     s in
  let direct := run_request
                  (Tags.mint_direct_tags uuid4 mint_tags_in_bulk request user now) s in
  (User.role user <> "admin" ->
     warehouse = (s, Raise (HTTPException 403 "Admins only."))
     /\ direct = (s, Raise (HTTPException 403 "Admins only.")))
  /\ (User.role user = "admin" ->
      TagGenerationRequest.mint_type request <> "warehouse" ->
      warehouse
      = (s, Raise (HTTPException 400 "mint_type must be 'warehouse' for this endpoint.")))
  /\ (User.role user = "admin" ->
      TagGenerationRequest.mint_type request <> "direct"
      \/ TagGenerationRequest.product_id request = None
      \/ TagGenerationRequest.product_id request = Some 0 ->
      direct
      = (s, Raise (HTTPException 400
                     "mint_type must be 'direct' and product_id is required."))).
Proof.
  intros warehouse direct. split; [|split].
  - intros R. apply String.eqb_neq in R.
    unfold warehouse, direct, Tags.mint_warehouse_tags, Tags.mint_direct_tags,
      Tags.get_current_admin.
    rewrite R. now split.
  - intros R T. apply String.eqb_neq in T.
    unfold warehouse, Tags.mint_warehouse_tags, Tags.get_current_admin.
    rewrite R, String.eqb_refl. cbn [negb]. unfold_session. now rewrite T.
  - intros R H.
    unfold direct, Tags.mint_direct_tags, Tags.get_current_admin.
    rewrite R, String.eqb_refl. cbn [negb]. unfold_session.
    destruct H as [T|[P|P]].
    + apply String.eqb_neq in T. now rewrite T.
    + rewrite P. cbn [Tags.falsy]. now rewrite orb_true_r.
    + rewrite P. cbn [Tags.falsy Z.eqb]. now rewrite orb_true_r.
Qed.

End MintingFacts.

(** ** Assignment *)

Lemma find_map_same_key {A} (p : A -> bool) (f : A -> A) (l : list A) :
  (forall x, p (f x) = p x) ->
  find p (map f l) = option_map f (find p l).
Proof.
  intros H. induction l as [|x r IH]; [reflexivity|]. cbn [map find].
  rewrite H. destruct (p x); [reflexivity | exact IH].
Qed.



Module AssignmentFacts.

Lemma store_eta (s : Store) :
  mkStore (users s) (products s) (batches s) (tags s) (scans s)
          (password_reset_tokens s) = s.
Proof. now destruct s. Qed.

Lemma assign_nothing (pid : Z) (l : list Tag.t) : map (assign pid []) l = l.
Proof.
  rewrite <- (map_id l) at 2. apply map_ext. intros g. reflexivity.
Qed.

(** X4. What the assignment refuses, and its empty case, for a product id
    in the range of a query parameter.  A caller whose role is not
    "manufacturer" (an administrator too) gets 403.  A manufacturer gets 404
    when no product with the id is theirs: the answer does not tell a
    product of someone else from one that does not exist.  Both leave the
    store unchanged.  A request for 0 tags succeeds, assigns nothing and
    changes nothing. *)
Theorem assign_refusals_and_empty_request
    (product_id count : Z) (current_user : User.t) (s : Store) :
  int32 product_id ->
  let out := run_request (Tags.assign_tags_to_product product_id count current_user) s in
  (User.role current_user <> "manufacturer" ->
     out = (s, Raise (HTTPException 403 "Only manufacturers can generate tags.")))
  /\ (User.role current_user = "manufacturer" ->
      (forall p, In p (products s) -> Product.id p = product_id ->
                 Product.manufacturer_id p <> Some (User.id current_user)) ->
      out = (s, Raise (HTTPException 404
                         "Product not found or not owned by manufacturer.")))
  /\ (forall product,
        User.role current_user = "manufacturer" ->
        find (Products.owned_by product_id current_user) (products s) = Some product ->
        count = 0 ->
        out = (s, Return (BatchAssignmentResponse.mk
                            ("Successfully assigned 0 tags to product '"
                             ++ Product.name product ++ "' (ID: "
                             ++ str_of_int product_id ++ ").")%string []))).
Proof.
  intros _ out. split; [|split].
  - intros R. apply String.eqb_neq in R.
    unfold out, Tags.assign_tags_to_product. now rewrite R.
  - intros R H.
    assert (find (Products.owned_by product_id current_user) (products s) = None) as F.
    { destruct (find _ (products s)) as [p|] eqn:E; [|reflexivity].
      apply find_some in E. destruct E as [Hin Ho]. unfold Products.owned_by in Ho.
      apply andb_true_iff in Ho. destruct Ho as [Hid Hm]. apply Z.eqb_eq in Hid.
      exfalso. apply (H p Hin Hid).
      destruct (Product.manufacturer_id p) as [m|]; [|discriminate].
      cbn in Hm. apply Z.eqb_eq in Hm. now subst. }
    unfold out, Tags.assign_tags_to_product.
    rewrite R, String.eqb_refl. cbn [negb]. unfold_session. now rewrite F.
  - intros product R F ->. unfold out.
    rewrite (TagsSpec.assign_tags_enough product_id 0 current_user s product R F)
      by (split; lia).
    cbn [Z.to_nat firstn List.length Z.of_nat map].
    unfold with_tags. rewrite assign_nothing, store_eta. reflexivity.
Qed.

(** On the sample database, where no product has the id 7. *)
Lemma assign_refusals_and_empty_request_witness :
  run_request (Tags.assign_tags_to_product 7 1 Sample.alice) Sample.db
  = (Sample.db,
     Raise (HTTPException 404 "Product not found or not owned by manufacturer.")).
Proof.
  refine (proj1 (proj2 (assign_refusals_and_empty_request 7 1 Sample.alice Sample.db _))
                eq_refl _).
  - unfold int32. lia.
  - intros p [<-|[]]. discriminate.
Defined.

(** X5. Tags minted into the warehouse can be assigned at once: after a
    successful warehouse mint of [count] tags, a manufacturer who asks for
    [n] tags, with [n] at most the earlier pool plus [count], gets the first
    [n] codes of the earlier pool followed by the new rows. *)
Theorem minted_tags_are_assignable
    (uuid4 : nat -> string) (mint_warehouse_batch : list string -> result string)
    (request : TagGenerationRequest.t) (user : User.t) (now : Z) (s : Store)
    (tx : string) (product_id n : Z) (current_user : User.t) (product : Product.t) :
  let count := TagGenerationRequest.count request in
  let rows := minted_rows uuid4 count tx "unused" None
                          (next_id (map Batch.id (batches s))) now
                          (next_id (map Tag.id (tags s))) in
  let s1 := fst (run_request
                   (Tags.mint_warehouse_tags uuid4 mint_warehouse_batch request user now)
                   s) in
  User.role user = "admin" ->
  TagGenerationRequest.mint_type request = "warehouse" ->
  existsb (fun u => User.id u =? User.id user) (users s) = true ->
  mint_warehouse_batch (Tags.draws uuid4 0 count) = Return tx ->
  0 <= count ->
  rows_insertable s rows = true ->
  User.role current_user = "manufacturer" ->
  find (Products.owned_by product_id current_user) (products s) = Some product ->
  0 <= n <= Z.of_nat (List.length (unused s)) + count ->
  exists message,
    snd (run_request (Tags.assign_tags_to_product product_id n current_user) s1)
    = Return (BatchAssignmentResponse.mk message
                (map Tag.tag_code (firstn (Z.to_nat n) (unused s ++ rows)))).
Proof.
  intros count rows s1 R T U E Hc I Rm F Hn.
  destruct (MintingFacts.warehouse_mint_fills_pool_parts uuid4 mint_warehouse_batch
              request user now s tx R T U E Hc I) as [Hs1 [Hlen Hpool]].
  fold s1 in Hs1, Hpool. fold rows in Hlen, Hpool.
  assert (find (Products.owned_by product_id current_user) (products s1) = Some product)
    as F1 by (rewrite Hs1; exact F).
  rewrite (TagsSpec.assign_tags_enough product_id n current_user s1 product Rm F1).
  - rewrite Hpool. cbn [snd]. now eexists.
  - rewrite Hpool, length_app. lia.
Qed.

Lemma minted_tags_are_assignable_witness :
  exists message,
    snd (run_request (Tags.assign_tags_to_product 1 3 Sample.alice)
           (fst (run_request
                   (Tags.mint_warehouse_tags Sample.uuid4 Sample.mint_ok
                      (TagGenerationRequest.mk None 2 "warehouse") Sample.root 50)
                   Sample.db)))
    = Return (BatchAssignmentResponse.mk message ["code-1"; "code-2"; "uuid-0"]).
Proof.
  apply (minted_tags_are_assignable Sample.uuid4 Sample.mint_ok
           (TagGenerationRequest.mk None 2 "warehouse") Sample.root 50 Sample.db
           "0xdef" 1 3 Sample.alice Sample.lamp);
    try reflexivity; cbn; lia.
Defined.



End AssignmentFacts.

(** ** Products *)

Module ProductFacts.

Lemma owned_by_set_status (id : Z) (u : User.t) (st : string) (p : Product.t) :
  Products.owned_by id u (Product.set_status st p) = Products.owned_by id u p.
Proof. reflexivity. Qed.

(** X7. Deleting is idempotent, for an id in the range of a query
    parameter: a second identical DELETE gives the same answer and leaves
    the database as the first one left it (it does not turn into 404).  A
    DELETE by a manufacturer who owns no product with the id answers 404 and
    changes nothing, whether the id belongs to someone else or to nobody. *)
Theorem delete_product_idempotent (id : Z) (current_user : User.t) (s : Store) :
  int32 id ->
  let once := run_request (Products.delete_product id current_user) s in
  run_request (Products.delete_product id current_user) (fst once) = once
  /\ (Products.is_manufacturer current_user = true ->
      (forall p, In p (products s) -> Product.id p = id ->
                 Product.manufacturer_id p <> Some (User.id current_user)) ->
      once = (s, Raise (HTTPException 404 "Product not found or not owned"))).
Proof.
  intros _ once. split.
  - unfold once.
    destruct (Products.is_manufacturer current_user) eqn:R.
    + destruct (find (Products.owned_by id current_user) (products s)) as [p|] eqn:F.
      * rewrite (ProductsSpec.delete_product_found id current_user s p R F). cbn [fst].
        set (upd := fun q => if Product.id q =? Product.id p
                             then Product.set_status "inactive" q else q).
        assert (find (Products.owned_by id current_user)
                     (products (with_products (map upd) s)) = Some (upd p)) as F'.
        { cbn [with_products products]. rewrite find_map_same_key; [now rewrite F|].
          intros x. unfold upd. now destruct (Product.id x =? Product.id p). }
        rewrite (ProductsSpec.delete_product_found id current_user _ (upd p) R F').
        f_equal. unfold with_products. cbn [users products batches tags scans
                                             password_reset_tokens].
        f_equal. rewrite map_map. apply map_ext. intros x. unfold upd.
        rewrite Z.eqb_refl.
        destruct (Product.id x =? Product.id p) eqn:E;
          cbn [Product.set_status Product.id]; rewrite E; reflexivity.
      * assert (run_request (Products.delete_product id current_user) s
                = (s, Raise (HTTPException 404 "Product not found or not owned"))) as E.
        { unfold Products.delete_product. rewrite R. cbn [negb]. unfold_session.
          now rewrite F. }
        rewrite E. cbn [fst]. exact E.
    + unfold Products.delete_product. rewrite R. reflexivity.
  - intros R H. unfold once, Products.delete_product. rewrite R. cbn [negb].
    unfold_session.
    destruct (find (Products.owned_by id current_user) (products s)) as [p|] eqn:F;
      [|reflexivity].
    apply find_some in F. destruct F as [Hin Ho]. unfold Products.owned_by in Ho.
    apply andb_true_iff in Ho. destruct Ho as [Hid Hm]. apply Z.eqb_eq in Hid.
    exfalso. apply (H p Hin Hid).
    destruct (Product.manufacturer_id p) as [m|]; [|discriminate].
    cbn in Hm. apply Z.eqb_eq in Hm. now subst.
Qed.

(** On the sample database: the lamp is inactive after one DELETE and after
    two, and no product has the id 7. *)
Lemma delete_product_idempotent_witness :
  map (fun p => (Product.id p, Product.status p))
      (products
         (fst (run_request (Products.delete_product 1 Sample.alice)
                 (fst (run_request (Products.delete_product 1 Sample.alice)
                                   Sample.db)))))
  = [(1, "inactive")]
  /\ run_request (Products.delete_product 7 Sample.alice) Sample.db
     = (Sample.db, Raise (HTTPException 404 "Product not found or not owned")).
Proof.
  split.
  - refine (f_equal (fun out => map (fun p => (Product.id p, Product.status p))
                                    (products (fst out)))
              (proj1 (delete_product_idempotent 1 Sample.alice Sample.db _))).
    unfold int32. lia.
  - refine (proj2 (delete_product_idempotent 7 Sample.alice Sample.db _) eq_refl _).
    + unfold int32. lia.
    + intros p [<-|[]]. discriminate.
Defined.

(** X8. Products are private to their manufacturer.  Whatever GET
    /products/{id} or GET /products returns to a caller is a stored product
    whose [manufacturer_id] is the caller's id; a product of someone else is
    never in the answer.  Both requests leave the database unchanged. *)
Theorem products_are_private
    (id : Z) (status category : option string) (current_user : User.t) (s : Store) :
  let one := run_request (Products.get_product id current_user) s in
  let many := run_request (Products.list_products status category current_user) s in
  fst one = s /\ fst many = s
  /\ (forall resp, snd one = Return resp ->
        exists p, In p (products s) /\ resp = ProductResponse.from_orm p
                  /\ Product.id p = id
                  /\ Product.manufacturer_id p = Some (User.id current_user))
  /\ (forall rows, snd many = Return rows ->
        forall resp, In resp rows ->
          exists p, In p (products s) /\ resp = ProductResponse.from_orm p
                    /\ Product.manufacturer_id p = Some (User.id current_user)).
Proof.
  intros one many.
  assert (forall p, opt_eqb (Product.manufacturer_id p) (User.id current_user) = true ->
                    Product.manufacturer_id p = Some (User.id current_user)) as Hown.
  { intros p H. destruct (Product.manufacturer_id p) as [m|]; [|discriminate].
    cbn in H. apply Z.eqb_eq in H. now subst. }
  unfold one, many, Products.get_product, Products.list_products.
  destruct (Products.is_manufacturer current_user); cbn [negb]; unfold_session.
  - destruct (find (Products.owned_by id current_user) (products s)) as [p|] eqn:F;
      cbn [fst snd].
    + repeat split; try reflexivity.
      * intros resp E. injection E as <-. exists p.
        apply find_some in F. destruct F as [Hin Ho]. unfold Products.owned_by in Ho.
        apply andb_true_iff in Ho. destruct Ho as [Hid Hm]. apply Z.eqb_eq in Hid.
        repeat split; try assumption. now apply Hown.
      * intros rows E resp Hr. injection E as <-. apply in_map_iff in Hr.
        destruct Hr as [q [<- Hq]]. apply filter_In in Hq. destruct Hq as [Hq Hf].
        rewrite !andb_true_iff in Hf. exists q. repeat split; try assumption.
        apply Hown. tauto.
    + repeat split; try reflexivity; try discriminate.
      intros rows E resp Hr. injection E as <-. apply in_map_iff in Hr.
      destruct Hr as [q [<- Hq]]. apply filter_In in Hq. destruct Hq as [Hq Hf].
      rewrite !andb_true_iff in Hf. exists q. repeat split; try assumption.
      apply Hown. tauto.
  - repeat split; try reflexivity; discriminate.
Qed.

Lemma map_other_rows (k : Z) (f : Product.t -> Product.t) (l : list Product.t) :
  (forall q, In q l -> Product.id q <> k) ->
  map (fun q => if Product.id q =? k then f q else q) l = l.
Proof.
  intros H. rewrite <- (map_id l) at 2. apply map_ext_in. intros q Hq.
  destruct (Z.eqb_spec (Product.id q) k) as [E|_]; [now apply H in E | reflexivity].
Qed.

(** In the model, an accepted update rewrites the row where it is. *)
Lemma update_product_in_place
    (uuid4 : nat -> string) (parse_raw : string -> result string)
    (id : Z) (name description category meta_data parsed : option string)
    (image : option Products.UploadFile) (current_user : User.t) (s : Store)
    (p : Product.t) :
  let p' := updated_product name description category parsed
              (option_map (fun i => ("/static/" ++ Products.image_filename uuid4 i)%string)
                          image) p in
  products_consistent s = true ->
  Products.is_manufacturer current_user = true ->
  In p (products s) ->
  Product.id p = id ->
  Product.manufacturer_id p = Some (User.id current_user) ->
  image_accepted image ->
  parsed_as parse_raw meta_data parsed ->
  (exists before after,
      products s = before ++ p :: after
      /\ run_request
           (Products.update_product uuid4 parse_raw id name description category
              meta_data image current_user) s
         = (with_products (fun _ => before ++ p' :: after) s,
            Return (ProductResponse.from_orm p')))
  /\ Product.id p' = Product.id p
  /\ Product.manufacturer_id p' = Product.manufacturer_id p
  /\ Product.status p' = Product.status p
  /\ Product.created_at p' = Product.created_at p.
Proof.
  intros p' WF R Hin Hid Hown Himg Hmeta.
  split.
  2:{ unfold p', updated_product, opt_set.
      destruct parsed, category, description, name, image; repeat split. }
  destruct s as [us ps bs gs cs rs]. cbn [products] in *.
  unfold products_consistent in WF. cbn [products] in WF. apply distinctZ_NoDup in WF.
  destruct (update_by_key Product.id (fun q => q) _ _ WF Hin)
    as [before [after [Hsplit [_ [Hb Ha]]]]].
  exists before, after. split; [exact Hsplit|]. subst ps.
  assert (find (Products.owned_by id current_user) (before ++ p :: after) = Some p) as F.
  { apply find_skip.
    - intros q Hq. unfold Products.owned_by.
      destruct (Z.eqb_spec (Product.id q) id) as [E|_]; [|reflexivity].
      exfalso. apply (Hb q Hq). congruence.
    - unfold Products.owned_by. rewrite Hid, Z.eqb_refl, Hown. cbn. apply Z.eqb_refl. }
  assert (forall f, (forall q, Product.id (f q) = Product.id q) ->
            forall x, map (fun q => if Product.id q =? Product.id p then f q else q)
                          (before ++ x :: after)
                      = before ++ (if Product.id x =? Product.id p then f x else x) :: after)
    as Hmap.
  { intros f Hf x. rewrite map_app. cbn [map].
    now rewrite (map_other_rows _ f before Hb), (map_other_rows _ f after Ha). }
  assert (forall x, Product.id x = Product.id p ->
            find (fun q => Product.id q =? Product.id p) (before ++ x :: after) = Some x)
    as Hfind.
  { intros x Hx. apply find_skip; [|now rewrite Hx, Z.eqb_refl].
    intros q Hq. apply Z.eqb_neq. now apply Hb. }
  unfold Products.update_product, Products.set_if_given, Products.update_row.
  rewrite R. cbn [negb]. unfold_session. cbn [products]. rewrite F.
  cbn [committed pending].
  unfold with_products. cbn [committed pending products users batches tags scans
                             password_reset_tokens].
  unfold p', updated_product, opt_set, parsed_as, image_accepted in *.
  destruct image as [img|]; cbn [option_map];
    [rewrite Himg; cbn [negb committed pending products]|];
    (destruct meta_data as [raw|], parsed as [m|]; try contradiction;
     [rewrite Hmeta|]);
    destruct name as [n|], description as [d|], category as [c|];
    cbn [committed pending products users batches tags scans password_reset_tokens];
    repeat (rewrite Hmap by (intros; reflexivity); rewrite Z.eqb_refl);
    rewrite Hfind by reflexivity; reflexivity.
Qed.

(** X9. An update without metadata by the owner, for an id in the range of
    the column, with an upload (if any) of an allowed type, on a table with
    unique ids.  The answer shows the
    product as it is stored afterwards: with each of name, description and
    category replaced if it was given and as it was if not, with the URL of
    the new image if a file was uploaded and the old URL if not, and with
    its metadata, id, owner, status and creation time as they were.  Every
    other product is there as it was, and no further one; the other tables
    are as they were. *)
Theorem update_product_changes_given_fields
    (uuid4 : nat -> string) (parse_raw : string -> result string)
    (id : Z) (name description category : option string)
    (image : option Products.UploadFile) (current_user : User.t) (s : Store)
    (p : Product.t) :
  let out := run_request
               (Products.update_product uuid4 parse_raw id name description category
                  None image current_user) s in
  int32 id ->
  products_consistent s = true ->
  Products.is_manufacturer current_user = true ->
  In p (products s) ->
  Product.id p = id ->
  Product.manufacturer_id p = Some (User.id current_user) ->
  image_accepted image ->
  exists p',
    snd out = Return (ProductResponse.from_orm p')
    /\ In p' (products (fst out))
    /\ Product.name p' = match name with Some n => n | None => Product.name p end
    /\ Product.description p'
       = match description with Some d => Some d | None => Product.description p end
    /\ Product.category p'
       = match category with Some c => c | None => Product.category p end
    /\ Product.image_url p'
       = match image with
         | Some i => ("/static/" ++ Products.image_filename uuid4 i)%string
         | None => Product.image_url p
         end
    /\ Product.meta_data p' = Product.meta_data p
    /\ Product.id p' = Product.id p
    /\ Product.manufacturer_id p' = Product.manufacturer_id p
    /\ Product.status p' = Product.status p
    /\ Product.created_at p' = Product.created_at p
    /\ (forall q, In q (products s) -> q <> p -> In q (products (fst out)))
    /\ (forall q, In q (products (fst out)) -> q = p' \/ (In q (products s) /\ q <> p))
    /\ List.length (products (fst out)) = List.length (products s)
    /\ users (fst out) = users s /\ batches (fst out) = batches s
    /\ tags (fst out) = tags s /\ scans (fst out) = scans s
    /\ password_reset_tokens (fst out) = password_reset_tokens s.
Proof.
  intros out _ WF R Hin Hid Hown Himg.
  destruct (update_product_in_place uuid4 parse_raw id name description category None None
              image current_user s p WF R Hin Hid Hown Himg I)
    as [[before [after [Hsplit Hrun]]] _].
  fold out in Hrun.
  set (p' := updated_product name description category None
               (option_map (fun i => ("/static/" ++ Products.image_filename uuid4 i)%string)
                           image) p) in *.
  assert (forall q, In q (before ++ after) -> q <> p) as Hother.
  { unfold products_consistent in WF. apply distinctZ_NoDup in WF.
    rewrite Hsplit, map_app in WF. cbn [map] in WF. apply NoDup_remove_2 in WF.
    intros q Hq ->. apply WF. rewrite <- map_app. now apply in_map. }
  exists p'. rewrite Hrun.
  cbn [fst snd with_products products users batches tags scans password_reset_tokens].
  split; [reflexivity|]. split; [apply in_or_app; right; now left|].
  unfold p', updated_product, opt_set.
  split; [now destruct category, description, name, image|].
  split; [now destruct category, description, name, image|].
  split; [now destruct category, description, name, image|].
  split; [now destruct category, description, name, image|].
  split; [now destruct category, description, name, image|].
  split; [now destruct category, description, name, image|].
  split; [now destruct category, description, name, image|].
  split; [now destruct category, description, name, image|].
  split; [now destruct category, description, name, image|].
  split.
  { intros q Hq Hne. rewrite Hsplit in Hq. apply in_app_or in Hq.
    apply in_or_app. destruct Hq as [Hq|[Hq|Hq]].
    - now left.
    - now destruct Hne.
    - right. now right. }
  split.
  { intros q Hq. apply in_app_or in Hq. destruct Hq as [Hq|[Hq|Hq]].
    - right. split; [rewrite Hsplit; apply in_or_app; now left|].
      apply Hother. apply in_or_app. now left.
    - now left.
    - right. split; [rewrite Hsplit; apply in_or_app; right; now right|].
      apply Hother. apply in_or_app. now right. }
  split; [rewrite Hsplit, !length_app; reflexivity|]. now repeat split.
Qed.

(** On the sample database the owner renames the lamp and uploads a new
    image. *)
Lemma update_product_changes_given_fields_witness :
  exists p',
    snd (run_request
           (Products.update_product Sample.uuid4 (fun raw => Return raw) 1
              (Some "Desk lamp") None None None
              (Some (Products.mkUploadFile "lamp.v2.jpeg" "image/jpeg")) Sample.alice)
           Sample.db)
    = Return (ProductResponse.from_orm p')
    /\ Product.name p' = "Desk lamp" /\ Product.description p' = None
    /\ Product.category p' = "home" /\ Product.image_url p' = "/static/uuid-0.jpeg"
    /\ Product.meta_data p' = None /\ Product.id p' = 1
    /\ Product.manufacturer_id p' = Some 1 /\ Product.status p' = "active"
    /\ Product.created_at p' = 20.
Proof.
  destruct (update_product_changes_given_fields Sample.uuid4 (fun raw => Return raw) 1
              (Some "Desk lamp") None None
              (Some (Products.mkUploadFile "lamp.v2.jpeg" "image/jpeg"))
              Sample.alice Sample.db Sample.lamp
              ltac:(unfold int32; lia)
              eq_refl eq_refl (or_introl eq_refl) eq_refl eq_refl eq_refl)
    as [p' [H0 [_ [H1 [H2 [H3 [H4 [H5 [H6 [H7 [H8 [H9 _]]]]]]]]]]]].
  exists p'. now repeat split.
Defined.

End ProductFacts.

(** ** Creating products, failed updates, image names *)

Lemma find_last_row {A} (f : A -> bool) (l : list A) (x : A) :
  (forall q, In q l -> f q = false) -> f x = true -> find f (l ++ [x]) = Some x.
Proof. intros H Hx. now apply find_skip. Qed.

Lemma filter_last_row {A} (f : A -> bool) (l : list A) (x : A) :
  f x = true -> filter f (l ++ [x]) = filter f l ++ [x].
Proof. intros Hx. rewrite filter_app. cbn [filter]. now rewrite Hx. Qed.

Lemma fresh_key {A} (key : A -> Z) (l : list A) (q : A) :
  In q l -> (key q =? next_id (map key l)) = false.
Proof.
  intros Hq. apply Z.eqb_neq.
  pose proof (next_id_above (map key l) (key q) (in_map key l q Hq)). lia.
Qed.

Module CreationFacts.

(** X10. A product that was created can be read back.  For a manufacturer,
    an image of an allowed type and a metadata field that is absent or
    empty, POST /products answers with a product that has the fields sent,
    the caller as owner, no metadata, the URL of the stored image, status
    "active", and an id no product had; the products table then holds this
    product besides the ones it held, and the other tables are as they
    were.  GET /products/{id} with the new id then answers with the same
    product, and GET /products lists it besides what it listed before.  A
    metadata field that does not parse is answered with 400 and nothing is
    stored. *)
Theorem created_product_is_readable
    (uuid4 : nat -> string) (parse_raw : string -> result string)
    (name : string) (description : option string) (category : string)
    (meta_data : option string) (image : Products.UploadFile)
    (current_user : User.t) (now : Z) (s : Store) :
  Products.is_manufacturer current_user = true ->
  Products.allowed_image image = true ->
  let out := run_request
               (Products.create_product uuid4 parse_raw name description category
                  meta_data image current_user now) s in
  (meta_data = None \/ meta_data = Some "" ->
   exists p,
     snd out = Return (ProductResponse.from_orm p)
     /\ Product.name p = name /\ Product.description p = description
     /\ Product.manufacturer_id p = Some (User.id current_user)
     /\ Product.category p = category /\ Product.meta_data p = None
     /\ Product.image_url p = ("/static/" ++ Products.image_filename uuid4 image)%string
     /\ Product.status p = "active" /\ Product.created_at p = now
     /\ (forall q, In q (products s) -> Product.id q <> Product.id p)
     /\ (forall q, In q (products (fst out)) <-> In q (products s) \/ q = p)
     /\ users (fst out) = users s /\ batches (fst out) = batches s
     /\ tags (fst out) = tags s /\ scans (fst out) = scans s
     /\ password_reset_tokens (fst out) = password_reset_tokens s
     /\ run_request (Products.get_product (Product.id p) current_user) (fst out)
        = (fst out, Return (ProductResponse.from_orm p))
     /\ (exists rows rows',
           snd (run_request (Products.list_products None None current_user) s)
           = Return rows
           /\ snd (run_request (Products.list_products None None current_user) (fst out))
              = Return rows'
           /\ forall r, In r rows' <-> In r rows \/ r = ProductResponse.from_orm p))
  /\ (forall raw e,
        meta_data = Some raw -> raw <> "" -> parse_raw raw = Raise e ->
        out = (s, Raise (HTTPException 400 ("Invalid product data: " ++ str e)%string))).
Proof.
  intros R Himg out. split.
  - intros Hmeta.
    set (p := Product.mk (next_id (map Product.id (products s))) name description
                         (Some (User.id current_user)) category None
                         ("/static/" ++ Products.image_filename uuid4 image)%string
                         "active" now).
    assert (out = (with_products (fun l => l ++ [p]) s,
                   Return (ProductResponse.from_orm p))) as Hout.
    { unfold out, Products.create_product, Products.add_product.
      rewrite R, Himg. cbn [negb]. destruct Hmeta as [->| ->]; reflexivity. }
    assert (Products.owned_by (Product.id p) current_user p = true) as Hp.
    { unfold Products.owned_by. cbn. now rewrite !Z.eqb_refl. }
    exists p. rewrite Hout.
    cbn [fst snd with_products products users batches tags scans password_reset_tokens].
    split; [reflexivity|]. do 8 (split; [reflexivity|]).
    split.
    { intros q Hq. apply Z.eqb_neq. cbn [p Product.id]. now apply fresh_key. }
    split.
    { intros q. rewrite in_app_iff. cbn [In]. split.
      - intros [H|[H|[]]]; [now left | right; now symmetry].
      - intros [H| ->]; [now left | right; now left]. }
    do 5 (split; [reflexivity|]).
    split.
    { apply ProductsSpec.get_product_found; [exact R|].
      cbn [with_products products]. apply find_last_row; [|exact Hp].
      intros q Hq. unfold Products.owned_by. cbn [p Product.id].
      now rewrite (fresh_key Product.id _ q Hq). }
    rewrite !(ProductsSpec.list_products_rows None None current_user _ R).
    cbn [snd with_products products].
    eexists. eexists. split; [reflexivity|]. split; [reflexivity|]. intros r.
    rewrite filter_last_row, map_app, in_app_iff.
    2:{ cbn. now rewrite Z.eqb_refl. }
    cbn [map In]. split.
    + intros [H|[H|[]]]; [now left | right; now symmetry].
    + intros [H| ->]; [now left | right; now left].
  - intros raw e -> Hraw P. apply String.eqb_neq in Hraw.
    unfold out, Products.create_product. rewrite R, Himg. cbn [negb].
    rewrite Hraw. unfold_session. rewrite P. reflexivity.
Qed.

(** On the sample database the first account creates a kettle and reads it
    back. *)
Lemma created_product_is_readable_witness :
  exists p,
    snd (run_request
           (Products.create_product Sample.uuid4 (fun raw => Return raw) "Kettle" None
              "home" None (Products.mkUploadFile "kettle.front.png" "image/png")
              Sample.alice 21) Sample.db)
    = Return (ProductResponse.from_orm p)
    /\ Product.name p = "Kettle" /\ Product.description p = None
    /\ Product.manufacturer_id p = Some 1 /\ Product.category p = "home"
    /\ Product.meta_data p = None /\ Product.image_url p = "/static/uuid-0.png"
    /\ Product.status p = "active" /\ Product.created_at p = 21
    /\ snd (run_request (Products.get_product (Product.id p) Sample.alice)
                        (fst (run_request
                                (Products.create_product Sample.uuid4
                                   (fun raw => Return raw) "Kettle" None "home" None
                                   (Products.mkUploadFile "kettle.front.png" "image/png")
                                   Sample.alice 21) Sample.db)))
       = Return (ProductResponse.from_orm p).
Proof.
  destruct (proj1 (created_product_is_readable Sample.uuid4 (fun raw => Return raw)
                     "Kettle" None "home" None
                     (Products.mkUploadFile "kettle.front.png" "image/png")
                     Sample.alice 21 Sample.db eq_refl eq_refl) (or_introl eq_refl))
    as [p [H0 [H1 [H2 [H3 [H4 [H5 [H6 [H7 [H8 [_ [_ [_ [_ [_ [_ [_ [Hget _]]]]]]]]]]]]]]]]]].
  exists p. repeat (split; [assumption|]). now rewrite Hget.
Defined.

End CreationFacts.

Lemma find_updated_row (k : Z) (f : Product.t -> Product.t) (l : list Product.t) :
  (forall x, Product.id (f x) = Product.id x) ->
  find (fun x => Product.id x =? k)
       (map (fun x => if Product.id x =? k then f x else x) l)
  = option_map (fun x => if Product.id x =? k then f x else x)
               (find (fun x => Product.id x =? k) l).
Proof.
  intros Hf. apply find_map_same_key. intros x.
  destruct (Product.id x =? k) eqn:E; [now rewrite Hf | exact E].
Qed.

Module UpdateFacts.

(** X11. An update that does not answer with the product leaves the database
    as it was.  In particular, for the owner of the product: an upload of a
    type that is not allowed is answered with 400 whatever else was sent;
    and metadata that does not parse makes the request fail with the
    parser's own exception (it is not turned into a 400, as on creation),
    with nothing stored, not even the URL of an image that was accepted just
    before. *)
Theorem failed_update_writes_nothing
    (uuid4 : nat -> string) (parse_raw : string -> result string)
    (id : Z) (name description category meta_data : option string)
    (image : option Products.UploadFile) (current_user : User.t) (s : Store) :
  let out := run_request
               (Products.update_product uuid4 parse_raw id name description category
                  meta_data image current_user) s in
  (fst out = s \/ exists resp, snd out = Return resp)
  /\ (forall p,
        Products.is_manufacturer current_user = true ->
        find (Products.owned_by id current_user) (products s) = Some p ->
        (forall i, image = Some i -> Products.allowed_image i = false ->
           out = (s, Raise (HTTPException 400 "Only PNG or JPEG images allowed")))
        /\ (forall raw e, image_accepted image -> meta_data = Some raw ->
              parse_raw raw = Raise e -> out = (s, Raise e))).
Proof.
  intros out. split.
  - unfold out, Products.update_product, Products.set_if_given, Products.update_row.
    destruct (Products.is_manufacturer current_user); cbn [negb]; [|now left].
    unfold_session.
    destruct (find (Products.owned_by id current_user) (products s)) as [p|] eqn:F;
      [|now left].
    assert (exists q, find (fun x => Product.id x =? Product.id p) (products s) = Some q)
      as [q Hq].
    { apply find_In_pred. exists p. split; [apply (find_some _ _ F) | apply Z.eqb_refl]. }
    destruct image as [i|];
      [destruct (Products.allowed_image i); cbn [negb]; [|now left]|];
      (destruct meta_data as [raw|];
       [destruct (parse_raw raw) as [m|e]; [|now left]|]);
      destruct name, description, category;
      cbn [committed pending fst snd with_products products];
      repeat (rewrite find_updated_row by reflexivity);
      rewrite Hq; right; eexists; reflexivity.
  - intros p R F. unfold out, Products.update_product. rewrite R. cbn [negb].
    unfold_session. rewrite F. split.
    + intros i -> Hi. rewrite Hi. reflexivity.
    + intros raw e Himg -> P. unfold image_accepted in Himg.
      destruct image as [i|]; [rewrite Himg|]; cbn [negb]; unfold Products.update_row;
        unfold_session; rewrite P; reflexivity.
Qed.

End UpdateFacts.

(** ** The name of a stored image *)

Lemma no_dot_app (a b : string) :
  no_dot (a ++ b)%string = no_dot a && no_dot b.
Proof.
  induction a as [|c a IH]; [reflexivity|]. cbn [String.append no_dot].
  now rewrite IH, andb_assoc.
Qed.

Lemma last_segment_plain (s : string) :
  no_dot s = true -> forall current, Products.last_segment s current = (current ++ s)%string.
Proof.
  induction s as [|c s IH]; intros H current; cbn [Products.last_segment].
  - clear H. induction current as [|d r IHr]; [reflexivity|]. cbn. now rewrite <- IHr.
  - cbn [no_dot] in H. apply andb_true_iff in H. destruct H as [Hc Hs].
    apply negb_true_iff in Hc. rewrite Hc, (IH Hs).
    clear. induction current as [|d r IHr]; [reflexivity|]. cbn. now rewrite IHr.
Qed.

Lemma last_segment_no_dot (s : string) :
  forall current, no_dot current = true -> no_dot (Products.last_segment s current) = true.
Proof.
  induction s as [|c s IH]; intros current H; cbn [Products.last_segment]; [exact H|].
  destruct (Ascii.eqb c ".") eqn:E.
  - now apply IH.
  - apply IH. rewrite no_dot_app, H. cbn. now rewrite E.
Qed.

Lemma last_segment_after_dot (base ext : string) :
  no_dot ext = true ->
  forall current, Products.last_segment (base ++ String "." ext) current = ext.
Proof.
  intros H. induction base as [|c base IH]; intros current;
    cbn [String.append Products.last_segment].
  - rewrite Ascii.eqb_refl. now rewrite (last_segment_plain ext H "").
  - destruct (Ascii.eqb c "."); apply IH.
Qed.

Module ImageFacts.

(** X12. The extension of a stored image is the text after the last dot of
    the uploaded file's name: it never contains a dot, and a name without
    any dot is taken whole as the extension.  So the name of the stored file
    is the drawn identifier, a dot, and that text. *)
Theorem image_extension_is_after_last_dot
    (uuid4 : nat -> string) (content_type base ext : string) :
  no_dot ext = true ->
  Products.image_filename uuid4 (Products.mkUploadFile (base ++ "." ++ ext) content_type)
  = (uuid4 0%nat ++ "." ++ ext)%string
  /\ Products.image_filename uuid4 (Products.mkUploadFile ext content_type)
     = (uuid4 0%nat ++ "." ++ ext)%string
  /\ forall filename, no_dot (Products.last_segment filename "") = true.
Proof.
  intros H. unfold Products.image_filename. cbn [Products.filename].
  split; [|split].
  - do 2 f_equal. now apply last_segment_after_dot.
  - do 2 f_equal. now rewrite (last_segment_plain ext H "").
  - intros filename. now apply last_segment_no_dot.
Qed.

Lemma image_extension_is_after_last_dot_witness :
  Products.image_filename Sample.uuid4 (Products.mkUploadFile "kettle.front.png" "image/png")
  = "uuid-0.png".
Proof.
  exact (proj1 (image_extension_is_after_last_dot Sample.uuid4 "image/png"
                  "kettle.front" "png" eq_refl)).
Defined.

End ImageFacts.

(** ** Accounts: login, tokens and password reset *)

Lemma find_none_app {A} (f : A -> bool) (l : list A) (x : A) :
  find f l = None -> f x = true -> find f (l ++ [x]) = Some x.
Proof.
  intros H Hx. apply find_last_row; [|exact Hx].
  intros q Hq. apply (find_none f l H q Hq).
Qed.

Module AccountFacts.

(** X13. Login never writes, and its failures look alike: when no account
    with the given email accepts the password, whether because there is no
    such account or because the password is wrong, the answer is the same
    401 "Invalid credentials".  A token is only issued for a stored account
    with that email whose password verifies, and carries that account's
    id. *)
Theorem login_failures_look_alike
    (verify_password : string -> string -> bool) (EXPIRE_MINUTES : Z)
    (encode : OAuth2.payload -> string)
    (form_data : OAuth2PasswordRequestForm.t) (now : Z) (s : Store) :
  let out := run_request (Login.login_user verify_password EXPIRE_MINUTES encode
                            form_data now) s in
  fst out = s
  /\ ((forall u, In u (users s) ->
                 User.email u = OAuth2PasswordRequestForm.username form_data ->
                 verify_password (OAuth2PasswordRequestForm.password form_data)
                                 (User.password u) = false) ->
      snd out = Raise (HTTPException 401 "Invalid credentials"))
  /\ (forall token, snd out = Return token ->
        Token.token_type token = "bearer"
        /\ exists u, In u (users s)
             /\ User.email u = OAuth2PasswordRequestForm.username form_data
             /\ verify_password (OAuth2PasswordRequestForm.password form_data)
                                (User.password u) = true
             /\ Token.access_token token
                = OAuth2.create_access_token EXPIRE_MINUTES encode
                    [("user_id", OAuth2.Int (User.id u))] now).
Proof.
  intros out. unfold out, Login.login_user. unfold_session.
  destruct (find (fun u => (User.email u =? OAuth2PasswordRequestForm.username form_data)%string)
                 (users s)) as [u|] eqn:F; cbn [fst snd].
  - apply find_some in F. destruct F as [Hin He]. apply String.eqb_eq in He.
    destruct (verify_password (OAuth2PasswordRequestForm.password form_data)
                              (User.password u)) eqn:V; cbn [negb fst snd].
    + split; [reflexivity|]. split.
      * intros H. rewrite (H u Hin He) in V. discriminate.
      * intros token [= <-]. split; [reflexivity|]. exists u. now repeat split.
    + split; [reflexivity|]. split; [reflexivity | discriminate].
  - split; [reflexivity|]. split; [reflexivity | discriminate].
Qed.

(** X14. Registration, login and the token fit together.  After a
    registration with an email that was free, a login with the same email
    and password (which verifies against its own hash) answers with a bearer
    token for the new account; while that token decodes to the payload it
    was made of, the current-user dependency (its cached function, on a
    cache miss) resolves it to the stored account, and the admin dependency
    refuses it with 403, the role being "manufacturer". *)
Theorem registered_user_can_log_in
    (hash_password : string -> string) (verify_password : string -> string -> bool)
    (EXPIRE_MINUTES : Z) (encode : OAuth2.payload -> string)
    (decode : string -> Z -> option OAuth2.payload)
    (user_in : UserCreate.t) (now t t' : Z) (s : Store) :
  let u := User.mk (next_id (map User.id (users s))) (UserCreate.email user_in)
                   (hash_password (UserCreate.password user_in)) "manufacturer"
                   (UserCreate.name user_in) now in
  let s1 := with_users (fun l => l ++ [u]) s in
  let data := [("user_id", OAuth2.Int (User.id u))] in
  let token := OAuth2.create_access_token EXPIRE_MINUTES encode data t in
  find (fun v => (User.email v =? UserCreate.email user_in)%string) (users s) = None ->
  verify_password (UserCreate.password user_in)
                  (hash_password (UserCreate.password user_in)) = true ->
  decode token t' = Some (OAuth2.update "exp" (OAuth2.Int (t + 60 * EXPIRE_MINUTES)) data) ->
  run_request (Auth.register_user hash_password user_in now) s
  = (s1, Return (UserResponse.from_orm u))
  /\ run_request
       (Login.login_user verify_password EXPIRE_MINUTES encode
          (OAuth2PasswordRequestForm.mk (UserCreate.email user_in)
                                        (UserCreate.password user_in)) t) s1
     = (s1, Return (Token.mk token "bearer"))
  /\ run_request (OAuth2.get_current_user decode token t') s1 = (s1, Return u)
  /\ run_request (OAuth2.get_current_admin decode token t') s1
     = (s1, Raise (HTTPException 403 "Admins only.")).
Proof.
  intros u s1 data token F V D.
  assert (find (fun v => User.id v =? User.id u) (users s1) = Some u) as Fid.
  { cbn [s1 with_users users]. apply find_last_row; [|apply Z.eqb_refl].
    intros q Hq. cbn [u User.id]. now apply fresh_key. }
  assert (run_request (OAuth2.get_current_user decode token t') s1 = (s1, Return u)) as G.
  { assert (OAuth2.get "user_id"
              (OAuth2.update "exp" (OAuth2.Int (t + 60 * EXPIRE_MINUTES)) data)
            = Some (OAuth2.Int (User.id u))) as Hget by reflexivity.
    unfold OAuth2.get_current_user. rewrite D, Hget. unfold_session.
    now rewrite Fid. }
  split; [now apply AuthSpec.register_user_fresh|]. split; [|split].
  - unfold Login.login_user. unfold_session.
    cbn [s1 with_users users OAuth2PasswordRequestForm.username
         OAuth2PasswordRequestForm.password].
    rewrite (find_none_app _ _ u F) by apply String.eqb_refl.
    cbn [u User.password]. now rewrite V.
  - exact G.
  - unfold OAuth2.get_current_admin. unfold run_request in *. unfold bind.
    destruct (OAuth2.get_current_user decode token t' {| committed := s1; pending := s1 |})
      as [ss r] eqn:E. injection G as Hc Hr. subst r.
    change (User.role u =? "admin")%string with false. cbn [negb]. unfold raise.
    now rewrite Hc.
Qed.

Lemma registered_user_can_log_in_witness :
  run_request
    (OAuth2.get_current_user
       (fun token _ => if (token =? "jwt")%string
                       then Some [("user_id", OAuth2.Int 3); ("exp", OAuth2.Int 1820)]
                       else None)
       "jwt" 50)
    (with_users (fun l => l ++ [scenario_manufacturer]) Sample.db)
  = (with_users (fun l => l ++ [scenario_manufacturer]) Sample.db,
     Return scenario_manufacturer).
Proof.
  exact (proj1 (proj2 (proj2
           (registered_user_can_log_in Sample.hash
              (fun p h => (h =? Sample.hash p)%string) 30 (fun _ => "jwt")
              (fun token _ => if (token =? "jwt")%string
                              then Some [("user_id", OAuth2.Int 3); ("exp", OAuth2.Int 1820)]
                              else None)
              (UserCreate.mk "carol@example.com" (Some "Carol") "admin" "pw") 10 20 50
              Sample.db eq_refl eq_refl eq_refl)))).
Defined.

(** X15. A password reset goes through, and login follows.  For a stored
    account and a token value that no row holds yet: the token requested at
    [now] is accepted up to and including [now + 3600] and refused with 400
    after; once accepted, the row of the token is gone, and a login with
    the account's email and the new password (which verifies against its
    own hash) answers with a bearer token for that account. *)
Theorem password_reset_round_trip
    (hash_password : string -> string) (verify_password : string -> string -> bool)
    (EXPIRE_MINUTES : Z) (encode : OAuth2.payload -> string)
    (email token new_password : string) (now t t' : Z) (s : Store) (u : User.t) :
  let s1 := fst (run_request
                   (Auth.request_password_reset (PasswordResetRequest.mk email) now token)
                   s) in
  let reset := run_request
                 (Auth.reset_password hash_password
                    (PasswordReset.mk token new_password) t) s1 in
  find (fun v => (User.email v =? email)%string) (users s) = Some u ->
  token_is_fresh token s = true ->
  verify_password new_password (hash_password new_password) = true ->
  (now + 3600 < t -> reset = (s1, Raise (HTTPException 400 "Invalid or expired token")))
  /\ (t <= now + 3600 ->
        snd reset = Return (mkDetail "Password reset successfully")
        /\ password_reset_tokens (fst reset) = password_reset_tokens s
        /\ run_request
             (Login.login_user verify_password EXPIRE_MINUTES encode
                (OAuth2PasswordRequestForm.mk email new_password) t') (fst reset)
           = (fst reset,
              Return (Token.mk (OAuth2.create_access_token EXPIRE_MINUTES encode
                                  [("user_id", OAuth2.Int (User.id u))] t')
                               "bearer"))).
Proof.
  intros s1 reset F Hfresh V.
  set (r := PasswordResetToken.mk
              (next_id (map PasswordResetToken.id (password_reset_tokens s)))
              (User.id u) token (now + 3600)).
  assert (s1 = with_password_reset_tokens (fun l => l ++ [r]) s) as E1.
  { unfold s1.
    now rewrite (AuthSpec.request_password_reset_known (PasswordResetRequest.mk email)
                   now token s u F Hfresh). }
  assert (find (fun x => (PasswordResetToken.token x =? token)%string)
               (password_reset_tokens s1) = Some r) as Ft.
  { rewrite E1. cbn [with_password_reset_tokens password_reset_tokens].
    apply find_last_row; [|apply String.eqb_refl].
    intros q Hq. apply String.eqb_neq. intros Eq.
    unfold token_is_fresh in Hfresh. apply negb_true_iff, mem_string_false in Hfresh.
    apply Hfresh. rewrite <- Eq. now apply in_map. }
  split.
  - intros Hlate. unfold reset.
    apply (AuthSpec.reset_password_expired hash_password
             (PasswordReset.mk token new_password) t s1 r Ft).
    cbn [r PasswordResetToken.expires_at]. exact Hlate.
  - intros Hin_time.
    destruct (find_In_pred (fun v => User.id v =? User.id u) (users s)) as [u0 F0].
    { exists u. split; [apply (find_some _ _ F) | apply Z.eqb_refl]. }
    assert (User.id u0 = User.id u) as Hid.
    { apply find_some in F0. now apply Z.eqb_eq. }
    assert (find (fun v => User.id v =? PasswordResetToken.user_id r) (users s1) = Some u0)
      as Fu.
    { rewrite E1. exact F0. }
    unfold reset.
    rewrite (AuthSpec.reset_password_accepted hash_password
               (PasswordReset.mk token new_password) t s1 r u0 Ft Hin_time Fu).
    cbn [fst snd password_reset_tokens PasswordReset.new_password].
    split; [reflexivity|]. split.
    + rewrite E1. cbn [with_password_reset_tokens password_reset_tokens].
      rewrite filter_app. cbn [filter r PasswordResetToken.id].
      rewrite Z.eqb_refl. cbn [negb]. rewrite app_nil_r.
      apply MintingFacts.filter_all. apply Forall_forall. intros q Hq.
      apply negb_true_iff. now apply fresh_key.
    + unfold Login.login_user. unfold_session.
      cbn [users OAuth2PasswordRequestForm.username OAuth2PasswordRequestForm.password].
      rewrite find_map_same_key.
      2:{ intros x. now destruct (User.id x =? User.id u0). }
      rewrite E1. cbn [with_password_reset_tokens users]. rewrite F. cbn [option_map].
      rewrite Hid, Z.eqb_refl. cbn [User.set_password User.password User.id].
      now rewrite V.
Qed.

Lemma password_reset_round_trip_witness :
  run_request
    (Auth.reset_password Sample.hash (PasswordReset.mk "fresh-token" "new-secret") 3701)
    (fst (run_request
            (Auth.request_password_reset
               (PasswordResetRequest.mk "alice@example.com") 100 "fresh-token")
            Sample.db))
  = (fst (run_request
            (Auth.request_password_reset
               (PasswordResetRequest.mk "alice@example.com") 100 "fresh-token")
            Sample.db),
     Raise (HTTPException 400 "Invalid or expired token")).
Proof.
  refine (proj1 (password_reset_round_trip Sample.hash
                   (fun p h => (h =? Sample.hash p)%string) 30 (fun _ => "jwt")
                   "alice@example.com" "fresh-token" "new-secret" 100 3701 3800
                   Sample.db Sample.alice eq_refl eq_refl eq_refl) _).
  lia.
Defined.

(** X16. Only a stored admin passes the admin dependency, when the cache
    that [get_current_user] is called through holds no answer for the call.
    Whatever the token, [get_current_admin] then leaves the database
    unchanged; what it returns is a stored account with role "admin" whose
    id is the [user_id] of the decoded payload; a token that does not decode
    is answered with 401, and so is one without an integer [user_id] or
    whose account does not exist. *)
Theorem current_admin_is_a_stored_admin
    (decode : string -> Z -> option OAuth2.payload) (token : string) (now : Z)
    (s : Store) :
  let out := run_request (OAuth2.get_current_admin decode token now) s in
  fst out = s
  /\ (forall u, snd out = Return u ->
        In u (users s) /\ User.role u = "admin"
        /\ exists payload, decode token now = Some payload
             /\ OAuth2.get "user_id" payload = Some (OAuth2.Int (User.id u)))
  /\ ((forall payload user_id,
         decode token now = Some payload ->
         OAuth2.get "user_id" payload = Some (OAuth2.Int user_id) ->
         forall u, In u (users s) -> User.id u <> user_id) ->
      snd out = Raise (HTTPException 401 "Could not validate credentials")).
Proof.
  intros out. unfold out, OAuth2.get_current_admin, OAuth2.get_current_user,
    OAuth2.credentials_exception.
  destruct (decode token now) as [payload|] eqn:D; unfold_session; cbn [fst snd];
    [|split; [reflexivity | split; [discriminate | intros _; reflexivity]]].
  destruct (OAuth2.get "user_id" payload) as [[user_id|]|] eqn:G; cbn [fst snd];
    try (split; [reflexivity | split; [discriminate | intros _; reflexivity]]).
  change (pending {| committed := s; pending := s |}) with s.
  destruct (find (fun u => User.id u =? user_id) (users s)) as [u|] eqn:F; cbn [fst snd];
    [|split; [reflexivity | split; [discriminate | intros _; reflexivity]]].
  apply find_some in F. destruct F as [Hin Hid]. apply Z.eqb_eq in Hid.
  destruct (User.role u =? "admin")%string eqn:R; cbn [negb fst snd].
  - split; [reflexivity|]. split.
    + intros v [= <-]. apply String.eqb_eq in R. repeat split; try assumption.
      exists payload. now subst.
    + intros H. exfalso. now apply (H payload user_id eq_refl G u Hin).
  - split; [reflexivity|]. split; [discriminate|].
    intros H. exfalso. now apply (H payload user_id eq_refl G u Hin).
Qed.

End AccountFacts.

(** ** Role updates *)

Module UserFacts.

(** X17. What PUT /users/{id}/role answers, for an id in the range of a
    query parameter, in the order of its checks: 403 for a caller who is not
    an admin, whatever else was sent; then 400 for a role other than
    "manufacturer" and "admin"; then 404 when no account has the id; each of
    them without writing.  Otherwise the answer shows the account with the
    new role; the account with that id is then stored with the new role and
    with its id, email, password, name and creation time as they were; every
    other account is there as it was, and no further one; the other tables
    are as they were.  Nothing keeps an admin from changing their own
    role. *)
Theorem role_update_outcomes
    (id : Z) (role_update : RoleUpdate.t) (current_user : User.t) (s : Store) :
  int32 id ->
  let out := run_request (Users.update_user_role id role_update current_user) s in
  let role := RoleUpdate.role role_update in
  (User.role current_user <> "admin" ->
   out = (s, Raise (HTTPException 403 "Only admins can update roles")))
  /\ (User.role current_user = "admin" ->
      (role <> "manufacturer" -> role <> "admin" ->
       out = (s, Raise (HTTPException 400 "Invalid role")))
      /\ (role = "manufacturer" \/ role = "admin" ->
          ((forall u, In u (users s) -> User.id u <> id) ->
           out = (s, Raise (HTTPException 404 "User not found")))
          /\ (forall user,
                find (fun u => User.id u =? id) (users s) = Some user ->
                snd out = Return (UserResponse.mk (User.email user) (User.name user) role
                                                  id (User.created_at user))
                /\ (forall u, In u (users s) -> User.id u = id ->
                      exists u', In u' (users (fst out))
                                 /\ User.role u' = role
                                 /\ User.id u' = User.id u
                                 /\ User.email u' = User.email u
                                 /\ User.password u' = User.password u
                                 /\ User.name u' = User.name u
                                 /\ User.created_at u' = User.created_at u)
                /\ (forall u, In u (users s) -> User.id u <> id ->
                      In u (users (fst out)))
                /\ (forall u', In u' (users (fst out)) ->
                      (In u' (users s) /\ User.id u' <> id)
                      \/ (User.id u' = id /\ User.role u' = role))
                /\ List.length (users (fst out)) = List.length (users s)
                /\ products (fst out) = products s /\ batches (fst out) = batches s
                /\ tags (fst out) = tags s /\ scans (fst out) = scans s
                /\ password_reset_tokens (fst out) = password_reset_tokens s))).
Proof.
  intros _ out role. unfold out, Users.update_user_role, Users.update_row, Users.refresh.
  fold role. split.
  - intros N. apply String.eqb_neq in N. now rewrite N.
  - intros ->. rewrite String.eqb_refl. cbn [negb]. split.
    + intros N1 N2. unfold mem_string. cbn [existsb].
      apply String.eqb_neq in N1, N2. rewrite String.eqb_sym in N1, N2.
      rewrite String.eqb_sym, N1, String.eqb_sym, N2. reflexivity.
    + intros Hrole.
      assert (mem_string role ["manufacturer"; "admin"] = true) as ->.
      { apply mem_string_In. cbn. destruct Hrole as [->| ->]; tauto. }
      cbn [negb]. unfold_session. split.
      * intros Hnone.
        destruct (find (fun u => User.id u =? id) (users s)) as [user|] eqn:F;
          [|reflexivity].
        apply find_some in F. destruct F as [Hin Hid]. apply Z.eqb_eq in Hid.
        now destruct (Hnone user Hin).
      * intros user F. rewrite F.
        assert (User.id user = id) as Hid.
        { apply find_some in F. now apply Z.eqb_eq. }
        cbn [committed pending with_users users products batches tags scans
             password_reset_tokens].
        rewrite Hid. rewrite find_map_same_key.
        2:{ intros x. now destruct (User.id x =? id) eqn:E; cbn [User.set_role User.id];
                        rewrite ?E. }
        rewrite F. cbn [option_map]. rewrite Hid, Z.eqb_refl.
        cbn [fst snd users products batches tags scans password_reset_tokens].
        split.
        { unfold UserResponse.from_orm.
          cbn [User.set_role User.email User.name User.role User.id User.created_at].
          now rewrite Hid. }
        split.
        { intros u Hu Hu_id. exists (User.set_role role u). split.
          - apply in_map_iff. exists u. split; [|assumption].
            now rewrite Hu_id, Z.eqb_refl.
          - now repeat split. }
        split.
        { intros u Hu Hu_id. apply in_map_iff. exists u. split; [|assumption].
          apply Z.eqb_neq in Hu_id. now rewrite Hu_id. }
        split.
        { intros u' Hu'. apply in_map_iff in Hu'. destruct Hu' as [u [<- Hu]].
          destruct (Z.eqb_spec (User.id u) id) as [E|E].
          - right. now split.
          - left. now split. }
        split; [apply length_map|]. now repeat split.
Qed.

(** On the sample database the administrator makes the first account an
    admin. *)
Lemma role_update_outcomes_witness :
  snd (run_request (Users.update_user_role 1 (RoleUpdate.mk "admin") Sample.root)
                   Sample.db)
  = Return (UserResponse.mk "alice@example.com" (Some "Alice") "admin" 1 10)
  /\ exists u',
       In u' (users (fst (run_request
                            (Users.update_user_role 1 (RoleUpdate.mk "admin") Sample.root)
                            Sample.db)))
       /\ User.role u' = "admin" /\ User.id u' = 1
       /\ User.email u' = "alice@example.com"
       /\ User.password u' = "bcrypt$secret"
       /\ User.name u' = Some "Alice" /\ User.created_at u' = 10.
Proof.
  assert (int32 1) as H by (unfold int32; lia).
  destruct (proj2 (proj2 (proj2 (role_update_outcomes 1 (RoleUpdate.mk "admin")
                                   Sample.root Sample.db H) eq_refl)
                         (or_intror eq_refl))
                  Sample.alice eq_refl) as [Hresp [Hset _]].
  split; [exact Hresp|].
  exact (Hset Sample.alice (or_introl eq_refl) eq_refl).
Defined.

End UserFacts.

(** ** Minting is all or nothing *)

Module AtomicityFacts.

(** X18. A mint request is all or nothing.  Whatever the caller, the body
    and the answer of the chain, POST /tags/mint/warehouse either fails and
    leaves the database as it was, or the chain returned a transaction hash
    and exactly one batch, with status "minted" and that hash, and all of
    its tags were committed together.  No batch is ever stored as "pending"
    or "failed", and none without its tags.  The same holds for POST
    /tags/mint/direct. *)
Theorem minting_is_all_or_nothing
    (uuid4 : nat -> string) (mint_warehouse_batch : list string -> result string)
    (mint_tags_in_bulk : list string -> option Z -> result string)
    (request : TagGenerationRequest.t) (user : User.t) (now : Z) (s : Store) :
  let count := TagGenerationRequest.count request in
  let codes := Tags.draws uuid4 0 count in
  let bid := next_id (map Batch.id (batches s)) in
  let first := next_id (map Tag.id (tags s)) in
  let warehouse := run_request
                     (Tags.mint_warehouse_tags uuid4 mint_warehouse_batch request user now)
                     s in
  let direct := run_request
                  (Tags.mint_direct_tags uuid4 mint_tags_in_bulk request user now) s in
  ((fst warehouse = s /\ exists e, snd warehouse = Raise e)
   \/ exists tx,
        mint_warehouse_batch codes = Return tx
        /\ warehouse
           = (mkStore (users s) (products s)
                (batches s ++ [Batch.mk bid None (User.id user) count "minted"
                                        "warehouse" (Some tx) now])
                (tags s ++ minted_rows uuid4 count tx "unused" None bid now first)
                (scans s) (password_reset_tokens s),
              Return (BatchResponse.from_orm
                        (Batch.mk bid None (User.id user) count "minted" "warehouse"
                                  (Some tx) now))))
  /\ ((fst direct = s /\ exists e, snd direct = Raise e)
      \/ exists tx pid,
           TagGenerationRequest.product_id request = Some pid
           /\ mint_tags_in_bulk codes (Some pid) = Return tx
           /\ direct
              = (mkStore (users s) (products s)
                   (batches s ++ [Batch.mk bid (Some pid) (User.id user) count "minted"
                                           "direct" (Some tx) now])
                   (tags s ++ minted_rows uuid4 count tx "active" (Some pid) bid now first)
                   (scans s) (password_reset_tokens s),
                 Return (BatchResponse.from_orm
                           (Batch.mk bid (Some pid) (User.id user) count "minted" "direct"
                                     (Some tx) now)))).
Proof.
  intros count codes bid first warehouse direct. subst codes. split.
  - destruct (User.role user =? "admin")%string eqn:R.
    2:{ left. unfold warehouse, Tags.mint_warehouse_tags, Tags.get_current_admin.
        rewrite R. cbn [negb]. unfold_session. split; [reflexivity | eexists; reflexivity]. }
    destruct (TagGenerationRequest.mint_type request =? "warehouse")%string eqn:T.
    2:{ left. unfold warehouse, Tags.mint_warehouse_tags, Tags.get_current_admin.
        rewrite R, T. cbn [negb]. unfold_session.
        split; [reflexivity | eexists; reflexivity]. }
    destruct (existsb (fun u => User.id u =? User.id user) (users s)) eqn:U.
    2:{ left. unfold warehouse, Tags.mint_warehouse_tags, Tags.get_current_admin,
          Tags.add_batch.
        rewrite R, T. cbn [negb]. unfold_session.
        cbn [Batch.product_id Batch.manufacturer_id andb]. rewrite U.
        split; [reflexivity | eexists; reflexivity]. }
    apply String.eqb_eq in R, T.
    destruct (mint_warehouse_batch (Tags.draws uuid4 0 count)) as [tx|e] eqn:E.
    2:{ left.
        destruct (TagsSpec.mint_warehouse_failure_rolls_back uuid4 mint_warehouse_batch
                    request user now s e R T E) as [H1 H2].
        fold warehouse in H1, H2. split; [exact H1|].
        destruct (snd warehouse) as [resp|e']; [discriminate | now exists e']. }
    destruct (rows_insertable s (minted_rows uuid4 count tx "unused" None bid now first))
      eqn:I.
    + right. exists tx. split; [reflexivity|].
      now apply TagsSpec.mint_warehouse_committed.
    + left. unfold warehouse, Tags.mint_warehouse_tags, Tags.get_current_admin,
        Tags.add_batch, Tags.update_batch, Tags.add_all.
      rewrite R, T, !String.eqb_refl. cbn [negb]. unfold_session.
      cbn [Batch.product_id Batch.manufacturer_id andb]. rewrite U.
      cbn [committed pending Batch.id]. fold count. rewrite E.
      cbn [committed pending Batch.id with_batches batches tags].
      fold bid first.
      fold (minted_rows uuid4 count tx "unused" None bid now first).
      unfold rows_insertable in I. rewrite I.
      split; [reflexivity | eexists; reflexivity].
  - destruct (User.role user =? "admin")%string eqn:R.
    2:{ left. unfold direct, Tags.mint_direct_tags, Tags.get_current_admin.
        rewrite R. cbn [negb]. unfold_session. split; [reflexivity | eexists; reflexivity]. }
    destruct (TagGenerationRequest.mint_type request =? "direct")%string eqn:T.
    2:{ left. unfold direct, Tags.mint_direct_tags, Tags.get_current_admin.
        rewrite R, T. cbn [negb orb]. unfold_session.
        split; [reflexivity | eexists; reflexivity]. }
    destruct (TagGenerationRequest.product_id request) as [pid|] eqn:P.
    2:{ left. unfold direct, Tags.mint_direct_tags, Tags.get_current_admin.
        rewrite R, T, P. cbn [negb orb Tags.falsy]. unfold_session.
        split; [reflexivity | eexists; reflexivity]. }
    destruct (Z.eqb_spec pid 0) as [Z0|N0].
    { left. unfold direct, Tags.mint_direct_tags, Tags.get_current_admin.
      rewrite R, T, P, Z0. cbn [negb orb Tags.falsy Z.eqb]. unfold_session.
      split; [reflexivity | eexists; reflexivity]. }
    destruct (existsb (fun q => Product.id q =? pid) (products s)
              && existsb (fun u => User.id u =? User.id user) (users s)) eqn:U.
    2:{ left. unfold direct, Tags.mint_direct_tags, Tags.get_current_admin,
          Tags.add_batch.
        rewrite R, T, P. cbn [negb orb Tags.falsy].
        destruct (Z.eqb_spec pid 0) as [?|_]; [contradiction|]. unfold_session.
        cbn [Batch.product_id Batch.manufacturer_id]. rewrite U.
        split; [reflexivity | eexists; reflexivity]. }
    apply andb_true_iff in U. destruct U as [Q U].
    apply String.eqb_eq in R, T.
    destruct (mint_tags_in_bulk (Tags.draws uuid4 0 count) (Some pid)) as [tx|e] eqn:E.
    2:{ left. rewrite <- P in E.
        destruct (TagsSpec.mint_direct_failure_rolls_back uuid4 mint_tags_in_bulk
                    request user now s e R E) as [H1 [c [H2 H3]]].
        fold direct in H1, H2. split; [exact H1|].
        destruct (snd direct) as [resp|e']; [|now exists e'].
        cbn in H2. subst c. destruct H3; discriminate. }
    destruct (rows_insertable s (minted_rows uuid4 count tx "active" (Some pid) bid now
                                             first)) eqn:I.
    + right. exists tx, pid. split; [reflexivity|]. split; [exact E|].
      now apply TagsSpec.mint_direct_committed.
    + left. unfold direct, Tags.mint_direct_tags, Tags.get_current_admin,
        Tags.add_batch, Tags.update_batch, Tags.add_all.
      rewrite R, T, P, !String.eqb_refl. cbn [negb orb Tags.falsy].
      destruct (Z.eqb_spec pid 0) as [?|_]; [contradiction|]. unfold_session.
      cbn [Batch.product_id Batch.manufacturer_id]. rewrite Q, U. cbn [andb].
      cbn [committed pending Batch.id]. fold count. rewrite E.
      cbn [committed pending Batch.id with_batches batches tags].
      fold bid first.
      fold (minted_rows uuid4 count tx "active" (Some pid) bid now first).
      unfold rows_insertable in I. rewrite I.
      split; [reflexivity | eexists; reflexivity].
Qed.

(** X19. The minting script is all or nothing as well.  It either fails and
    leaves the database as it was, or stores one "minted" warehouse batch
    with the transaction hash and all of its tags, "unused" and without a
    product.  When the chain service raises, the script re-raises that very
    exception.  The second argument the chain service is called with is the
    id of the new batch. *)
Theorem bulk_mint_is_all_or_nothing
    (uuid4 : nat -> string) (mint_tags_in_bulk : list string -> option Z -> result string)
    (count manufacturer_id now : Z) (s : Store) :
  let bid := next_id (map Batch.id (batches s)) in
  let first := next_id (map Tag.id (tags s)) in
  let chain := mint_tags_in_bulk (Tags.draws uuid4 0 count) (Some bid) in
  let out := run_request
               (BulkMinter.bulk_mint_and_store uuid4 mint_tags_in_bulk count
                  manufacturer_id now) s in
  ((fst out = s /\ exists e, snd out = Raise e)
   \/ exists tx,
        chain = Return tx
        /\ out
           = (mkStore (users s) (products s)
                (batches s ++ [Batch.mk bid None manufacturer_id count "minted"
                                        "warehouse" (Some tx) now])
                (tags s ++ minted_rows uuid4 count tx "unused" None bid now first)
                (scans s) (password_reset_tokens s),
              Return tt))
  /\ (existsb (fun u => User.id u =? manufacturer_id) (users s) = true ->
      forall e, chain = Raise e -> out = (s, Raise e)).
Proof.
  intros bid first chain out.
  assert (forall b, In b (batches s) -> Batch.id b <> bid) as Hold.
  { intros b Hb. apply Z.eqb_neq. now apply fresh_key. }
  unfold out, chain, BulkMinter.bulk_mint_and_store, Tags.add_batch, Tags.update_batch,
    Tags.add_all.
  unfold_session. cbn [Batch.product_id Batch.manufacturer_id andb].
  destruct (existsb (fun u => User.id u =? manufacturer_id) (users s)) eqn:U.
  2:{ split; [|discriminate]. left. split; [reflexivity | eexists; reflexivity]. }
  cbn [committed pending Batch.id]. fold bid.
  destruct (mint_tags_in_bulk (Tags.draws uuid4 0 count) (Some bid)) as [tx|e] eqn:E.
  2:{ split.
      - left. split; [reflexivity | eexists; reflexivity].
      - intros _ e' [= <-]. reflexivity. }
  split; [|discriminate].
  cbn [committed pending Batch.id with_batches batches tags]. fold first.
  fold (minted_rows uuid4 count tx "unused" None bid now first).
  destruct (distinct (map Tag.tag_code
                        (tags s ++ minted_rows uuid4 count tx "unused" None bid now first))
            && distinct (map Tag.token_id
                           (tags s ++ minted_rows uuid4 count tx "unused" None bid now first)))
    eqn:I.
  - right. exists tx. split; [reflexivity|].
    unfold with_tags, with_batches.
    cbn [committed pending batches tags users products scans password_reset_tokens].
    rewrite (update_last_row Batch.id
               (fun b => Batch.set_status "minted" (Batch.set_blockchain_tx_hash tx b))
               (batches s)
               (Batch.mk bid None manufacturer_id count "pending" "warehouse" None now)
               bid eq_refl Hold).
    reflexivity.
  - left. split; [reflexivity | eexists; reflexivity].
Qed.

End AtomicityFacts.

(** ** The chain service and the endpoints that call it *)

Lemma transact_returns (w3 : BlockchainService.Web3) (tx : result string) (x : string) :
  BlockchainService.transact w3 tx = Return x <->
  exists t signed h status,
    tx = Return t
    /\ BlockchainService.sign_transaction w3 t = Return signed
    /\ BlockchainService.send_raw_transaction w3 signed = Return h
    /\ BlockchainService.wait_for_transaction_receipt w3 h = Return status
    /\ x = BlockchainService.hex w3 h.
Proof.
  unfold BlockchainService.transact, BlockchainService.and_then. split.
  - destruct tx as [t|e]; [|discriminate].
    destruct (BlockchainService.sign_transaction w3 t) as [signed|e] eqn:S;
      [|discriminate].
    destruct (BlockchainService.send_raw_transaction w3 signed) as [h|e] eqn:H;
      [|discriminate].
    destruct (BlockchainService.wait_for_transaction_receipt w3 h) as [status|e] eqn:W;
      [|discriminate].
    intros [= <-]. now exists t, signed, h, status.
  - intros [t [signed [h [status [-> [S [H [W ->]]]]]]]]. now rewrite S, H, W.
Qed.

Module ChainFacts.

(** X20. A failure on the chain reaches the client as a 500 that names it,
    and nothing is stored.  When building, signing or sending the
    transaction, or waiting for its receipt, raises an exception, the
    service raises a RuntimeError whose text is "Warehouse minting failed: "
    followed by the text of that exception, and POST /tags/mint/warehouse,
    called by an admin, answers 500 with detail "Minting failed: Warehouse
    minting failed: ..." and leaves the database as it was.  Every
    exception of the three service methods is a RuntimeError. *)
Theorem chain_failure_reaches_client
    (w3 : BlockchainService.Web3) (uuid4 : nat -> string)
    (request : TagGenerationRequest.t) (user : User.t) (now : Z) (s : Store)
    (cause : exn) :
  let codes := Tags.draws uuid4 0 (TagGenerationRequest.count request) in
  User.role user = "admin" ->
  TagGenerationRequest.mint_type request = "warehouse" ->
  existsb (fun u => User.id u =? User.id user) (users s) = true ->
  BlockchainService.transact w3 (BlockchainService.build_mintWarehouseBatch w3 codes)
  = Raise cause ->
  run_request
    (Tags.mint_warehouse_tags uuid4 (BlockchainService.mint_warehouse_batch w3)
       request user now) s
  = (s, Raise (HTTPException 500
                 ("Minting failed: Warehouse minting failed: " ++ str cause)%string))
  /\ forall tag_codes tag_ids manufacturer_id m e,
       (BlockchainService.mint_warehouse_batch w3 tag_codes = Raise e
        \/ BlockchainService.mint_tags_in_bulk w3 tag_codes (Some manufacturer_id) = Raise e
        \/ BlockchainService.assign_tags_to_manufacturer w3 tag_ids m = Raise e) ->
       exists msg, e = RuntimeError msg.
Proof.
  intros codes R T U E. split.
  - unfold Tags.mint_warehouse_tags, Tags.get_current_admin, Tags.add_batch,
      Tags.update_batch, BlockchainService.mint_warehouse_batch.
    rewrite R, T, !String.eqb_refl. cbn [negb]. unfold_session.
    cbn [Batch.product_id Batch.manufacturer_id andb]. rewrite U.
    cbn [committed pending Batch.id]. fold codes. rewrite E.
    cbn [BlockchainService.reraise str]. reflexivity.
  - intros tag_codes tag_ids manufacturer_id m e.
    unfold BlockchainService.mint_warehouse_batch, BlockchainService.mint_tags_in_bulk,
      BlockchainService.assign_tags_to_manufacturer, BlockchainService.reraise.
    intros [H|[H|H]];
      match type of H with
      | match ?r with _ => _ end = _ => destruct r; [discriminate|]
      end; injection H as <-; eexists; reflexivity.
Qed.

Lemma chain_failure_reaches_client_witness :
  run_request
    (Tags.mint_warehouse_tags Sample.uuid4
       (BlockchainService.mint_warehouse_batch SampleChain.unreachable)
       (TagGenerationRequest.mk None 2 "warehouse") Sample.root 40) Sample.db
  = (Sample.db,
     Raise (HTTPException 500
              "Minting failed: Warehouse minting failed: Connection refused")).
Proof.
  exact (proj1 (chain_failure_reaches_client SampleChain.unreachable Sample.uuid4
                  (TagGenerationRequest.mk None 2 "warehouse") Sample.root 40 Sample.db
                  (RuntimeError "Connection refused") eq_refl eq_refl eq_refl eq_refl)).
Defined.

(** X21. The receipt is not looked at.  When the transaction is built,
    signed and sent and a receipt arrives, the service returns the hash of
    the transaction whatever status the receipt reports, 0 included; the
    endpoint then commits the batch as "minted" with that hash, and its
    tags as "unused". *)
Theorem receipt_status_is_not_checked
    (w3 : BlockchainService.Web3) (uuid4 : nat -> string)
    (request : TagGenerationRequest.t) (user : User.t) (now : Z) (s : Store)
    (t signed h : string) (status : Z) :
  let count := TagGenerationRequest.count request in
  let bid := next_id (map Batch.id (batches s)) in
  let tx_hash := BlockchainService.hex w3 h in
  let rows := minted_rows uuid4 count tx_hash "unused" None bid now
                          (next_id (map Tag.id (tags s))) in
  User.role user = "admin" ->
  TagGenerationRequest.mint_type request = "warehouse" ->
  existsb (fun u => User.id u =? User.id user) (users s) = true ->
  BlockchainService.build_mintWarehouseBatch w3 (Tags.draws uuid4 0 count) = Return t ->
  BlockchainService.sign_transaction w3 t = Return signed ->
  BlockchainService.send_raw_transaction w3 signed = Return h ->
  BlockchainService.wait_for_transaction_receipt w3 h = Return status ->
  rows_insertable s rows = true ->
  BlockchainService.mint_warehouse_batch w3 (Tags.draws uuid4 0 count) = Return tx_hash
  /\ run_request
       (Tags.mint_warehouse_tags uuid4 (BlockchainService.mint_warehouse_batch w3)
          request user now) s
     = (mkStore (users s) (products s)
          (batches s ++ [Batch.mk bid None (User.id user) count "minted" "warehouse"
                                  (Some tx_hash) now])
          (tags s ++ rows) (scans s) (password_reset_tokens s),
        Return (BatchResponse.from_orm
                  (Batch.mk bid None (User.id user) count "minted" "warehouse"
                            (Some tx_hash) now))).
Proof.
  intros count bid tx_hash rows R T U B S H W I.
  assert (BlockchainService.mint_warehouse_batch w3 (Tags.draws uuid4 0 count)
          = Return tx_hash) as E.
  { unfold BlockchainService.mint_warehouse_batch.
    assert (BlockchainService.transact w3
              (BlockchainService.build_mintWarehouseBatch w3 (Tags.draws uuid4 0 count))
            = Return tx_hash) as ->; [|reflexivity].
    apply transact_returns. now exists t, signed, h, status. }
  split; [exact E|].
  now apply TagsSpec.mint_warehouse_committed.
Qed.

Lemma receipt_status_is_not_checked_witness :
  BlockchainService.wait_for_transaction_receipt SampleChain.reverting "beef" = Return 0
  /\ batches (fst (run_request
                     (Tags.mint_warehouse_tags Sample.uuid4
                        (BlockchainService.mint_warehouse_batch SampleChain.reverting)
                        (TagGenerationRequest.mk None 2 "warehouse") Sample.root 40)
                     Sample.db))
     = [Sample.pool; Batch.mk 2 None 2 2 "minted" "warehouse" (Some "0xbeef") 40].
Proof.
  split; [reflexivity|].
  exact (f_equal (fun out => batches (fst out))
           (proj2 (receipt_status_is_not_checked SampleChain.reverting Sample.uuid4
                     (TagGenerationRequest.mk None 2 "warehouse") Sample.root 40 Sample.db
                     "tx" "signed:tx" "beef" 0
                     eq_refl eq_refl eq_refl eq_refl eq_refl eq_refl eq_refl eq_refl))).
Defined.



End ChainFacts.

(** ** Codes and the database URL *)

Lemma get_In (s : string) :
  forall n c, String.get n s = Some c -> In c (list_ascii_of_string s).
Proof.
  induction s as [|a s IH]; intros n c H; [discriminate|].
  destruct n as [|n]; cbn [String.get list_ascii_of_string] in *.
  - injection H as <-. now left.
  - right. now apply (IH n).
Qed.

Lemma choice_alphanumeric (r : nat) :
  In (Utils.choice r) (list_ascii_of_string Utils.alphabet).
Proof.
  unfold Utils.choice.
  destruct (String.get (r mod String.length Utils.alphabet) Utils.alphabet) as [c|] eqn:E.
  - now apply (get_In _ _ _ E).
  - now left.
Qed.

Lemma prefix_split (a : string) :
  forall s, String.prefix a s = true -> s = (a ++ Database.drop (String.length a) s)%string.
Proof.
  induction a as [|c a IH]; intros s H; [reflexivity|].
  destruct s as [|d s]; [discriminate|]. cbn [String.prefix] in H.
  destruct (Ascii.ascii_dec c d) as [->|]; [|discriminate].
  cbn [String.length Database.drop String.append]. f_equal. now apply IH.
Qed.

Module UtilsFacts.

(** X23. A generated code has exactly the requested length (none for a
    length that is zero or negative) and consists of ASCII letters and
    digits only, whatever numbers the generator draws. *)
Theorem generate_unique_code_alphanumeric (draw : nat -> nat) (length : Z) :
  let code := Utils.generate_unique_code draw length in
  Z.of_nat (String.length code) = Z.max 0 length
  /\ Forall (fun c => In c (list_ascii_of_string Utils.alphabet))
            (list_ascii_of_string code).
Proof.
  intros code. unfold code, Utils.generate_unique_code.
  assert (forall l : list nat,
            String.length (fold_right (fun i s => String (Utils.choice (draw i)) s)
                                      EmptyString l) = List.length l
            /\ Forall (fun c => In c (list_ascii_of_string Utils.alphabet))
                      (list_ascii_of_string
                         (fold_right (fun i s => String (Utils.choice (draw i)) s)
                                     EmptyString l))) as H.
  { induction l as [|i l [IH1 IH2]]; cbn [fold_right String.length List.length
                                            list_ascii_of_string].
    - split; [reflexivity | constructor].
    - split; [now rewrite IH1|]. constructor; [apply choice_alphanumeric | exact IH2]. }
  destruct (H (seq 0 (Z.to_nat length))) as [H1 H2].
  split; [|exact H2].
  rewrite H1, length_seq. lia.
Qed.

(** X24. The URL the engine is created with.  A URL that starts with
    "postgresql://" gets the asyncpg driver in that first place only, the
    rest is kept as it is; any other URL is used unchanged.  The result never
    starts with "postgresql://", and rewriting it again changes nothing. *)
Theorem db_url_selects_async_driver (url : string) :
  (String.prefix "postgresql://" url = true ->
   exists rest, url = ("postgresql://" ++ rest)%string
                /\ Database.db_url url = ("postgresql+asyncpg://" ++ rest)%string)
  /\ (String.prefix "postgresql://" url = false -> Database.db_url url = url)
  /\ String.prefix "postgresql://" (Database.db_url url) = false
  /\ Database.db_url (Database.db_url url) = Database.db_url url.
Proof.
  assert (String.prefix "postgresql://" url = true ->
          Database.db_url url
          = ("postgresql+asyncpg://"
             ++ Database.drop (String.length "postgresql://") url)%string) as Hyes.
  { intros H. unfold Database.db_url. rewrite H.
    destruct url as [|c r]; [discriminate|].
    cbn [Database.replace_first]. now rewrite H. }
  assert (String.prefix "postgresql://" url = false -> Database.db_url url = url) as Hno.
  { intros H. unfold Database.db_url. now rewrite H. }
  assert (String.prefix "postgresql://" (Database.db_url url) = false) as Hout.
  { destruct (String.prefix "postgresql://" url) eqn:H.
    - rewrite (Hyes eq_refl). reflexivity.
    - now rewrite (Hno eq_refl). }
  split; [|split; [exact Hno | split; [exact Hout|]]].
  - intros H. exists (Database.drop (String.length "postgresql://") url).
    split; [now apply prefix_split | now apply Hyes].
  - unfold Database.db_url at 1. now rewrite Hout.
Qed.

End UtilsFacts.

(** ** What no sequence of requests undoes *)

Section KeptRows.

Context {A : Type} (R : A -> A -> Prop) (Q : A -> Prop).
Hypothesis R_refl : forall a, R a a.
Hypothesis R_trans : forall a b c, R a b -> R b c -> R a c.
Hypothesis Q_R : forall a b, R a b -> Q a -> Q b.

Lemma Forall2_same (l : list A) : Forall2 R l l.
Proof. induction l; constructor; auto. Qed.

Lemma Forall2_chain (l1 l2 l3 : list A) :
  Forall2 R l1 l2 -> Forall2 R l2 l3 -> Forall2 R l1 l3.
Proof.
  intros H. revert l3. induction H as [|a b l1 l2 Hab _ IH]; intros l3 H3;
    inversion H3; subst; constructor; eauto.
Qed.

Lemma Forall2_Q (l l' : list A) : Forall2 R l l' -> Forall Q l -> Forall Q l'.
Proof.
  induction 1 as [|a b l l' Hab _ IH]; intros H; [constructor|].
  inversion H; subst. constructor; eauto.
Qed.

Lemma keeps_rows_later (l l' : list A) (a : A) :
  keeps_rows R Q l l' -> In a l -> exists b, In b l' /\ R a b.
Proof.
  intros [k [n [-> [H _]]]] Ha.
  assert (exists b, In b k /\ R a b) as [b [Hb Hab]].
  { induction H as [|x y l k Hxy _ IH]; [contradiction|]. destruct Ha as [->|Ha].
    - exists y. split; [now left | exact Hxy].
    - destruct (IH Ha) as [b [Hb Hab]]. exists b. split; [now right | exact Hab]. }
  exists b. split; [apply in_or_app; now left | exact Hab].
Qed.

Lemma keeps_rows_earlier (l l' : list A) (b : A) :
  keeps_rows R Q l l' -> In b l' -> (exists a, In a l /\ R a b) \/ Q b.
Proof.
  intros [k [n [-> [H Hn]]]] Hb. apply in_app_or in Hb. destruct Hb as [Hb|Hb].
  - left. induction H as [|x y l k Hxy _ IH]; [contradiction|]. destruct Hb as [->|Hb].
    + exists x. split; [now left | exact Hxy].
    + destruct (IH Hb) as [a [Ha Hab]]. exists a. split; [now right | exact Hab].
  - right. rewrite Forall_forall in Hn. now apply Hn.
Qed.

Lemma keeps_rows_refl (l : list A) : keeps_rows R Q l l.
Proof.
  exists l, []. rewrite app_nil_r. repeat split; [apply Forall2_same | constructor].
Qed.

Lemma keeps_rows_trans (l1 l2 l3 : list A) :
  keeps_rows R Q l1 l2 -> keeps_rows R Q l2 l3 -> keeps_rows R Q l1 l3.
Proof.
  intros [k1 [n1 [-> [H1 Q1]]]] [k2 [n2 [-> [H2 Q2]]]].
  apply Forall2_app_inv_l in H2. destruct H2 as [ka [kb [Ha [Hb ->]]]].
  exists ka, (kb ++ n2). rewrite app_assoc. repeat split.
  - eapply Forall2_chain; eassumption.
  - apply Forall_app. split; [|exact Q2]. eapply Forall2_Q; eassumption.
Qed.

Lemma keeps_rows_insert (l l' rows : list A) :
  Forall Q rows -> keeps_rows R Q l l' -> keeps_rows R Q l (l' ++ rows).
Proof.
  intros Hq [k [n [-> [H Hn]]]]. exists k, (n ++ rows). rewrite app_assoc.
  repeat split; [exact H | apply Forall_app; now split].
Qed.

Lemma keeps_rows_update_all (g : A -> A) (l : list A) :
  (forall a, In a l -> R a (g a)) -> keeps_rows R Q l (map g l).
Proof.
  intros Hg. exists (map g l), []. rewrite app_nil_r. repeat split; [|constructor].
  induction l as [|a l IH]; cbn [map]; constructor.
  - apply Hg. now left.
  - apply IH. intros b Hb. apply Hg. now right.
Qed.

Lemma keeps_rows_update (g : A -> A) (l l' : list A) :
  (forall a, R a (g a)) -> keeps_rows R Q l l' -> keeps_rows R Q l (map g l').
Proof.
  intros Hg H. eapply keeps_rows_trans; [exact H|].
  apply keeps_rows_update_all. intros a _. apply Hg.
Qed.

End KeptRows.

Section Maintained.

Variable P : Store -> Prop.

Lemma maintains_ret {A} (a : A) : maintains P (ret a).
Proof. intros ss H1 H2. now split. Qed.

Lemma maintains_raise {A} (e : exn) : maintains P (@raise A e).
Proof. intros ss H1 H2. now split. Qed.

Lemma maintains_await {A} (r : result A) : maintains P (await r).
Proof. intros ss H1 H2. now split. Qed.

Lemma maintains_execute {A} (q : Store -> A) : maintains P (execute q).
Proof. intros ss H1 H2. now split. Qed.

Lemma maintains_commit : maintains P commit.
Proof. intros ss H1 H2. now split. Qed.

Lemma maintains_rollback : maintains P rollback.
Proof. intros ss H1 H2. now split. Qed.

Lemma maintains_write (f : Store -> Store) :
  (forall s, P s -> P (f s)) -> maintains P (write f).
Proof. intros Hf ss H1 H2. split; [exact H1 | now apply Hf]. Qed.

Lemma maintains_bind {A B} (m : M A) (k : A -> M B) :
  maintains P m -> (forall a, maintains P (k a)) -> maintains P (bind m k).
Proof.
  intros Hm Hk ss H1 H2. unfold bind. destruct (Hm ss H1 H2) as [H3 H4].
  destruct (m ss) as [ss' [a|e]]; cbn [fst] in *; [now apply Hk | now split].
Qed.

Lemma maintains_try_except {A} (m : M A) (h : exn -> M A) :
  maintains P m -> (forall e, maintains P (h e)) -> maintains P (try_except m h).
Proof.
  intros Hm Hh ss H1 H2. unfold try_except. destruct (Hm ss H1 H2) as [H3 H4].
  destruct (m ss) as [ss' [a|e]]; cbn [fst] in *; [now split | now apply Hh].
Qed.

Lemma maintains_run {A} (m : M A) (s : Store) :
  maintains P m -> P s -> P (fst (run_request m s)).
Proof.
  intros Hm H. unfold run_request. destruct (Hm (mkSession s s) H H) as [H1 _].
  destruct (m (mkSession s s)) as [ss r]. exact H1.
Qed.

End Maintained.

(** A handler is a sequence of the steps above; [on_write] settles each of
    its writes. *)
Ltac maintains_step on_write :=
  match goal with
  | |- maintains _ (bind _ _) => apply maintains_bind; [|intros ?]
  | |- maintains _ (try_except _ _) => apply maintains_try_except; [|intros ?]
  | |- maintains _ (ret _) => apply maintains_ret
  | |- maintains _ (raise _) => apply maintains_raise
  | |- maintains _ (await _) => apply maintains_await
  | |- maintains _ (execute _) => apply maintains_execute
  | |- maintains _ commit => apply maintains_commit
  | |- maintains _ rollback => apply maintains_rollback
  | |- maintains _ (write _) => apply maintains_write; intros ? ?; on_write
  | |- maintains _ (if ?c then _ else _) => destruct c
  | |- maintains _ (match ?x with _ => _ end) => destruct x
  | |- maintains _ (let _ := _ in _) => cbv zeta
  end.

Ltac maintains_auto on_write := repeat (maintains_step on_write).

Ltac unfold_handlers :=
  unfold Auth.register_user, Auth.add_user, Auth.request_password_reset,
    Auth.add_password_reset_token, Auth.reset_password,
    Products.list_products, Products.get_product, Products.delete_product,
    Products.create_product, Products.add_product, Products.update_product,
    Products.set_if_given, Products.update_row,
    Users.update_current_user_profile, Users.update_user_role, Users.update_row,
    Users.refresh,
    BulkMinter.bulk_mint_and_store, Tags.mint_warehouse_tags, Tags.mint_direct_tags,
    Tags.get_current_admin, Tags.add_batch, Tags.update_batch, Tags.add_all,
    Tags.refresh, Tags.assign_tags_to_product, Tags.select_unused,
    Tags.verify_tag, Verify.verify_tag, Tags.add_scan.

Lemma same_product_refl (p : Product.t) : same_product p p.
Proof. now repeat split. Qed.

Lemma same_product_trans (p q r : Product.t) :
  same_product p q -> same_product q r -> same_product p r.
Proof.
  intros [H1 [H2 [H3 H4]]] [K1 [K2 [K3 K4]]]. repeat split; try congruence. auto.
Qed.

Lemma products_kept_refl (s : Store) : products_kept s s.
Proof. apply keeps_rows_refl. apply same_product_refl. Qed.

Lemma products_kept_trans (s1 s2 s3 : Store) :
  products_kept s1 s2 -> products_kept s2 s3 -> products_kept s1 s3.
Proof. apply keeps_rows_trans; [apply same_product_trans | trivial]. Qed.

Lemma products_kept_insert (s0 s : Store) (p : Product.t) :
  products_kept s0 s -> products_kept s0 (with_products (fun l => l ++ [p]) s).
Proof. intros H. apply keeps_rows_insert; [now constructor | exact H]. Qed.

Lemma products_kept_update (s0 s : Store) (k : Z) (f : Product.t -> Product.t) :
  (forall p, same_product p (f p)) ->
  products_kept s0 s ->
  products_kept s0 (with_products (map (fun p => if Product.id p =? k then f p else p)) s).
Proof.
  intros Hf H. apply keeps_rows_update; [apply same_product_trans | trivial | | exact H].
  intros p. destruct (Product.id p =? k); [apply Hf | apply same_product_refl].
Qed.

Ltac products_write :=
  first [ assumption
        | apply products_kept_insert; assumption
        | apply products_kept_update;
          [intros ?; repeat split; cbn; auto | assumption] ].

Lemma serve_keeps_products (env : Collaborators) (r : request) (s : Store) :
  products_kept s (fst (serve env r s)).
Proof.
  destruct r; cbn [serve answer fst];
    (apply maintains_run; [|apply products_kept_refl]);
    unfold_handlers; maintains_auto products_write.
Qed.

(** Accounts *)

Lemma same_account_refl (u : User.t) : same_account u u.
Proof. now repeat split. Qed.

Lemma same_account_trans (u v w : User.t) :
  same_account u v -> same_account v w -> same_account u w.
Proof. intros [H1 [H2 H3]] [K1 [K2 K3]]. repeat split; congruence. Qed.

Lemma same_account_role (u v : User.t) :
  same_account u v -> User.role u = "manufacturer" -> User.role v = "manufacturer".
Proof. intros [_ [H _]] E. congruence. Qed.

Lemma accounts_kept_refl (s : Store) : accounts_kept s s.
Proof. apply keeps_rows_refl. apply same_account_refl. Qed.

Lemma accounts_kept_trans (s1 s2 s3 : Store) :
  accounts_kept s1 s2 -> accounts_kept s2 s3 -> accounts_kept s1 s3.
Proof. apply keeps_rows_trans; [apply same_account_trans | apply same_account_role]. Qed.

Lemma accounts_kept_insert (s0 s : Store) (u : User.t) :
  User.role u = "manufacturer" ->
  accounts_kept s0 s -> accounts_kept s0 (with_users (fun l => l ++ [u]) s).
Proof. intros Hu H. apply keeps_rows_insert; [now repeat constructor | exact H]. Qed.

Lemma accounts_kept_update (s0 s : Store) (k : Z) (f : User.t -> User.t) :
  (forall u, same_account u (f u)) ->
  accounts_kept s0 s ->
  accounts_kept s0 (with_users (map (fun u => if User.id u =? k then f u else u)) s).
Proof.
  intros Hf H.
  apply keeps_rows_update; [apply same_account_trans | apply same_account_role | | exact H].
  intros u. destruct (User.id u =? k); [apply Hf | apply same_account_refl].
Qed.

Ltac accounts_write :=
  first [ assumption
        | apply accounts_kept_insert; [reflexivity | assumption]
        | apply accounts_kept_update; [intros ?; repeat split | assumption] ].

Lemma serve_keeps_accounts (env : Collaborators) (r : request) (s : Store) :
  changes_no_role r -> accounts_kept s (fst (serve env r s)).
Proof.
  intros H. destruct r; cbn [serve answer fst];
    try solve [apply maintains_run; [|apply accounts_kept_refl];
               unfold_handlers; maintains_auto accounts_write].
  cbn [changes_no_role] in H. apply String.eqb_neq in H.
  unfold Users.update_user_role. rewrite H. cbn [negb]. unfold_session.
  apply accounts_kept_refl.
Qed.

(** Tags *)

Lemma same_tag_refl (g : Tag.t) : same_tag g g.
Proof. now repeat split. Qed.

Lemma same_tag_trans (g h k : Tag.t) : same_tag g h -> same_tag h k -> same_tag g k.
Proof.
  intros [H1 [H2 [H3 [H4 H5]]]] [K1 [K2 [K3 [K4 K5]]]]. repeat split; try congruence.
  intros E. specialize (H5 E). subst h. now apply K5.
Qed.

Lemma tags_kept_refl (s : Store) : tags_kept s s.
Proof. apply keeps_rows_refl. apply same_tag_refl. Qed.

Lemma tags_kept_trans (s1 s2 s3 : Store) :
  tags_kept s1 s2 -> tags_kept s2 s3 -> tags_kept s1 s3.
Proof. apply keeps_rows_trans; [apply same_tag_trans | trivial]. Qed.

Lemma tags_kept_insert (s0 s : Store) (rows : list Tag.t) :
  tags_kept s0 s -> tags_kept s0 (with_tags (fun l => l ++ rows) s).
Proof.
  intros H. apply keeps_rows_insert; [|exact H]. apply Forall_forall. trivial.
Qed.

Ltac tags_write := first [ assumption | apply tags_kept_insert; assumption ].

(** The assignment takes rows of the pool only, so it leaves every other
    row as it is. *)
Lemma assign_keeps_tags (product_id count : Z) (current_user : User.t) (s : Store) :
  tags_consistent s = true ->
  tags_kept s (fst (run_request
                      (Tags.assign_tags_to_product product_id count current_user) s)).
Proof.
  intros WF. unfold Tags.assign_tags_to_product, Tags.select_unused.
  destruct (negb (User.role current_user =? "manufacturer")%string);
    [apply tags_kept_refl|].
  unfold_session.
  destruct (find (Products.owned_by product_id current_user) (products s)) as [p|];
    [|apply tags_kept_refl].
  destruct (count <? 0); [apply tags_kept_refl|]. cbn [fst snd committed pending].
  fold (unused s).
  destruct (Z.of_nat (List.length (firstn (Z.to_nat count) (unused s))) <? count);
    [apply tags_kept_refl|].
  cbn [fst snd committed pending with_tags tags].
  unfold tags_kept. cbn [tags].
  apply (keeps_rows_update_all same_tag (fun _ => True)
           (fun g => if mem_string (Tag.tag_code g)
                          (map Tag.tag_code (firstn (Z.to_nat count) (unused s)))
                     then Tag.set_values (Product.id p) "active" g else g)).
  intros g Hg.
  destruct (mem_string (Tag.tag_code g)
              (map Tag.tag_code (firstn (Z.to_nat count) (unused s)))) eqn:E;
    [|apply same_tag_refl].
  apply (TagsSpec.assign_touches_selected s (Z.to_nat count) g WF Hg) in E.
  apply firstn_incl in E. unfold unused in E. apply filter_In in E.
  destruct E as [_ E]. repeat split. intros N. congruence.
Qed.

Lemma serve_keeps_tags (env : Collaborators) (r : request) (s : Store) :
  tags_consistent s = true -> tags_kept s (fst (serve env r s)).
Proof.
  intros WF. destruct r; cbn [serve answer fst];
    try solve [apply maintains_run; [|apply tags_kept_refl];
               unfold_handlers; maintains_auto tags_write].
  now apply assign_keeps_tags.
Qed.

Lemma serve_all_keeps_tags (env : Collaborators) (rs : list request) :
  forall s, consistent s = true -> tags_kept s (serve_all env rs s).
Proof.
  induction rs as [|r rs IH]; intros s WF; cbn [serve_all fold_left].
  - apply tags_kept_refl.
  - eapply tags_kept_trans.
    + apply serve_keeps_tags. unfold consistent in WF.
      rewrite !andb_true_iff in WF. tauto.
    + apply IH. now apply Constraints.serve_consistent.
Qed.

(** Account keys *)

Lemma find_email_none (e : string) (l : list User.t) :
  find (fun u => (User.email u =? e)%string) l = None -> ~ In e (map User.email l).
Proof.
  intros F Hin. apply in_map_iff in Hin. destruct Hin as [u [<- Hu]].
  pose proof (find_none _ _ F u Hu) as H. cbn in H. now rewrite String.eqb_refl in H.
Qed.

Lemma NoDup_snoc {B} (l : list B) (x : B) : NoDup l -> ~ In x l -> NoDup (l ++ [x]).
Proof.
  intros Hl Hx. induction Hl as [|y l Hy _ IH]; cbn [app].
  - constructor; [intros [] | constructor].
  - constructor.
    + intros Hin. apply in_app_or in Hin. destruct Hin as [Hin|[->|[]]].
      * contradiction.
      * apply Hx. now left.
    + apply IH. intros Hin. apply Hx. now right.
Qed.

(** Setting the email of the one row with a key to a value no row has. *)
Lemma fresh_email_update (k : Z) (e : string) (l : list User.t) :
  NoDup (map User.id l) -> NoDup (map User.email l) -> ~ In e (map User.email l) ->
  NoDup (map User.email
           (map (fun u => if User.id u =? k then User.set_email e u else u) l)).
Proof.
  induction l as [|x l IH]; intros Hid Hem He; cbn [map]; [constructor|].
  cbn [map] in Hid, Hem, He. inversion Hid as [|? ? Hx Hid']; subst.
  inversion Hem as [|? ? Hy Hem']; subst.
  assert (forall y, In y (map User.email
                            (map (fun u => if User.id u =? k then User.set_email e u else u)
                                 l)) ->
                    y = e \/ In y (map User.email l)) as Hsub.
  { intros y Hin. rewrite map_map in Hin. apply in_map_iff in Hin.
    destruct Hin as [u [<- Hu]]. destruct (User.id u =? k).
    - now left.
    - right. now apply in_map. }
  destruct (Z.eqb_spec (User.id x) k) as [E|N].
  - assert (map (fun u => if User.id u =? k then User.set_email e u else u) l = l) as ->.
    { rewrite <- (map_id l) at 2. apply map_ext_in. intros u Hu.
      destruct (Z.eqb_spec (User.id u) k) as [E'|_]; [|reflexivity].
      exfalso. apply Hx. rewrite E, <- E'. now apply in_map. }
    constructor; [|exact Hem']. cbn. intros Hin. apply He. now right.
  - constructor.
    + intros Hin. apply Hsub in Hin. destruct Hin as [Eq|Hin]; [|contradiction].
      apply He. now left.
    + apply IH; [exact Hid' | exact Hem' | intros Hin; apply He; now right].
Qed.

Lemma accounts_unique_update (s : Store) (k : Z) (f : User.t -> User.t) :
  (forall u, User.id (f u) = User.id u /\ User.email (f u) = User.email u) ->
  accounts_unique s = true ->
  accounts_unique (with_users (map (fun u => if User.id u =? k then f u else u)) s) = true.
Proof.
  intros Hf H. unfold accounts_unique in *. cbn [with_users users].
  rewrite (Constraints.map_key_update User.id f k) by (intros u; apply Hf).
  assert (map User.email (map (fun u => if User.id u =? k then f u else u) (users s))
          = map User.email (users s)) as ->; [|exact H].
  rewrite map_map. apply map_ext. intros u.
  destruct (User.id u =? k); [apply Hf | reflexivity].
Qed.

Lemma accounts_unique_insert (s : Store) (u : User.t) :
  User.id u = next_id (map User.id (users s)) ->
  ~ In (User.email u) (map User.email (users s)) ->
  accounts_unique s = true ->
  accounts_unique (with_users (fun l => l ++ [u]) s) = true.
Proof.
  intros Hid Hem H. unfold accounts_unique in *. cbn [with_users users].
  apply andb_true_iff in H. destruct H as [H1 H2]. apply andb_true_iff. split.
  - rewrite map_app. cbn [map]. rewrite Hid. now apply Constraints.distinctZ_fresh.
  - rewrite map_app. cbn [map]. apply distinct_NoDup. apply NoDup_snoc; [|exact Hem].
    now apply distinct_NoDup.
Qed.

Lemma accounts_unique_email (s : Store) (k : Z) (e : string) :
  find (fun u => (User.email u =? e)%string) (users s) = None ->
  accounts_unique s = true ->
  accounts_unique
    (with_users (map (fun u => if User.id u =? k then User.set_email e u else u)) s) = true.
Proof.
  intros F H. unfold accounts_unique in *. cbn [with_users users].
  apply andb_true_iff in H. destruct H as [H1 H2]. apply andb_true_iff. split.
  - now rewrite (Constraints.map_key_update User.id (User.set_email e) k).
  - apply distinct_NoDup. apply fresh_email_update.
    + now apply distinctZ_NoDup.
    + now apply distinct_NoDup.
    + now apply find_email_none.
Qed.

Ltac accounts_unique_write :=
  first [ assumption
        | apply accounts_unique_update; [intros ?; split; reflexivity | assumption] ].

Lemma serve_keeps_accounts_unique (env : Collaborators) (r : request) (s : Store) :
  accounts_unique s = true -> accounts_unique (fst (serve env r s)) = true.
Proof.
  intros WF. destruct r; cbn [serve answer fst];
    try solve [apply (maintains_run (fun s => accounts_unique s = true)); [|exact WF];
               unfold_handlers; maintains_auto accounts_unique_write].
  - destruct (find (fun u => (User.email u =? UserCreate.email user_in)%string) (users s))
      as [u|] eqn:F.
    + now rewrite (AuthSpec.register_user_taken (hash_password env) user_in now s u F).
    + rewrite (AuthSpec.register_user_fresh (hash_password env) user_in now s F).
      cbn [fst]. apply accounts_unique_insert; [reflexivity | | exact WF].
      now apply find_email_none.
  - apply (maintains_run (fun s => accounts_unique s = true)); [|exact WF].
    unfold Users.update_current_user_profile, Users.refresh, Users.update_row.
    apply maintains_bind; [|intros ?; maintains_auto accounts_unique_write].
    destruct (UserUpdate.email update) as [e|]; [|apply maintains_ret].
    destruct (negb (e =? "")%string && negb (e =? User.email current_user)%string);
      [|apply maintains_ret].
    intros ss H1 H2. unfold bind, execute, raise, write. cbn [fst snd].
    destruct (find (fun u => (User.email u =? e)%string) (users (pending ss))) eqn:F;
      cbn [fst committed pending]; split; try assumption.
    now apply accounts_unique_email.
Qed.

Lemma serve_all_keeps_accounts_unique (env : Collaborators) (rs : list request) :
  forall s, accounts_unique s = true -> accounts_unique (serve_all env rs s) = true.
Proof.
  induction rs as [|r rs IH]; intros s H; cbn [serve_all fold_left]; [exact H|].
  apply IH. now apply serve_keeps_accounts_unique.
Qed.

(** What a successful assignment did. *)
Lemma assign_success (product_id count : Z) (current_user : User.t) (s : Store)
    (resp : BatchAssignmentResponse.t) :
  snd (run_request (Tags.assign_tags_to_product product_id count current_user) s)
  = Return resp ->
  exists product,
    BatchAssignmentResponse.assigned_tag_codes resp
    = map Tag.tag_code (firstn (Z.to_nat count) (unused s))
    /\ fst (run_request (Tags.assign_tags_to_product product_id count current_user) s)
       = with_tags (map (assign (Product.id product) (firstn (Z.to_nat count) (unused s))))
                   s.
Proof.
  unfold Tags.assign_tags_to_product, Tags.select_unused.
  destruct (negb (User.role current_user =? "manufacturer")%string); [discriminate|].
  unfold_session.
  destruct (find (Products.owned_by product_id current_user) (products s)) as [p|];
    [|discriminate].
  destruct (count <? 0); [discriminate|]. cbn [fst snd committed pending].
  fold (unused s).
  destruct (Z.of_nat (List.length (firstn (Z.to_nat count) (unused s))) <? count);
    [discriminate|].
  cbn [fst snd committed pending]. intros [= <-]. exists p. now split.
Qed.

Module Invariants.

(** X25. No request deletes a product, gives it to another manufacturer or
    brings a deleted one back.  After any sequence of requests, whatever the
    collaborators of each, every product there was is still stored, with
    the same id, owner and creation time, and with status "inactive" if it
    had it before. *)
Theorem products_keep_identity (rs : list (Collaborators * request)) (s : Store) :
  forall p, In p (products s) ->
    exists p', In p' (products (serve_each rs s))
               /\ Product.id p' = Product.id p
               /\ Product.manufacturer_id p' = Product.manufacturer_id p
               /\ Product.created_at p' = Product.created_at p
               /\ (Product.status p = "inactive" -> Product.status p' = "inactive").
Proof.
  assert (products_kept s (serve_each rs s)) as H.
  { revert s. induction rs as [|[env r] rs IH]; intros s;
      cbn [serve_each fold_left fst snd].
    - apply products_kept_refl.
    - eapply products_kept_trans; [apply serve_keeps_products | apply IH]. }
  intros p Hp. destruct (keeps_rows_later _ _ _ _ p H Hp) as [p' [Hp' Hs]].
  exists p'. split; [exact Hp' | exact Hs].
Qed.

(** On the sample database, after the owner deleted the lamp, renamed it
    and created another product, the lamp is stored as an inactive product
    of the same owner. *)
Lemma products_keep_identity_witness :
  exists p',
    In p' (products
             (serve_each
                [(sample_env, DeleteProduct 1 Sample.alice);
                 (sample_env, UpdateProduct 1 (Some "Desk lamp") None None None None
                                Sample.alice);
                 (sample_env, CreateProduct "Kettle" None "home" None
                                (Products.mkUploadFile "kettle.png" "image/png")
                                Sample.alice 21)]
                Sample.db))
    /\ Product.id p' = 1 /\ Product.manufacturer_id p' = Some 1
    /\ Product.created_at p' = 20.
Proof.
  destruct (products_keep_identity
              [(sample_env, DeleteProduct 1 Sample.alice);
               (sample_env, UpdateProduct 1 (Some "Desk lamp") None None None None
                              Sample.alice);
               (sample_env, CreateProduct "Kettle" None "home" None
                              (Products.mkUploadFile "kettle.png" "image/png")
                              Sample.alice 21)]
              Sample.db Sample.lamp (or_introl eq_refl))
    as [p' [H0 [H1 [H2 [H3 _]]]]].
  exists p'. now repeat split.
Defined.

(** X26. Roles change through an admin's role update only.  After any
    sequence of requests in which no role update is sent by an admin, every
    account there was is still there with the same id and the same role,
    and every account added since is a manufacturer; so whoever is an admin
    at the end was one at the start. *)
Theorem roles_change_only_by_admin (env : Collaborators) (rs : list request) (s : Store) :
  Forall changes_no_role rs ->
  accounts_kept s (serve_all env rs s)
  /\ forall u', In u' (users (serve_all env rs s)) -> User.role u' = "admin" ->
       exists u, In u (users s) /\ User.id u = User.id u' /\ User.role u = "admin".
Proof.
  intros Hrs.
  assert (accounts_kept s (serve_all env rs s)) as H.
  { revert s. induction Hrs as [|r rs Hr _ IH]; intros s; cbn [serve_all fold_left].
    - apply accounts_kept_refl.
    - eapply accounts_kept_trans; [apply (serve_keeps_accounts env r s Hr) | apply IH]. }
  split; [exact H|]. intros u' Hu' Hadmin.
  destruct (keeps_rows_earlier _ _ _ _ u' H Hu') as [[u [Hu [Hid [Hrole _]]]]|Hnew].
  - exists u. repeat split; congruence.
  - rewrite Hadmin in Hnew. discriminate.
Qed.

Lemma roles_change_only_by_admin_witness :
  accounts_kept scenario_start (serve_all sample_env scenario scenario_start).
Proof.
  apply (proj1 (roles_change_only_by_admin sample_env scenario scenario_start
                  ltac:(repeat constructor))).
Defined.

(** X27. A tag that left the pool is final.  From a database that satisfies
    the constraints, after any sequence of requests every tag there was is
    still there with its id, code, token id and batch, and a tag whose
    status was not "unused" is there as the very same row: no request
    reassigns it to another product, changes its status or deletes it. *)
Theorem assigned_tags_are_final (env : Collaborators) (rs : list request) (s : Store) :
  consistent s = true ->
  tags_kept s (serve_all env rs s)
  /\ forall g, In g (tags s) -> (Tag.status g =? "unused")%string = false ->
       In g (tags (serve_all env rs s)).
Proof.
  intros WF. pose proof (serve_all_keeps_tags env rs s WF) as H. split; [exact H|].
  intros g Hg Hs. destruct (keeps_rows_later _ _ _ _ g H Hg) as [g' [Hg' Hsame]].
  destruct Hsame as [_ [_ [_ [_ Hfinal]]]]. now rewrite <- (Hfinal Hs).
Qed.

Lemma assigned_tags_are_final_witness :
  In Sample.tag3 (tags (serve_all sample_env
                          [AssignTags 1 2 Sample.alice;
                           MintWarehouse (TagGenerationRequest.mk None 2 "warehouse")
                                         Sample.root 40;
                           AssignTags 1 2 Sample.alice]
                          Sample.db)).
Proof.
  apply (proj2 (assigned_tags_are_final sample_env
                  [AssignTags 1 2 Sample.alice;
                   MintWarehouse (TagGenerationRequest.mk None 2 "warehouse")
                                 Sample.root 40;
                   AssignTags 1 2 Sample.alice]
                  Sample.db eq_refl) Sample.tag3).
  - cbn. tauto.
  - reflexivity.
Defined.

(** X28. Account ids and emails stay unique.  From a users table without
    two rows of the same id or the same email, no sequence of requests
    reaches one with such rows: the checks of registration and of the
    profile update are enough, the unique constraint of the column is never
    what refuses a request.  In particular a profile update to an email
    that an account already has is answered with 400 and changes nothing,
    not even the name. *)
Theorem account_emails_stay_unique (env : Collaborators) (rs : list request) (s : Store) :
  accounts_unique s = true ->
  NoDup (map User.id (users (serve_all env rs s)))
  /\ NoDup (map User.email (users (serve_all env rs s)))
  /\ forall e name current_user other,
       find (fun u => (User.email u =? e)%string) (users s) = Some other ->
       e <> "" -> e <> User.email current_user ->
       run_request
         (Users.update_current_user_profile (UserUpdate.mk (Some e) name) current_user) s
       = (s, Raise (HTTPException 400 "Email already taken")).
Proof.
  intros WF. pose proof (serve_all_keeps_accounts_unique env rs s WF) as H.
  unfold accounts_unique in H. apply andb_true_iff in H. destruct H as [H1 H2].
  split; [now apply distinctZ_NoDup|]. split; [now apply distinct_NoDup|].
  intros e name current_user other F N1 N2.
  unfold Users.update_current_user_profile. cbn [UserUpdate.email UserUpdate.name].
  apply String.eqb_neq in N1, N2. rewrite N1, N2. cbn [negb andb].
  unfold_session. now rewrite F.
Qed.

Lemma account_emails_stay_unique_witness :
  NoDup (map User.email (users (serve_all sample_env scenario Sample.db))).
Proof.
  exact (proj1 (proj2 (account_emails_stay_unique sample_env scenario Sample.db eq_refl))).
Defined.

(** X29. The keys of products, tags and reset tokens stay unique.  From a
    database that satisfies the constraints of the schema, after any
    sequence of requests no two products share an id, no two tags share a
    code, no two reset tokens share an id or a token value, and every reset
    token belongs to an account that exists. *)
Theorem keys_stay_unique (env : Collaborators) (rs : list request) (s : Store) :
  consistent s = true ->
  let s' := serve_all env rs s in
  NoDup (map Product.id (products s'))
  /\ NoDup (map Tag.tag_code (tags s'))
  /\ NoDup (map PasswordResetToken.id (password_reset_tokens s'))
  /\ NoDup (map PasswordResetToken.token (password_reset_tokens s'))
  /\ forall r, In r (password_reset_tokens s') ->
       exists u, In u (users s') /\ User.id u = PasswordResetToken.user_id r.
Proof.
  intros WF s'. pose proof (Constraints.reachable_consistent env rs s WF) as H.
  fold s' in H. unfold consistent, products_consistent, tags_consistent,
    reset_tokens_consistent in H.
  rewrite !andb_true_iff in H. destruct H as [[Hp Hg] [[Hi Ht] Hu]].
  split; [now apply distinctZ_NoDup|]. split; [now apply distinct_NoDup|].
  split; [now apply distinctZ_NoDup|]. split; [now apply distinct_NoDup|].
  intros r Hr. rewrite forallb_forall in Hu. specialize (Hu r Hr).
  apply existsb_exists in Hu. destruct Hu as [u [Hu E]]. apply Z.eqb_eq in E.
  now exists u.
Qed.

Lemma keys_stay_unique_witness :
  NoDup (map Tag.tag_code (tags (serve_all sample_env scenario Sample.db))).
Proof.
  exact (proj1 (proj2 (keys_stay_unique sample_env scenario Sample.db eq_refl))).
Defined.

(** X30. No tag is handed out twice.  From a database that satisfies the
    constraints, take a successful assignment, then any sequence of
    requests, then another successful assignment, by whomever and for
    whatever product: no code in the answer of the first is in the answer
    of the second. *)
Theorem no_tag_is_assigned_twice
    (env : Collaborators) (rs : list request)
    (product_id1 count1 : Z) (user1 : User.t) (product_id2 count2 : Z) (user2 : User.t)
    (s : Store) (resp1 resp2 : BatchAssignmentResponse.t) :
  let first := run_request (Tags.assign_tags_to_product product_id1 count1 user1) s in
  let later := serve_all env rs (fst first) in
  let second := run_request (Tags.assign_tags_to_product product_id2 count2 user2) later in
  consistent s = true ->
  snd first = Return resp1 ->
  snd second = Return resp2 ->
  forall code, In code (BatchAssignmentResponse.assigned_tag_codes resp1) ->
               ~ In code (BatchAssignmentResponse.assigned_tag_codes resp2).
Proof.
  intros first later second WF R1 R2 code H1 H2.
  destruct (assign_success _ _ _ _ _ R1) as [p1 [C1 S1]].
  destruct (assign_success _ _ _ _ _ R2) as [p2 [C2 _]].
  fold first in S1. rewrite C1 in H1. rewrite C2 in H2. clear C1 C2 R1 R2.
  assert (tags_consistent s = true) as WT.
  { unfold consistent in WF. rewrite !andb_true_iff in WF. tauto. }
  assert (consistent (fst first) = true) as WF1.
  { exact (Constraints.serve_consistent env (AssignTags product_id1 count1 user1) s WF). }
  assert (consistent later = true) as WF2.
  { now apply Constraints.reachable_consistent. }
  apply in_map_iff in H1. destruct H1 as [g1 [Hc1 Hg1]].
  assert (In g1 (tags s)) as Hin1.
  { apply firstn_incl in Hg1. unfold unused in Hg1. apply filter_In in Hg1. tauto. }
  set (g1' := Tag.set_values (Product.id p1) "active" g1).
  assert (In g1' (tags (fst first))) as Hin1'.
  { rewrite S1. cbn [with_tags tags]. apply in_map_iff. exists g1. split; [|exact Hin1].
    unfold assign.
    assert (mem_string (Tag.tag_code g1)
              (map Tag.tag_code (firstn (Z.to_nat count1) (unused s))) = true) as ->;
      [|reflexivity].
    apply mem_string_In. now apply in_map. }
  assert (In g1' (tags later)) as Hlater.
  { destruct (keeps_rows_later _ _ _ _ g1' (serve_all_keeps_tags env rs _ WF1) Hin1')
      as [g [Hg Hsame]].
    destruct Hsame as [_ [_ [_ [_ Hfinal]]]]. now rewrite <- (Hfinal eq_refl). }
  apply in_map_iff in H2. destruct H2 as [g2 [Hc2 Hg2]].
  apply firstn_incl in Hg2. unfold unused in Hg2. apply filter_In in Hg2.
  destruct Hg2 as [Hin2 Hst2].
  assert (g1' = g2) as E.
  { apply (unique_column Tag.tag_code (tags later)); try assumption.
    - apply distinct_NoDup. unfold consistent in WF2. rewrite !andb_true_iff in WF2.
      unfold tags_consistent in WF2. tauto.
    - cbn [g1' Tag.set_values Tag.tag_code]. congruence. }
  rewrite <- E in Hst2. discriminate.
Qed.

Lemma no_tag_is_assigned_twice_witness :
  ~ In "code-1"
       (BatchAssignmentResponse.assigned_tag_codes
          (BatchAssignmentResponse.mk
             "Successfully assigned 1 tags to product 'Lamp' (ID: 1)." ["code-2"])).
Proof.
  apply (no_tag_is_assigned_twice sample_env [VerifyPublic "code-1" None 60]
           1 1 Sample.alice 1 1 Sample.alice Sample.db
           (BatchAssignmentResponse.mk
              "Successfully assigned 1 tags to product 'Lamp' (ID: 1)." ["code-1"])
           (BatchAssignmentResponse.mk
              "Successfully assigned 1 tags to product 'Lamp' (ID: 1)." ["code-2"])
           eq_refl eq_refl eq_refl "code-1").
  now left.
Defined.

End Invariants.
